(** * sora2api_cf: the relay workers, embedded and checked against their specification

    The repository holds three deployment files that relay HTTP calls to an
    upstream API:

    - [cf-worker-proxy.js]     (module [CfWorkerProxy]):  /proxy, /upload, /health
    - [cf-worker-upload.js]    (module [CfWorkerUpload]): /upload, /health
    - [supabase-edge-proxy.ts] (module [SupabaseEdgeProxy]): the same routes,
      matched by path suffix

    Each handler is an [async] function whose body sits in one [try]/[catch].
    The embedding is a state-and-exception monad [Js]: the state records the
    calls handed to the platform's [fetch] and the lines written with
    [console.error]; an exception is a JavaScript [Error] object.

    The platform the code runs on (JSON, case mapping outside ASCII, number
    printing, error texts) is a type class [Runtime]; the upstream server and
    the clock are an oracle [Env].  Platform functions whose outcome flows back
    into the program are modelled from their standards: [atob] (HTML,
    forgiving-base64 decode), the [Response] constructor (Fetch, "initialize a
    response"), [ToString], [ToBoolean], property reads and strict-mode
    property writes (ECMAScript; the three files are modules, hence strict).
    Values handed out to the platform ([fetch] arguments, [FormData] entries,
    response headers) are recorded as the program hands them over.

    Layout: strings and values; the platform; the three files; a reference
    runtime on which closed examples are evaluated; the vocabulary of the
    specification; then the properties, one theorem per claim (C1 to C10). *)

From Stdlib Require Import String Ascii Bool Arith NArith ZArith Lia List.
From Stdlib Require Import Floats.SpecFloat DecimalString.
Import ListNotations.

Set Implicit Arguments.
Set Warnings "-register-all".

(* ===================================================================== *)
(** ** JavaScript strings: sequences of UTF-16 code units *)
(* ===================================================================== *)

Definition jsstring := list N.

(** A literal of the source text (ASCII) as a JavaScript string. *)
Definition js (s : string) : jsstring :=
  List.map N_of_ascii (list_ascii_of_string s).

Fixpoint jsstring_eqb (s t : jsstring) : bool :=
  match s, t with
  | [], [] => true
  | c :: s', d :: t' => N.eqb c d && jsstring_eqb s' t'
  | _, _ => false
  end.

(** [String.prototype.endsWith(searchString)]: the last
    [searchString.length] units of [s] are compared; a search string longer
    than [s] never matches. *)
Definition endsWith (s searchString : jsstring) : bool :=
  let searchLength := length searchString in
  (searchLength <=? length s)%nat &&
  jsstring_eqb (skipn (length s - searchLength) s) searchString.

Definition is_ascii_unit (c : N) : bool := (c <? 128)%N.

Definition upper_ascii_unit (c : N) : N :=
  if ((97 <=? c) && (c <=? 122))%N then (c - 32)%N else c.

Definition lower_ascii_unit (c : N) : N :=
  if ((65 <=? c) && (c <=? 90))%N then (c + 32)%N else c.

(** [String.prototype.charCodeAt(i)] inside the string's range. *)
Definition charCodeAt (s : jsstring) (i : nat) : N := nth i s 0%N.

Definition is_high_surrogate (c : N) : bool := ((55296 <=? c) && (c <=? 56319))%N.
Definition is_low_surrogate (c : N) : bool := ((56320 <=? c) && (c <=? 57343))%N.

(** The string iterator ([String.prototype[Symbol.iterator]]) yields one
    string per code point: a surrogate pair stays together, every other unit
    stands alone. *)
Fixpoint string_iterator (s : jsstring) : list jsstring :=
  match s with
  | [] => []
  | c :: rest =>
      match rest with
      | d :: rest' =>
          if is_high_surrogate c && is_low_surrogate d
          then [c; d] :: string_iterator rest'
          else [c] :: string_iterator rest
      | [] => [[c]]
      end
  end.

(* ===================================================================== *)
(** ** JavaScript values reachable from JSON text *)
(* ===================================================================== *)

(** Numbers are IEEE-754 binary64 values ([spec_float]).  An object is its
    list of own properties in property order. *)
Inductive JSValue : Type :=
| JUndefined
| JNull
| JBool (b : bool)
| JNumber (x : spec_float)
| JString (s : jsstring)
| JArray (items : list JSValue)
| JObject (props : list (jsstring * JSValue)).

(** [ToBoolean]. *)
Definition truthy (v : JSValue) : bool :=
  match v with
  | JUndefined | JNull => false
  | JBool b => b
  | JNumber (S754_zero _) | JNumber S754_nan => false
  | JNumber _ => true
  | JString s => negb (jsstring_eqb s [])
  | JArray _ | JObject _ => true
  end.

Fixpoint assoc_get (k : jsstring) (props : list (jsstring * JSValue)) : option JSValue :=
  match props with
  | [] => None
  | (k', v) :: rest => if jsstring_eqb k k' then Some v else assoc_get k rest
  end.

(** [o[k] = v] on an ordinary object: an existing property keeps its place,
    a new one (no key written by the program is an array index) goes last. *)
Fixpoint assoc_set (k : jsstring) (v : JSValue) (props : list (jsstring * JSValue))
  : list (jsstring * JSValue) :=
  match props with
  | [] => [(k, v)]
  | (k', v') :: rest =>
      if jsstring_eqb k k' then (k', v) :: rest else (k', v') :: assoc_set k v rest
  end.

(** [v.k] / [v[k]] for the keys the program reads ([method], [url],
    [headers], [body], [image_data], [filename], [token], [target_url],
    [Content-Type]): none of them is a property of a prototype, an array
    index or [length], so only an object's own property can answer. *)
Definition get_prop (v : JSValue) (k : jsstring) : JSValue :=
  match v with
  | JObject props => match assoc_get k props with Some x => x | None => JUndefined end
  | _ => JUndefined
  end.

(** [a || b]. *)
Definition js_or (a b : JSValue) : JSValue := if truthy a then a else b.

(* ===================================================================== *)
(** ** Exceptions and the platform *)
(* ===================================================================== *)

Record JSError : Type := mkError { err_name : jsstring; err_message : jsstring }.

(** The places where a platform function used by the program throws on its
    own; the wording of the message is the platform's. *)
Inductive BuiltinFailure : Type :=
| DestructureNullish                 (* const { a } = null *)
| NotAFunction (prop : jsstring)     (* v.prop(...) where v.prop is not callable *)
| CannotCreateProperty               (* strict-mode assignment on a primitive *)
| CannotConvertToPrimitive           (* ToString on an object without a usable toString *)
| AtobInvalidCharacter               (* atob on text that is not base64 *)
| ResponseStatusRange                (* new Response: status outside 200..599 *)
| ResponseNullBodyStatus.            (* new Response: body with a null-body status *)

Class Runtime : Type := {
  (** [JSON.parse]: [inl] is the thrown [SyntaxError]. *)
  JSON_parse : jsstring -> JSError + JSValue;
  (** [JSON.stringify] on a value that came from [JSON.parse] or from an
      object literal of strings. *)
  JSON_stringify : JSValue -> jsstring;
  (** [Number.prototype.toString] (radix 10). *)
  Number_toString : spec_float -> jsstring;
  (** Unicode case mapping of a string that has a unit outside ASCII. *)
  toUpperCase_unicode : jsstring -> jsstring;
  toLowerCase_unicode : jsstring -> jsstring;
  builtin_message : BuiltinFailure -> jsstring
}.

(** An entry of a [FormData]: [append(name, new Blob([bytes], { type }), filename)]
    or [append(name, value)]. *)
Inductive FormDataEntry : Type :=
| FileEntry (name : jsstring) (bytes : list N) (type : jsstring) (filename : JSValue)
| TextEntry (name : jsstring) (value : JSValue).

Inductive BodyInit : Type :=
| BodyText (text : jsstring)
| BodyFormData (entries : list FormDataEntry).

(** The second argument of [fetch]. *)
Record RequestInit : Type := {
  init_method : jsstring;
  init_headers : JSValue;
  init_body : option BodyInit
}.

(** One invocation of the platform's [fetch]. *)
Record FetchCall : Type := { call_url : JSValue; call_init : RequestInit }.

(** The object [fetch] resolves to: [status], and what [text()] gives. *)
Record FetchResponse : Type := {
  status : Z;
  text_outcome : JSError + jsstring
}.

Inductive FetchOutcome : Type :=
| FetchRejects (e : JSError)
| FetchResolves (r : FetchResponse).

Record Env : Type := {
  upstream : FetchCall -> FetchOutcome;
  (** [new Date().toISOString()] at the time of the request. *)
  clock_toISOString : jsstring
}.

(* ===================================================================== *)
(** ** The monad of an [async] function body *)
(* ===================================================================== *)

(** What a handler leaves behind besides its response. *)
Record World : Type := {
  calls : list FetchCall;                   (* invocations of fetch, oldest first *)
  console : list (jsstring * JSError)       (* console.error(label, error) *)
}.

Definition Js (A : Type) : Type := World -> (JSError + A) * World.

Definition ret {A} (a : A) : Js A := fun w => (inr a, w).

Definition throw {A} (e : JSError) : Js A := fun w => (inl e, w).

Definition bind {A B} (m : Js A) (k : A -> Js B) : Js B :=
  fun w => match m w with
           | (inr a, w') => k a w'
           | (inl e, w') => (inl e, w')
           end.

(** A platform function that throws or returns without touching the world. *)
Definition lift {A} (r : JSError + A) : Js A := fun w => (r, w).

(** [try { body } catch (error) { handler }]. *)
Definition try_catch {A} (body : Js A) (handler : JSError -> Js A) : Js A :=
  fun w => match body w with
           | (inl e, w') => handler e w'
           | (inr a, w') => (inr a, w')
           end.

Notation "x <- m ;; k" := (bind m (fun x => k))
  (at level 61, m at next level, right associativity).
Notation "m ;;; k" := (bind m (fun _ => k))
  (at level 61, right associativity).

Definition console_error (label : jsstring) (error : JSError) : Js unit :=
  fun w => (inr tt, {| calls := calls w; console := console w ++ [(label, error)] |}).

(* ===================================================================== *)
(** ** Platform functions whose result the program uses *)
(* ===================================================================== *)

Section Platform.
Context {RT : Runtime}.

Definition TypeError (why : BuiltinFailure) : JSError :=
  mkError (js "TypeError") (builtin_message why).

Definition RangeError (why : BuiltinFailure) : JSError :=
  mkError (js "RangeError") (builtin_message why).

Definition DOMException (name : jsstring) (why : BuiltinFailure) : JSError :=
  mkError name (builtin_message why).

(** [String.prototype.toUpperCase] / [toLowerCase]: on an all-ASCII string
    only the 26 letters move. *)
Definition toUpperCase (s : jsstring) : jsstring :=
  if forallb is_ascii_unit s then map upper_ascii_unit s else toUpperCase_unicode s.

Definition toLowerCase (s : jsstring) : jsstring :=
  if forallb is_ascii_unit s then map lower_ascii_unit s else toLowerCase_unicode s.

(** [v.toUpperCase()] / [v.toLowerCase()] on a value from JSON: only a
    string has the method. *)
Definition call_toUpperCase (v : JSValue) : Js jsstring :=
  match v with
  | JString s => ret (toUpperCase s)
  | _ => throw (TypeError (NotAFunction (js "toUpperCase")))
  end.

Definition call_toLowerCase (v : JSValue) : Js jsstring :=
  match v with
  | JString s => ret (toLowerCase s)
  | _ => throw (TypeError (NotAFunction (js "toLowerCase")))
  end.

(** [ToString].  An array prints its elements joined by commas, with
    [null] and [undefined] elements empty; a plain object prints as
    [[object Object]] unless an own (hence non-callable) [toString] property
    hides the inherited method, in which case the conversion throws. *)
Fixpoint ToString (v : JSValue) : JSError + jsstring :=
  match v with
  | JUndefined => inr (js "undefined")
  | JNull => inr (js "null")
  | JBool true => inr (js "true")
  | JBool false => inr (js "false")
  | JNumber x => inr (Number_toString x)
  | JString s => inr s
  | JArray items =>
      (fix join (l : list JSValue) : JSError + jsstring :=
         match l with
         | [] => inr []
         | x :: rest =>
             let element :=
               match x with
               | JUndefined | JNull => inr []
               | _ => ToString x
               end in
             match element, rest with
             | inl e, _ => inl e
             | inr s, [] => inr s
             | inr s, _ :: _ =>
                 match join rest with
                 | inl e => inl e
                 | inr t => inr (s ++ js "," ++ t)
                 end
             end
         end) items
  | JObject props =>
      match assoc_get (js "toString") props with
      | Some _ => inl (TypeError CannotConvertToPrimitive)
      | None => inr (js "[object Object]")
      end
  end.

(** [const { a, b } = data]: reading properties off [null] or [undefined]
    throws; any other value answers (with [undefined] where it has no such
    property). *)
Definition destructure (data : JSValue) : Js JSValue :=
  match data with
  | JUndefined | JNull => throw (TypeError DestructureNullish)
  | _ => ret data
  end.

(** [target[k] = v] in module (strict-mode) code.  A property put on an
    array is not one of its elements, and [fetch] reads an array of header
    pairs by its elements only. *)
Definition set_prop (target : JSValue) (k : jsstring) (v : JSValue) : Js JSValue :=
  match target with
  | JObject props => ret (JObject (assoc_set k v props))
  | JArray items => ret (JArray items)
  | _ => throw (TypeError CannotCreateProperty)
  end.
End Platform.

(** *** atob: the forgiving-base64 decode of the HTML standard *)

Definition is_ascii_whitespace (c : N) : bool :=
  (N.eqb c 9 || N.eqb c 10 || N.eqb c 12 || N.eqb c 13 || N.eqb c 32).

(** An [=] or two are dropped from the end, only when the length is a
    multiple of four. *)
Definition remove_padding (data : jsstring) : jsstring :=
  if (length data mod 4 =? 0)%nat then
    match rev data with
    | last :: before :: r =>
        if N.eqb last 61 then
          if N.eqb before 61 then rev r else rev (before :: r)
        else data
    | [last] => if N.eqb last 61 then [] else data
    | [] => data
    end
  else data.

(** Position of a code unit in the base64 alphabet [A-Za-z0-9+/]. *)
Definition base64_index (c : N) : option N :=
  if ((65 <=? c) && (c <=? 90))%N then Some (c - 65)%N
  else if ((97 <=? c) && (c <=? 122))%N then Some (c - 71)%N
  else if ((48 <=? c) && (c <=? 57))%N then Some (c + 4)%N
  else if N.eqb c 43 then Some 62%N
  else if N.eqb c 47 then Some 63%N
  else None.

Fixpoint base64_indices (data : jsstring) : option (list N) :=
  match data with
  | [] => Some []
  | c :: rest =>
      match base64_index c, base64_indices rest with
      | Some i, Some l => Some (i :: l)
      | _, _ => None
      end
  end.

(** Four sextets fill a 24-bit buffer that is emitted as three bytes; a
    rest of three (two) sextets loses its last two (four) bits. *)
Fixpoint decode_sextets (l : list N) : list N :=
  match l with
  | a :: b :: c :: d :: rest =>
      let buffer := N.lor (N.lor (N.shiftl a 18) (N.shiftl b 12)) (N.lor (N.shiftl c 6) d) in
      N.shiftr buffer 16 :: N.land (N.shiftr buffer 8) 255 :: N.land buffer 255
        :: decode_sextets rest
  | [a; b; c] =>
      let buffer := N.shiftr (N.lor (N.lor (N.shiftl a 12) (N.shiftl b 6)) c) 2 in
      [N.shiftr buffer 8; N.land buffer 255]
  | [a; b] =>
      [N.shiftr (N.lor (N.shiftl a 6) b) 4]
  | _ => []
  end.

Definition forgiving_base64_decode (data : jsstring) : option jsstring :=
  let data := filter (fun c => negb (is_ascii_whitespace c)) data in
  let data := remove_padding data in
  if (length data mod 4 =? 1)%nat then None
  else match base64_indices data with
       | None => None
       | Some sextets => Some (decode_sextets sextets)
       end.

Section PlatformCalls.
Context {RT : Runtime} (env : Env).

(** [atob(data)]: the argument is converted with [ToString]; the result is
    a string with one code unit per decoded byte; text that does not decode
    throws an [InvalidCharacterError]. *)
Definition atob (data : JSValue) : Js jsstring :=
  text <- lift (ToString data) ;;
  match forgiving_base64_decode text with
  | Some binaryStr => ret binaryStr
  | None => throw (DOMException (js "InvalidCharacterError") AtobInvalidCharacter)
  end.

(** [fetch(input, init)]: the call is recorded, the upstream answers. *)
Definition fetch (input : JSValue) (init : RequestInit) : Js FetchResponse :=
  fun w =>
    let call := {| call_url := input; call_init := init |} in
    let w' := {| calls := calls w ++ [call]; console := console w |} in
    match upstream env call with
    | FetchRejects e => (inl e, w')
    | FetchResolves r => (inr r, w')
    end.

(** [await response.text()]. *)
Definition Response_text (response : FetchResponse) : Js jsstring :=
  lift (text_outcome response).
End PlatformCalls.

(** *** Typed arrays *)

(** Storing a number in a [Uint8Array] keeps its low eight bits. *)
Definition ToUint8 (c : N) : N := (c mod 256)%N.

(** [new Uint8Array(n)]: [n] zero bytes. *)
Definition Uint8Array_new (n : nat) : list N := repeat 0%N n.

(** [bytes[i] = x]: a store outside the array's length is dropped. *)
Fixpoint array_store (i : nat) (x : N) (bytes : list N) : list N :=
  match bytes, i with
  | [], _ => []
  | _ :: rest, O => ToUint8 x :: rest
  | b :: rest, S i' => b :: array_store i' x rest
  end.

(** [Uint8Array.from(str, mapFn)]: [mapFn] runs on each element the string's
    iterator yields. *)
Definition Uint8Array_from (str : jsstring) (mapFn : jsstring -> N) : list N :=
  map (fun c => ToUint8 (mapFn c)) (string_iterator str).

(** *** The Response constructor *)

(** An HTTP response as the worker returns it. *)
Record Response : Type := {
  resp_status : Z;
  resp_headers : list (jsstring * jsstring);
  resp_body : option jsstring
}.

(** The null body statuses of the Fetch standard. *)
Definition null_body_status (s : Z) : bool :=
  (Z.eqb s 101 || Z.eqb s 103 || Z.eqb s 204 || Z.eqb s 205 || Z.eqb s 304).

Section ResponseConstructor.
Context {RT : Runtime}.

(** [new Response(body, { status, headers })] (Fetch standard, "initialize
    a response"): [status] is an [unsigned short] and defaults to 200; a
    status outside 200..599 throws a [RangeError]; a body together with a
    null body status throws a [TypeError]. *)
Definition new_Response (body : option jsstring) (init_status : option Z)
    (headers : list (jsstring * jsstring)) : JSError + Response :=
  let s := match init_status with
           | Some s => (s mod 65536)%Z
           | None => 200%Z
           end in
  if negb ((200 <=? s)%Z && (s <=? 599)%Z) then
    inl (RangeError ResponseStatusRange)
  else if match body with Some _ => null_body_status s | None => false end then
    inl (TypeError ResponseNullBodyStatus)
  else
    inr {| resp_status := s; resp_headers := headers; resp_body := body |}.
End ResponseConstructor.

(** [Headers.prototype.get]: header names compare without regard to ASCII
    case. *)
Fixpoint header_get (name : jsstring) (headers : list (jsstring * jsstring))
  : option jsstring :=
  match headers with
  | [] => None
  | (n, v) :: rest =>
      if jsstring_eqb (map lower_ascii_unit n) (map lower_ascii_unit name)
      then Some v else header_get name rest
  end.

(** *** The inbound request *)

Record Request : Type := {
  req_method : jsstring;      (* request.method *)
  req_pathname : jsstring;    (* new URL(request.url).pathname *)
  req_body : jsstring         (* the text of the body *)
}.

(** [await request.json()]: the body text through [JSON.parse]. *)
Definition Request_json {RT : Runtime} (request : Request) : Js JSValue :=
  lift (JSON_parse (req_body request)).

(** *** Statement forms shared by the three files *)

(** [for (let i = 0; i < n; i++) body(i)] with a bound the body leaves
    alone. *)
Definition for_range {S : Type} (n : nat) (body : nat -> S -> S) (s : S) : S :=
  fold_left (fun acc i => body i acc) (seq 0 n) s.

(** [formData.append(...)]. *)
Definition FormData_append (formData : list FormDataEntry) (entry : FormDataEntry)
  : list FormDataEntry := formData ++ [entry].

(** Every exception of this model is thrown by the platform, and the
    platform throws [Error] objects ([SyntaxError], [TypeError],
    [RangeError], [DOMException]). *)
Definition instanceof_Error (error : JSError) : bool := true.

(** [String(error)] for an [Error]: its name, a colon, its message. *)
Definition String_of_error (error : JSError) : jsstring :=
  err_name error ++ js ": " ++ err_message error.

Definition User_Agent : jsstring :=
  js "Sora/1.2026.007 (Android 15; 24122RKC7C; build 2600700)".

Definition with_body (o : RequestInit) (b : BodyInit) : RequestInit :=
  {| init_method := init_method o; init_headers := init_headers o; init_body := Some b |}.

Definition with_headers (o : RequestInit) (h : JSValue) : RequestInit :=
  {| init_method := init_method o; init_headers := h; init_body := init_body o |}.

(* ===================================================================== *)
(** ** cf-worker-proxy.js *)
(* ===================================================================== *)

Module CfWorkerProxy.
Section Worker.
Context {RT : Runtime} (env : Env).

Definition handleCORS : Js Response :=
  lift (new_Response None None
    [ (js "Access-Control-Allow-Origin", js "*");
      (js "Access-Control-Allow-Methods", js "GET, POST, OPTIONS");
      (js "Access-Control-Allow-Headers", js "Content-Type, Authorization");
      (js "Access-Control-Max-Age", js "86400") ]).

(** [function jsonResponse(data, status = 200)]. *)
Definition jsonResponse (data : JSValue) (status : option Z) : Js Response :=
  let status := match status with Some s => s | None => 200%Z end in
  lift (new_Response (Some (JSON_stringify data)) (Some status)
    [ (js "Content-Type", js "application/json");
      (js "Access-Control-Allow-Origin", js "*") ]).

Definition handleProxy (request : Request) : Js Response :=
  try_catch
    (data <- Request_json request ;;
     data <- destructure data ;;
     let method := get_prop data (js "method") in
     let url := get_prop data (js "url") in
     let headers := get_prop data (js "headers") in
     let body := get_prop data (js "body") in
     if negb (truthy method) || negb (truthy url) then
       jsonResponse
         (JObject [(js "error", JString (js "Missing required fields: method, url"))])
         (Some 400%Z)
     else
       METHOD <- call_toUpperCase method ;;
       let fetchOptions :=
         {| init_method := METHOD;
            init_headers := js_or headers (JObject []);
            init_body := None |} in
       METHOD' <- call_toUpperCase method ;;
       fetchOptions <-
         (if jsstring_eqb METHOD' (js "POST") && truthy body then
            let fetchOptions := with_body fetchOptions (BodyText (JSON_stringify body)) in
            if negb (truthy (get_prop (init_headers fetchOptions) (js "Content-Type"))) then
              h <- set_prop (init_headers fetchOptions) (js "Content-Type")
                     (JString (js "application/json")) ;;
              ret (with_headers fetchOptions h)
            else ret fetchOptions
          else ret fetchOptions) ;;
       response <- fetch env url fetchOptions ;;
       responseText <- Response_text response ;;
       responseData <-
         try_catch (lift (JSON_parse responseText))
                   (fun _ => ret (JObject [(js "raw_response", JString responseText)])) ;;
       jsonResponse responseData (Some (status response)))
    (fun error =>
       console_error (js "Proxy error:") error ;;;
       jsonResponse
         (JObject [(js "error", JString (js "Proxy request failed"));
                   (js "message", JString (err_message error))])
         (Some 500%Z)).

(** The block under the comment "检测 MIME 类型" (detect the MIME type). *)
Definition detect_mimeType (lowerFilename : jsstring) : jsstring :=
  let mimeType := js "image/png" in
  if endsWith lowerFilename (js ".jpg") || endsWith lowerFilename (js ".jpeg") then
    js "image/jpeg"
  else if endsWith lowerFilename (js ".webp") then
    js "image/webp"
  else if endsWith lowerFilename (js ".gif") then
    js "image/gif"
  else mimeType.

Definition handleUpload (request : Request) : Js Response :=
  try_catch
    (data <- Request_json request ;;
     data <- destructure data ;;
     let image_data := get_prop data (js "image_data") in
     let filename := get_prop data (js "filename") in
     let token := get_prop data (js "token") in
     let target_url := get_prop data (js "target_url") in
     if negb (truthy image_data) || negb (truthy filename)
        || negb (truthy token) || negb (truthy target_url) then
       jsonResponse
         (JObject [(js "error",
            JString (js "Missing required fields: image_data, filename, token, target_url"))])
         (Some 400%Z)
     else
       binaryStr <- atob image_data ;;
       let bytes := Uint8Array_new (length binaryStr) in
       let bytes :=
         for_range (length binaryStr)
           (fun i bytes => array_store i (charCodeAt binaryStr i) bytes) bytes in
       lowerFilename <- call_toLowerCase filename ;;
       let mimeType := detect_mimeType lowerFilename in
       let formData := [] in
       let formData := FormData_append formData (FileEntry (js "file") bytes mimeType filename) in
       let formData := FormData_append formData (TextEntry (js "file_name") filename) in
       bearer <- lift (ToString token) ;;
       response <- fetch env target_url
         {| init_method := js "POST";
            init_headers :=
              JObject [(js "Authorization", JString (js "Bearer " ++ bearer));
                       (js "User-Agent", JString User_Agent)];
            init_body := Some (BodyFormData formData) |} ;;
       responseText <- Response_text response ;;
       responseData <-
         try_catch (lift (JSON_parse responseText))
                   (fun _ => ret (JObject [(js "raw_response", JString responseText)])) ;;
       jsonResponse responseData (Some (status response)))
    (fun error =>
       console_error (js "Upload error:") error ;;;
       jsonResponse
         (JObject [(js "error", JString (js "Upload failed"));
                   (js "message", JString (err_message error))])
         (Some 500%Z)).

(** The [fetch] method of the default export: the router. *)
Definition fetch (request : Request) : Js Response :=
  if jsstring_eqb (req_method request) (js "OPTIONS") then handleCORS
  else if jsstring_eqb (req_pathname request) (js "/proxy")
          && jsstring_eqb (req_method request) (js "POST") then handleProxy request
  else if jsstring_eqb (req_pathname request) (js "/upload")
          && jsstring_eqb (req_method request) (js "POST") then handleUpload request
  else if jsstring_eqb (req_pathname request) (js "/health") then
    lift (new_Response
      (Some (JSON_stringify
         (JObject [(js "status", JString (js "ok"));
                   (js "timestamp", JString (clock_toISOString env))])))
      None
      [ (js "Content-Type", js "application/json") ])
  else
    lift (new_Response
      (Some (JSON_stringify (JObject [(js "error", JString (js "Not Found"))])))
      (Some 404%Z)
      [ (js "Content-Type", js "application/json") ]).
End Worker.
End CfWorkerProxy.

(* ===================================================================== *)
(** ** cf-worker-upload.js *)
(* ===================================================================== *)

Module CfWorkerUpload.
Section Worker.
Context {RT : Runtime} (env : Env).

Definition handleCORS : Js Response :=
  lift (new_Response None None
    [ (js "Access-Control-Allow-Origin", js "*");
      (js "Access-Control-Allow-Methods", js "GET, POST, OPTIONS");
      (js "Access-Control-Allow-Headers", js "Content-Type, Authorization");
      (js "Access-Control-Max-Age", js "86400") ]).

(** [function jsonResponse(data, status = 200)]. *)
Definition jsonResponse (data : JSValue) (status : option Z) : Js Response :=
  let status := match status with Some s => s | None => 200%Z end in
  lift (new_Response (Some (JSON_stringify data)) (Some status)
    [ (js "Content-Type", js "application/json");
      (js "Access-Control-Allow-Origin", js "*") ]).

(** The block under the comment "检测 MIME 类型" (detect the MIME type). *)
Definition detect_mimeType (lowerFilename : jsstring) : jsstring :=
  let mimeType := js "image/png" in
  if endsWith lowerFilename (js ".jpg") || endsWith lowerFilename (js ".jpeg") then
    js "image/jpeg"
  else if endsWith lowerFilename (js ".webp") then
    js "image/webp"
  else if endsWith lowerFilename (js ".gif") then
    js "image/gif"
  else mimeType.

Definition handleUpload (request : Request) : Js Response :=
  try_catch
    (data <- Request_json request ;;
     data <- destructure data ;;
     let image_data := get_prop data (js "image_data") in
     let filename := get_prop data (js "filename") in
     let token := get_prop data (js "token") in
     let target_url := get_prop data (js "target_url") in
     if negb (truthy image_data) || negb (truthy filename)
        || negb (truthy token) || negb (truthy target_url) then
       jsonResponse
         (JObject [(js "error",
            JString (js "Missing required fields: image_data, filename, token, target_url"))])
         (Some 400%Z)
     else
       binaryStr <- atob image_data ;;
       let bytes := Uint8Array_new (length binaryStr) in
       let bytes :=
         for_range (length binaryStr)
           (fun i bytes => array_store i (charCodeAt binaryStr i) bytes) bytes in
       lowerFilename <- call_toLowerCase filename ;;
       let mimeType := detect_mimeType lowerFilename in
       let formData := [] in
       let formData := FormData_append formData (FileEntry (js "file") bytes mimeType filename) in
       let formData := FormData_append formData (TextEntry (js "file_name") filename) in
       bearer <- lift (ToString token) ;;
       response <- fetch env target_url
         {| init_method := js "POST";
            init_headers :=
              JObject [(js "Authorization", JString (js "Bearer " ++ bearer));
                       (js "User-Agent", JString User_Agent)];
            init_body := Some (BodyFormData formData) |} ;;
       responseText <- Response_text response ;;
       responseData <-
         try_catch (lift (JSON_parse responseText))
                   (fun _ => ret (JObject [(js "raw_response", JString responseText)])) ;;
       jsonResponse responseData (Some (status response)))
    (fun error =>
       console_error (js "Upload error:") error ;;;
       jsonResponse
         (JObject [(js "error", JString (js "Upload failed"));
                   (js "message", JString (err_message error))])
         (Some 500%Z)).

(** The [fetch] method of the default export: the router. *)
Definition fetch (request : Request) : Js Response :=
  if jsstring_eqb (req_method request) (js "OPTIONS") then handleCORS
  else if jsstring_eqb (req_pathname request) (js "/upload")
          && jsstring_eqb (req_method request) (js "POST") then handleUpload request
  else if jsstring_eqb (req_pathname request) (js "/health") then
    lift (new_Response
      (Some (JSON_stringify
         (JObject [(js "status", JString (js "ok"));
                   (js "timestamp", JString (clock_toISOString env))])))
      None
      [ (js "Content-Type", js "application/json") ])
  else
    lift (new_Response
      (Some (JSON_stringify (JObject [(js "error", JString (js "Not Found"))])))
      (Some 404%Z)
      [ (js "Content-Type", js "application/json") ]).
End Worker.
End CfWorkerUpload.

(* ===================================================================== *)
(** ** supabase-edge-proxy.ts *)
(* ===================================================================== *)

Module SupabaseEdgeProxy.

Definition corsHeaders : list (jsstring * jsstring) :=
  [ (js "Access-Control-Allow-Origin", js "*");
    (js "Access-Control-Allow-Methods", js "GET, POST, OPTIONS");
    (js "Access-Control-Allow-Headers", js "Content-Type, Authorization");
    (js "Access-Control-Max-Age", js "86400") ].

Section Worker.
Context {RT : Runtime} (env : Env).

Definition handleCORS : Js Response :=
  lift (new_Response None None corsHeaders).

(** [function jsonResponse(data: unknown, status = 200)]; the headers are
    [{ "Content-Type": "application/json", ...corsHeaders }]. *)
Definition jsonResponse (data : JSValue) (status : option Z) : Js Response :=
  let status := match status with Some s => s | None => 200%Z end in
  lift (new_Response (Some (JSON_stringify data)) (Some status)
    ((js "Content-Type", js "application/json") :: corsHeaders)).

Definition handleProxy (request : Request) : Js Response :=
  try_catch
    (data <- Request_json request ;;
     data <- destructure data ;;
     let method := get_prop data (js "method") in
     let url := get_prop data (js "url") in
     let headers := get_prop data (js "headers") in
     let body := get_prop data (js "body") in
     if negb (truthy method) || negb (truthy url) then
       jsonResponse
         (JObject [(js "error", JString (js "Missing required fields: method, url"))])
         (Some 400%Z)
     else
       METHOD <- call_toUpperCase method ;;
       let fetchOptions :=
         {| init_method := METHOD;
            init_headers := js_or headers (JObject []);
            init_body := None |} in
       METHOD' <- call_toUpperCase method ;;
       fetchOptions <-
         (if jsstring_eqb METHOD' (js "POST") && truthy body then
            let fetchOptions := with_body fetchOptions (BodyText (JSON_stringify body)) in
            if negb (truthy (init_headers fetchOptions))
               || negb (truthy (get_prop (init_headers fetchOptions) (js "Content-Type"))) then
              h <- set_prop (init_headers fetchOptions) (js "Content-Type")
                     (JString (js "application/json")) ;;
              ret (with_headers fetchOptions h)
            else ret fetchOptions
          else ret fetchOptions) ;;
       response <- fetch env url fetchOptions ;;
       responseText <- Response_text response ;;
       responseData <-
         try_catch (lift (JSON_parse responseText))
                   (fun _ => ret (JObject [(js "raw_response", JString responseText)])) ;;
       jsonResponse responseData (Some (status response)))
    (fun error =>
       console_error (js "Proxy error:") error ;;;
       jsonResponse
         (JObject [(js "error", JString (js "Proxy request failed"));
                   (js "message",
                    JString (if instanceof_Error error then err_message error
                             else String_of_error error))])
         (Some 500%Z)).

(** The block under the comment "检测 MIME 类型" (detect the MIME type). *)
Definition detect_mimeType (lowerFilename : jsstring) : jsstring :=
  let mimeType := js "image/png" in
  if endsWith lowerFilename (js ".jpg") || endsWith lowerFilename (js ".jpeg") then
    js "image/jpeg"
  else if endsWith lowerFilename (js ".webp") then
    js "image/webp"
  else if endsWith lowerFilename (js ".gif") then
    js "image/gif"
  else mimeType.

Definition handleUpload (request : Request) : Js Response :=
  try_catch
    (data <- Request_json request ;;
     data <- destructure data ;;
     let image_data := get_prop data (js "image_data") in
     let filename := get_prop data (js "filename") in
     let token := get_prop data (js "token") in
     let target_url := get_prop data (js "target_url") in
     if negb (truthy image_data) || negb (truthy filename)
        || negb (truthy token) || negb (truthy target_url) then
       jsonResponse
         (JObject [(js "error",
            JString (js "Missing required fields: image_data, filename, token, target_url"))])
         (Some 400%Z)
     else
       binaryStr <- atob image_data ;;
       let binaryData := Uint8Array_from binaryStr (fun c => charCodeAt c 0) in
       lowerFilename <- call_toLowerCase filename ;;
       let mimeType := detect_mimeType lowerFilename in
       let formData := [] in
       let formData :=
         FormData_append formData (FileEntry (js "file") binaryData mimeType filename) in
       let formData := FormData_append formData (TextEntry (js "file_name") filename) in
       bearer <- lift (ToString token) ;;
       response <- fetch env target_url
         {| init_method := js "POST";
            init_headers :=
              JObject [(js "Authorization", JString (js "Bearer " ++ bearer));
                       (js "User-Agent", JString User_Agent)];
            init_body := Some (BodyFormData formData) |} ;;
       responseText <- Response_text response ;;
       responseData <-
         try_catch (lift (JSON_parse responseText))
                   (fun _ => ret (JObject [(js "raw_response", JString responseText)])) ;;
       jsonResponse responseData (Some (status response)))
    (fun error =>
       console_error (js "Upload error:") error ;;;
       jsonResponse
         (JObject [(js "error", JString (js "Upload failed"));
                   (js "message",
                    JString (if instanceof_Error error then err_message error
                             else String_of_error error))])
         (Some 500%Z)).

(** The handler passed to [serve]: the router. *)
Definition serve_handler (req : Request) : Js Response :=
  if jsstring_eqb (req_method req) (js "OPTIONS") then handleCORS
  else if endsWith (req_pathname req) (js "/proxy")
          && jsstring_eqb (req_method req) (js "POST") then handleProxy req
  else if endsWith (req_pathname req) (js "/upload")
          && jsstring_eqb (req_method req) (js "POST") then handleUpload req
  else if endsWith (req_pathname req) (js "/health") then
    jsonResponse
      (JObject [(js "status", JString (js "ok"));
                (js "timestamp", JString (clock_toISOString env))])
      None
  else
    jsonResponse (JObject [(js "error", JString (js "Not Found"))]) (Some 404%Z).
End Worker.
End SupabaseEdgeProxy.

(* ===================================================================== *)
(** ** A reference runtime *)
(* ===================================================================== *)

(** The theorems below hold on every [Runtime].  The closed examples are
    evaluated on this one: JSON text after ECMA-404 with the property order
    and number conversions of ECMAScript, error texts in the style of V8 and
    workerd, and a case mapping that moves the ASCII letters only. *)

Module ReferenceRuntime.

Definition is_json_whitespace (c : N) : bool :=
  N.eqb c 9 || N.eqb c 10 || N.eqb c 13 || N.eqb c 32.

Fixpoint skip_ws (s : jsstring) : jsstring :=
  match s with
  | c :: rest => if is_json_whitespace c then skip_ws rest else s
  | [] => []
  end.

Definition is_digit (c : N) : bool := ((48 <=? c) && (c <=? 57))%N.

Definition hex_value (c : N) : option N :=
  if is_digit c then Some (c - 48)%N
  else if ((97 <=? c) && (c <=? 102))%N then Some (c - 87)%N
  else if ((65 <=? c) && (c <=? 70))%N then Some (c - 55)%N
  else None.

Definition hex4 (a b c d : N) : option N :=
  match hex_value a, hex_value b, hex_value c, hex_value d with
  | Some x, Some y, Some z, Some w => Some (x * 4096 + y * 256 + z * 16 + w)%N
  | _, _, _, _ => None
  end.

(** The characters of a string literal, after its opening quote. *)
Fixpoint parse_string_chars (s acc : jsstring) : option (jsstring * jsstring) :=
  match s with
  | [] => None
  | 34%N :: rest => Some (rev acc, rest)
  | 92%N :: rest =>
      match rest with
      | 34%N :: r => parse_string_chars r (34%N :: acc)
      | 92%N :: r => parse_string_chars r (92%N :: acc)
      | 47%N :: r => parse_string_chars r (47%N :: acc)
      | 98%N :: r => parse_string_chars r (8%N :: acc)
      | 102%N :: r => parse_string_chars r (12%N :: acc)
      | 110%N :: r => parse_string_chars r (10%N :: acc)
      | 114%N :: r => parse_string_chars r (13%N :: acc)
      | 116%N :: r => parse_string_chars r (9%N :: acc)
      | 117%N :: a :: b :: c :: d :: r =>
          match hex4 a b c d with
          | Some u => parse_string_chars r (u :: acc)
          | None => None
          end
      | _ => None
      end
  | c :: rest => if (c <? 32)%N then None else parse_string_chars rest (c :: acc)
  end.

(** A run of decimal digits: its value, its length, what follows. *)
Fixpoint take_digits (s : jsstring) (value : N) (count : nat) : N * nat * jsstring :=
  match s with
  | c :: rest =>
      if is_digit c then take_digits rest (value * 10 + (c - 48))%N (S count)
      else (value, count, s)
  | [] => (value, count, [])
  end.

(** The binary64 value nearest to [m * 10^e10] (ties to even). *)
Definition SF_of_decimal (neg : bool) (m : N) (e10 : Z) : spec_float :=
  let signed (z : Z) := if neg then Z.opp z else z in
  if N.eqb m 0 then S754_zero neg
  else if (0 <=? e10)%Z then
    binary_normalize 53 1024 (signed (Z.of_N m * 10 ^ e10)%Z) 0 neg
  else
    let d := (10 ^ (- e10))%Z in
    let s := Z.max 0 (58 + Z.log2 d - Z.log2 (Z.of_N m)) in
    let q := (Z.of_N m * 2 ^ s / d)%Z in
    let sticky := if Z.eqb ((Z.of_N m * 2 ^ s) mod d) 0 then 0%Z else 1%Z in
    binary_normalize 53 1024 (signed (2 * q + sticky)%Z) (- s - 1) neg.

(** A number token: [-? int frac? exp?]. *)
Definition parse_number (s : jsstring) : option (spec_float * jsstring) :=
  let '(neg, s) := match s with 45%N :: r => (true, r) | _ => (false, s) end in
  let int_part :=
    match s with
    | 48%N :: r => Some (0%N, r)
    | c :: _ => if is_digit c then
                  let '(v, _, r) := take_digits s 0 0 in Some (v, r)
                else None
    | [] => None
    end in
  match int_part with
  | None => None
  | Some (i, s) =>
      let frac_part :=
        match s with
        | 46%N :: r =>
            match take_digits r i 0 with
            | (_, O, _) => None
            | (v, n, r') => Some (v, n, r')
            end
        | _ => Some (i, O, s)
        end in
      match frac_part with
      | None => None
      | Some (m, nfrac, s) =>
          let exp_part :=
            match s with
            | 101%N :: r | 69%N :: r =>
                let '(eneg, r) :=
                  match r with
                  | 45%N :: r' => (true, r')
                  | 43%N :: r' => (false, r')
                  | _ => (false, r)
                  end in
                match take_digits r 0 0 with
                | (_, O, _) => None
                | (v, _, r') => Some ((if eneg then - Z.of_N v else Z.of_N v)%Z, r')
                end
            | _ => Some (0%Z, s)
            end in
          match exp_part with
          | None => None
          | Some (e, s) => Some (SF_of_decimal neg m (e - Z.of_nat nfrac), s)
          end
      end
  end.

(** A key is an array index when it is the canonical decimal of an
    integer below 2^32 - 1. *)
Definition array_index (k : jsstring) : option N :=
  match k with
  | [] => None
  | [48%N] => Some 0%N
  | 48%N :: _ => None
  | _ =>
      if forallb is_digit k && (length k <=? 10)%nat then
        let '(v, _, _) := take_digits k 0 0 in
        if (v <? 4294967295)%N then Some v else None
      else None
  end.

(** [CreateDataProperty] seen through the order in which own keys are
    listed: array indices ascending, then the other keys as created. *)
Fixpoint define_property (k : jsstring) (v : JSValue) (props : list (jsstring * JSValue))
  : list (jsstring * JSValue) :=
  match props with
  | [] => [(k, v)]
  | (k', v') :: rest =>
      if jsstring_eqb k k' then (k', v) :: rest
      else match array_index k, array_index k' with
           | Some i, Some j =>
               if (i <? j)%N then (k, v) :: (k', v') :: rest
               else (k', v') :: define_property k v rest
           | Some _, None => (k, v) :: (k', v') :: rest
           | None, _ => (k', v') :: define_property k v rest
           end
  end.
(** The elements of an array after the first [[], and the members of an
    object after [{]; [parse_value] is the parser of the values inside. *)
Fixpoint parse_elements (parse_value : jsstring -> option (JSValue * jsstring))
    (fuel : nat) (s : jsstring) (acc : list JSValue) : option (list JSValue * jsstring) :=
  match fuel with
  | O => None
  | S fuel' =>
      match parse_value s with
      | None => None
      | Some (v, rest) =>
          match skip_ws rest with
          | 44%N :: r => parse_elements parse_value fuel' r (v :: acc)
          | 93%N :: r => Some (rev (v :: acc), r)
          | _ => None
          end
      end
  end.

Fixpoint parse_members (parse_value : jsstring -> option (JSValue * jsstring))
    (fuel : nat) (s : jsstring) (props : list (jsstring * JSValue))
  : option (list (jsstring * JSValue) * jsstring) :=
  match fuel with
  | O => None
  | S fuel' =>
      match skip_ws s with
      | 34%N :: r =>
          match parse_string_chars r [] with
          | None => None
          | Some (k, r) =>
              match skip_ws r with
              | 58%N :: r =>
                  match parse_value r with
                  | None => None
                  | Some (v, r) =>
                      let props := define_property k v props in
                      match skip_ws r with
                      | 44%N :: r => parse_members parse_value fuel' r props
                      | 125%N :: r => Some (props, r)
                      | _ => None
                      end
                  end
              | _ => None
              end
          end
      | _ => None
      end
  end.

Definition starts_with (prefix s : jsstring) : option jsstring :=
  if jsstring_eqb (firstn (length prefix) s) prefix
  then Some (skipn (length prefix) s) else None.

Fixpoint parse_value (fuel : nat) (s : jsstring) : option (JSValue * jsstring) :=
  match fuel with
  | O => None
  | S fuel' =>
      match skip_ws s with
      | 123%N :: r =>
          match skip_ws r with
          | 125%N :: r' => Some (JObject [], r')
          | _ => match parse_members (parse_value fuel') fuel' r [] with
                 | Some (props, r') => Some (JObject props, r')
                 | None => None
                 end
          end
      | 91%N :: r =>
          match skip_ws r with
          | 93%N :: r' => Some (JArray [], r')
          | _ => match parse_elements (parse_value fuel') fuel' r [] with
                 | Some (items, r') => Some (JArray items, r')
                 | None => None
                 end
          end
      | 34%N :: r =>
          match parse_string_chars r [] with
          | Some (str, r') => Some (JString str, r')
          | None => None
          end
      | (116%N :: _) as t =>
          match starts_with (js "true") t with
          | Some r => Some (JBool true, r)
          | None => None
          end
      | (102%N :: _) as t =>
          match starts_with (js "false") t with
          | Some r => Some (JBool false, r)
          | None => None
          end
      | (110%N :: _) as t =>
          match starts_with (js "null") t with
          | Some r => Some (JNull, r)
          | None => None
          end
      | t =>
          match parse_number t with
          | Some (x, r) => Some (JNumber x, r)
          | None => None
          end
      end
  end.

Definition SyntaxError_JSON : JSError :=
  mkError (js "SyntaxError") (js "Unexpected token in JSON").

Definition parse_text (text : jsstring) : JSError + JSValue :=
  match parse_value (S (length text)) text with
  | Some (v, rest) =>
      match skip_ws rest with
      | [] => inr v
      | _ :: _ => inl SyntaxError_JSON
      end
  | None => inl SyntaxError_JSON
  end.

(** *** Number to text *)

Definition digits_of (n : N) : jsstring :=
  js (DecimalString.NilZero.string_of_uint (N.to_uint n)).

(** Is the positive rational [num/den] at least [10^p]? *)
Definition ge_pow10 (num den p : Z) : bool :=
  if (0 <=? p)%Z then (den * 10 ^ p <=? num)%Z else (den <=? num * 10 ^ (- p))%Z.

(** The [n] with [10^(n-1) <= num/den < 10^n]. *)
Definition decimal_exponent (num den : Z) : Z :=
  let guess := (Z.of_nat (length (digits_of (Z.to_N num)))
                - Z.of_nat (length (digits_of (Z.to_N den))))%Z in
  if ge_pow10 num den guess then (guess + 1)%Z else guess.

Definition SF_same (x y : spec_float) : bool :=
  match x, y with
  | S754_finite s m e, S754_finite s' m' e' => Bool.eqb s s' && Pos.eqb m m' && Z.eqb e e'
  | _, _ => false
  end.

(** For [k] digits: the integers next to [x * 10^(k-n)] that read back
    as [x], the nearer one first. *)
Definition candidate (x : spec_float) (num den n : Z) (k : Z) : option (N * Z) :=
  let '(snum, sden) :=
    if (0 <=? k - n)%Z then (num * 10 ^ (k - n), den)%Z
    else (num, den * 10 ^ (n - k))%Z in
  let lo := (snum / sden)%Z in
  let hi := (lo + 1)%Z in
  let reads s := SF_same (SF_of_decimal false (Z.to_N s) (n - k)) x in
  let lo_first := (2 * snum <? (lo + hi) * sden)%Z
                  || (Z.eqb (2 * snum) ((lo + hi) * sden) && Z.even lo) in
  let pick s := if Z.eqb s (10 ^ k) then Some (Z.to_N (10 ^ (k - 1)), (n + 1)%Z)
                else Some (Z.to_N s, n) in
  match reads lo && (10 ^ (k - 1) <=? lo)%Z, reads hi with
  | true, true => if lo_first then pick lo else pick hi
  | true, false => pick lo
  | false, true => pick hi
  | false, false => None
  end.

Fixpoint shortest (x : spec_float) (num den n : Z) (fuel : nat) (k : Z) : N * Z * Z :=
  match fuel with
  | O => (0%N, k, n)
  | S fuel' =>
      match candidate x num den n k with
      | Some (s, n') => (s, k, n')
      | None => shortest x num den n fuel' (k + 1)
      end
  end.
Definition zeros (n : Z) : jsstring := repeat 48%N (Z.to_nat n).

(** [Number::toString] for a positive finite value with shortest digits
    [ds] ([k] of them) and decimal exponent [n]. *)
Definition format_digits (ds : jsstring) (k n : Z) : jsstring :=
  if ((k <=? n) && (n <=? 21))%Z then ds ++ zeros (n - k)
  else if ((0 <? n) && (n <=? 21))%Z then
    firstn (Z.to_nat n) ds ++ js "." ++ skipn (Z.to_nat n) ds
  else if ((-6 <? n) && (n <=? 0))%Z then js "0." ++ zeros (- n) ++ ds
  else
    let e := (n - 1)%Z in
    let exponent := (if (e <? 0)%Z then js "-" else js "+") ++ digits_of (Z.to_N (Z.abs e)) in
    match ds with
    | [d] => [d] ++ js "e" ++ exponent
    | d :: more => [d] ++ js "." ++ more ++ js "e" ++ exponent
    | [] => []
    end.

Definition number_to_text (x : spec_float) : jsstring :=
  match x with
  | S754_nan => js "NaN"
  | S754_infinity false => js "Infinity"
  | S754_infinity true => js "-Infinity"
  | S754_zero _ => js "0"
  | S754_finite sign m e =>
      let '(num, den) :=
        if (0 <=? e)%Z then ((Zpos m * 2 ^ e)%Z, 1%Z) else (Zpos m, (2 ^ (- e))%Z) in
      let n := decimal_exponent num den in
      let '(s, k, n) := shortest (S754_finite false m e) num den n 17 1 in
      (if sign then js "-" else []) ++ format_digits (digits_of s) k n
  end.

(** *** JSON.stringify *)

Definition hex_digit (d : N) : N := if (d <? 10)%N then (d + 48)%N else (d + 87)%N.

Definition unicode_escape (c : N) : jsstring :=
  js "\u" ++ [hex_digit (c / 4096); hex_digit (c / 256 mod 16);
              hex_digit (c / 16 mod 16); hex_digit (c mod 16)]%N.

(** [QuoteJSONString] without its quotes: short escapes, [\u00xx] for the
    other control characters, [\udxxx] for a surrogate without its pair. *)
Fixpoint quote_chars (s : jsstring) : jsstring :=
  match s with
  | [] => []
  | c :: rest =>
      if N.eqb c 8 then js "\b" ++ quote_chars rest
      else if N.eqb c 9 then js "\t" ++ quote_chars rest
      else if N.eqb c 10 then js "\n" ++ quote_chars rest
      else if N.eqb c 12 then js "\f" ++ quote_chars rest
      else if N.eqb c 13 then js "\r" ++ quote_chars rest
      else if N.eqb c 34 then [92; 34]%N ++ quote_chars rest
      else if N.eqb c 92 then [92; 92]%N ++ quote_chars rest
      else if (c <? 32)%N then unicode_escape c ++ quote_chars rest
      else if is_high_surrogate c then
        match rest with
        | d :: rest' =>
            if is_low_surrogate d then c :: d :: quote_chars rest'
            else unicode_escape c ++ quote_chars rest
        | [] => unicode_escape c
        end
      else if is_low_surrogate c then unicode_escape c ++ quote_chars rest
      else c :: quote_chars rest
  end.

Definition quote (s : jsstring) : jsstring := [34%N] ++ quote_chars s ++ [34%N].

Fixpoint join_comma (parts : list jsstring) : jsstring :=
  match parts with
  | [] => []
  | [p] => p
  | p :: rest => p ++ [44%N] ++ join_comma rest
  end.

(** [SerializeJSONProperty]: [None] where the property is left out. *)
Fixpoint serialize (v : JSValue) : option jsstring :=
  match v with
  | JUndefined => None
  | JNull => Some (js "null")
  | JBool true => Some (js "true")
  | JBool false => Some (js "false")
  | JNumber (S754_finite _ _ _ as x) | JNumber (S754_zero _ as x) => Some (number_to_text x)
  | JNumber _ => Some (js "null")
  | JString s => Some (quote s)
  | JArray items =>
      Some ([91%N]
            ++ join_comma (map (fun x => match serialize x with
                                         | Some t => t
                                         | None => js "null"
                                         end) items)
            ++ [93%N])
  | JObject props =>
      Some ([123%N]
            ++ join_comma
                 (flat_map (fun kv => match serialize (snd kv) with
                                      | Some t => [quote (fst kv) ++ [58%N] ++ t]
                                      | None => []
                                      end) props)
            ++ [125%N])
  end.

Definition stringify (v : JSValue) : jsstring :=
  match serialize v with
  | Some t => t
  | None => js "undefined"
  end.

(** Error texts in the style of V8 and workerd. *)
Definition message_text (why : BuiltinFailure) : jsstring :=
  match why with
  | DestructureNullish => js "Cannot destructure 'data' as it is null."
  | NotAFunction prop => prop ++ js " is not a function"
  | CannotCreateProperty => js "Cannot create property 'Content-Type' on primitive value"
  | CannotConvertToPrimitive => js "Cannot convert object to primitive value"
  | AtobInvalidCharacter => js "Invalid character"
  | ResponseStatusRange =>
      js "Responses may only be constructed with status codes in the range 200 to 599, inclusive."
  | ResponseNullBodyStatus =>
      js "Response with null body status (101, 204, 205, or 304) cannot have a body."
  end.

Definition runtime : Runtime := {|
  JSON_parse := parse_text;
  JSON_stringify := stringify;
  Number_toString := number_to_text;
  toUpperCase_unicode := map upper_ascii_unit;
  toLowerCase_unicode := map lower_ascii_unit;
  builtin_message := message_text
|}.

(** A second platform: the same JSON, numbers and case mapping, and its
    own wording where [atob] fails. *)
Definition reworded_message_text (why : BuiltinFailure) : jsstring :=
  match why with
  | AtobInvalidCharacter => js "Failed to decode base64"
  | _ => message_text why
  end.

Definition reworded : Runtime := {|
  JSON_parse := parse_text;
  JSON_stringify := stringify;
  Number_toString := number_to_text;
  toUpperCase_unicode := map upper_ascii_unit;
  toLowerCase_unicode := map lower_ascii_unit;
  builtin_message := reworded_message_text
|}.

(** JSON text written with ['] for the quotation mark. *)
Definition json_text (s : string) : jsstring :=
  map (fun c => if N.eqb c 39 then 34%N else c) (js s).
End ReferenceRuntime.

(* ===================================================================== *)
(** ** Vocabulary of the specification *)
(* ===================================================================== *)

(** The outcome of running a handler from a world [w]. *)
Definition response_of (r : (JSError + Response) * World) : option Response :=
  match fst r with inr resp => Some resp | inl _ => None end.

Definition world_of (r : (JSError + Response) * World) : World := snd r.

(** The MIME table of the specification: rows are tried from the top, the
    first row with a matching extension wins, [image/png] otherwise. *)
Definition mime_table : list (list jsstring * jsstring) :=
  [ ([js ".jpg"; js ".jpeg"], js "image/jpeg");
    ([js ".webp"], js "image/webp");
    ([js ".gif"], js "image/gif") ].

Definition mime_by_table (lowerFilename : jsstring) : jsstring :=
  match find (fun row => existsb (endsWith lowerFilename) (fst row)) mime_table with
  | Some row => snd row
  | None => js "image/png"
  end.

Definition inferred_mime {RT : Runtime} (filename : jsstring) : jsstring :=
  mime_by_table (toLowerCase filename).

(** The JSON envelope [{ error: message }] and [{ error, message }]. *)
Definition error_envelope (message : jsstring) : JSValue :=
  JObject [(js "error", JString message)].

Definition failure_envelope (error : jsstring) (message : jsstring) : JSValue :=
  JObject [(js "error", JString error); (js "message", JString message)].

(** A required field is missing from the envelope, or is the empty string. *)
Definition missing_or_empty (data : JSValue) (field : jsstring) : Prop :=
  get_prop data field = JUndefined \/ get_prop data field = JString [].

(** The handler answers 400 with the field-listing message and leaves the
    world (calls made, lines logged) as it found it. *)
Definition rejects_400 {RT : Runtime} (run : (JSError + Response) * World)
    (w : World) (message : jsstring) : Prop :=
  exists resp,
    run = (inr resp, w) /\
    resp_status resp = 400%Z /\
    resp_body resp = Some (JSON_stringify (error_envelope message)).

(** The handler answers 500 with [{ error, message }] and made no call. *)
Definition fails_500 {RT : Runtime} (run : (JSError + Response) * World)
    (w : World) (error message : jsstring) : Prop :=
  exists resp,
    response_of run = Some resp /\
    resp_status resp = 500%Z /\
    resp_body resp = Some (JSON_stringify (failure_envelope error message)) /\
    calls (world_of run) = calls w.

(** The handler answers 500 with [{ error, message }] after the one call
    [call]. *)
Definition fails_500_after {RT : Runtime} (run : (JSError + Response) * World)
    (w : World) (call : FetchCall) (error message : jsstring) : Prop :=
  exists resp,
    response_of run = Some resp /\
    resp_status resp = 500%Z /\
    resp_body resp = Some (JSON_stringify (failure_envelope error message)) /\
    calls (world_of run) = calls w ++ [call].

(** The three headers that [jsonResponse] of the Supabase file adds to the
    two every [jsonResponse] sets. *)
Definition preflight_headers : list (jsstring * jsstring) :=
  [ (js "Access-Control-Allow-Methods", js "GET, POST, OPTIONS");
    (js "Access-Control-Allow-Headers", js "Content-Type, Authorization");
    (js "Access-Control-Max-Age", js "86400") ].

(** Two runs agree on calls, log, status and body, and the first carries the
    headers of the second followed by [preflight_headers]. *)
Definition same_up_to_preflight_headers (supabase cloudflare : (JSError + Response) * World)
  : Prop :=
  snd supabase = snd cloudflare /\
  match fst supabase, fst cloudflare with
  | inr a, inr b =>
      resp_status a = resp_status b /\
      resp_body a = resp_body b /\
      resp_headers a = resp_headers b ++ preflight_headers
  | inl e, inl e' => e = e'
  | _, _ => False
  end.

(** The handler made the one call [call], logged nothing, and answers with
    status [s] and the JSON text of [value]. *)
Definition relays {RT : Runtime} (run : (JSError + Response) * World) (w : World)
    (call : FetchCall) (s : Z) (value : JSValue) : Prop :=
  exists resp,
    run = (inr resp, {| calls := calls w ++ [call]; console := console w |}) /\
    resp_status resp = s /\
    resp_body resp = Some (JSON_stringify value).

(** Statuses the [Response] constructor accepts together with a body. *)
Definition constructible_with_body (s : Z) : Prop :=
  (200 <= s <= 599)%Z /\ null_body_status s = false.

(** The upload call of the specification (section 4.2). *)
Definition upload_call {RT : Runtime} (image_bytes : list N)
    (filename token target_url : jsstring) : FetchCall :=
  {| call_url := JString target_url;
     call_init :=
       {| init_method := js "POST";
          init_headers :=
            JObject [(js "Authorization", JString (js "Bearer " ++ token));
                     (js "User-Agent", JString User_Agent)];
          init_body :=
            Some (BodyFormData
                    [ FileEntry (js "file") image_bytes (inferred_mime filename)
                                (JString filename);
                      TextEntry (js "file_name") (JString filename) ]) |} |}.

(** The outbound call of the generic relay, in the words of the
    specification (section 4.1), with "a body is supplied" and "the caller
    specified a Content-Type" read the way the code tests them: by
    [ToBoolean] of the [body] field, and of the property named exactly
    [Content-Type]. *)
Definition caller_headers (data : JSValue) : list (jsstring * JSValue) :=
  match get_prop data (js "headers") with
  | JObject h => h
  | _ => []
  end.

Definition body_attached {RT : Runtime} (data : JSValue) (method : jsstring) : bool :=
  jsstring_eqb (toUpperCase method) (js "POST") && truthy (get_prop data (js "body")).

Definition content_type_injected {RT : Runtime} (data : JSValue) (method : jsstring) : bool :=
  body_attached data method
  && negb (truthy (get_prop (JObject (caller_headers data)) (js "Content-Type"))).

Definition proxy_call {RT : Runtime} (data : JSValue) (method url : jsstring) : FetchCall :=
  {| call_url := JString url;
     call_init :=
       {| init_method := toUpperCase method;
          init_headers :=
            JObject (if content_type_injected data method
                     then assoc_set (js "Content-Type") (JString (js "application/json"))
                                    (caller_headers data)
                     else caller_headers data);
          init_body :=
            if body_attached data method
            then Some (BodyText (JSON_stringify (get_prop data (js "body"))))
            else None |} |}.

(** A valid RelayRequest: [method] and [url] are non-empty strings and
    [headers] is absent or an object. *)
Definition valid_RelayRequest (data : JSValue) (method url : jsstring) : Prop :=
  get_prop data (js "method") = JString method /\ method <> [] /\
  get_prop data (js "url") = JString url /\ url <> [] /\
  (get_prop data (js "headers") = JUndefined
   \/ exists h, get_prop data (js "headers") = JObject h).

(** A valid UploadRequest: the four fields are non-empty strings. *)
Definition valid_UploadRequest (data : JSValue)
    (image_data filename token target_url : jsstring) : Prop :=
  get_prop data (js "image_data") = JString image_data /\ image_data <> [] /\
  get_prop data (js "filename") = JString filename /\ filename <> [] /\
  get_prop data (js "token") = JString token /\ token <> [] /\
  get_prop data (js "target_url") = JString target_url /\ target_url <> [].

(** The value the Response Normalizer chooses for a response text. *)
Definition normalized {RT : Runtime} (responseText : jsstring) : JSValue :=
  match JSON_parse responseText with
  | inr v => v
  | inl _ => JObject [(js "raw_response", JString responseText)]
  end.




(** The base64 encoding of RFC 4648, section 4: what a caller applies to an
    image to fill [image_data].  It is not code of the repository; it names
    the texts the decoding side is expected to read back. *)
Definition base64_char (i : N) : N :=
  if (i <? 26)%N then (i + 65)%N
  else if (i <? 52)%N then (i + 71)%N
  else if (i <? 62)%N then (i - 4)%N
  else if N.eqb i 62 then 43%N
  else 47%N.

(** The sextets of the bytes: three bytes give four, a rest of two gives
    three, a rest of one gives two. *)
Fixpoint encode_sextets (bytes : list N) : list N :=
  match bytes with
  | a :: b :: c :: rest =>
      (a / 4 :: (a mod 4) * 16 + b / 16 :: (b mod 16) * 4 + c / 64 :: c mod 64
         :: encode_sextets rest)%N
  | [a; b] => [a / 4; (a mod 4) * 16 + b / 16; (b mod 16) * 4]%N
  | [a] => [a / 4; (a mod 4) * 16]%N
  | [] => []
  end.

Definition encode_padding (bytes : list N) : jsstring :=
  match (length bytes mod 3)%nat with
  | 1%nat => [61; 61]%N
  | 2%nat => [61%N]
  | _ => []
  end.

Definition base64_encode (bytes : list N) : jsstring :=
  map base64_char (encode_sextets bytes) ++ encode_padding bytes.

(** The standard base64 alphabet: A-Z, a-z, 0-9, + and /. *)
Definition in_base64_alphabet (c : N) : bool :=
  ((65 <=? c) && (c <=? 90) || (97 <=? c) && (c <=? 122) || (48 <=? c) && (c <=? 57)
   || N.eqb c 43 || N.eqb c 47)%N.

(** What [atob] reads of a text: ASCII whitespace is dropped wherever it
    stands, then one or two [=] from the end when the length that is left is
    a multiple of four. *)
Definition base64_payload (image_data : jsstring) : jsstring :=
  remove_padding (filter (fun c => negb (is_ascii_whitespace c)) image_data).

(** The texts [atob] refuses: a character outside the alphabet is left in
    the payload, or the payload's length is 1 modulo 4. *)
Definition malformed_base64 (image_data : jsstring) : Prop :=
  (exists c, In c (base64_payload image_data) /\ in_base64_alphabet c = false)
  \/ (length (base64_payload image_data) mod 4 = 1)%nat.

(** Valid base64 in the sense of RFC 4648, section 4: the padded encoding of
    a sequence of bytes. *)
Definition rfc4648_base64 (text : jsstring) : Prop :=
  exists bytes, Forall (fun b => (b < 256)%N) bytes /\ text = base64_encode bytes.

(** The claim on malformed image data, as the specification words it: an
    UploadRequest that passes validation and whose image_data is not valid
    base64 is answered 500 "Upload failed". *)
Definition invalid_base64_fails_loudly : Prop :=
  forall (RT : Runtime) (env : Env) (request : Request) (data : JSValue)
         (image_data filename token target_url : jsstring) (w : World),
    JSON_parse (req_body request) = inr data ->
    valid_UploadRequest data image_data filename token target_url ->
    ~ rfc4648_base64 image_data ->
    exists message,
      fails_500 (CfWorkerUpload.handleUpload env request w) w (js "Upload failed") message.

(** Two platforms that read and write the same JSON, print numbers alike and
    map case alike; how they word their error messages is left to each. *)
Definition same_language (RT RT' : Runtime) : Prop :=
  (forall text, match @JSON_parse RT text, @JSON_parse RT' text with
                | inr v, inr v' => v = v'
                | inl _, inl _ => True
                | _, _ => False
                end) /\
  (forall v, @JSON_stringify RT v = @JSON_stringify RT' v) /\
  (forall x, @Number_toString RT x = @Number_toString RT' x) /\
  (forall s, @toUpperCase_unicode RT s = @toUpperCase_unicode RT' s) /\
  (forall s, @toLowerCase_unicode RT s = @toLowerCase_unicode RT' s).

(** Two runs made the same calls and logged under the same labels; both
    answered, with the same status, the first with the headers of the second
    followed by [extra], and with the same body, unless both bodies are the
    failure envelope [error] of a 500, whose message may then be worded
    differently. *)
Definition agree_up_to_wording {RT : Runtime} (error : jsstring)
    (extra : list (jsstring * jsstring)) (a b : (JSError + Response) * World) : Prop :=
  calls (snd a) = calls (snd b) /\
  map fst (console (snd a)) = map fst (console (snd b)) /\
  exists ra rb,
    fst a = inr ra /\ fst b = inr rb /\
    resp_status ra = resp_status rb /\
    resp_headers ra = resp_headers rb ++ extra /\
    (resp_body ra = resp_body rb
     \/ (resp_status rb = 500%Z /\
         exists message message',
           resp_body ra = Some (JSON_stringify (failure_envelope error message)) /\
           resp_body rb = Some (JSON_stringify (failure_envelope error message')))).

(** The duplicated handlers produce identical responses, as the
    specification words it. *)
Definition duplicates_identical : Prop :=
  forall (RT : Runtime) (env : Env) (request : Request) (w : World),
    CfWorkerUpload.handleUpload env request w = CfWorkerProxy.handleUpload env request w /\
    SupabaseEdgeProxy.handleUpload env request w = CfWorkerProxy.handleUpload env request w /\
    SupabaseEdgeProxy.handleProxy env request w = CfWorkerProxy.handleProxy env request w.

(** ** Concrete requests and upstreams for the closed examples *)

Module Examples.
Import ReferenceRuntime.

Definition fresh : World := {| calls := []; console := [] |}.

Definition clock : jsstring := js "2026-01-01T00:00:00.000Z".

(** An upstream that answers every call with [status] and [text]. *)
Definition answering (status : Z) (text : jsstring) : Env :=
  {| upstream := fun _ =>
       FetchResolves {| status := status; text_outcome := inr text |};
     clock_toISOString := clock |}.

(** An upstream that cannot be reached: every [fetch] rejects with [e]. *)
Definition unreachable (e : JSError) : Env :=
  {| upstream := fun _ => FetchRejects e; clock_toISOString := clock |}.

Definition connection_refused : JSError :=
  mkError (js "TypeError") (js "error sending request: connection refused").

Definition post (pathname : string) (body : jsstring) : Request :=
  {| req_method := js "POST"; req_pathname := js pathname; req_body := body |}.

Definition get (pathname : string) : Request :=
  {| req_method := js "GET"; req_pathname := js pathname; req_body := [] |}.

(** [{"method":"POST","url":"https://example.test/echo","body":{"a":1}}] *)
Definition echo_envelope : jsstring :=
  json_text "{'method':'POST','url':'https://example.test/echo','body':{'a':1}}".


Definition get_envelope : jsstring :=
  json_text "{'method':'get','url':'https://example.test/items','body':{'a':1}}".


Definition no_url_envelope : jsstring := json_text "{'method':'GET'}".

(** The eight bytes of the PNG signature, in base64. *)
Definition upload_envelope : jsstring :=
  json_text ("{'image_data':'iVBORw0KGgo=','filename':'x.png',"
             ++ "'token':'t0k3n','target_url':'https://example.test/uploads'}").

Definition no_token_envelope : jsstring :=
  json_text "{'image_data':'iVBORw0KGgo=','filename':'x.png','target_url':'https://example.test/uploads'}".

(** [image_data] with a character outside the base64 alphabet. *)
Definition bad_base64_envelope : jsstring :=
  json_text ("{'image_data':'iVBO*w0KGgo=','filename':'x.png',"
             ++ "'token':'t0k3n','target_url':'https://example.test/uploads'}").

Definition not_json : jsstring := js "method=GET&url=x".

(** The envelopes above as [JSON.parse] reads them. *)
Definition one : spec_float := S754_finite false 4503599627370496 (-52).

Definition echo_data : JSValue :=
  JObject [(js "method", JString (js "POST"));
           (js "url", JString (js "https://example.test/echo"));
           (js "body", JObject [(js "a", JNumber one)])].



Definition no_url_fields : list (jsstring * JSValue) :=
  [(js "method", JString (js "GET"))].

Definition upload_data : JSValue :=
  JObject [(js "image_data", JString (js "iVBORw0KGgo="));
           (js "filename", JString (js "x.png"));
           (js "token", JString (js "t0k3n"));
           (js "target_url", JString (js "https://example.test/uploads"))].

Definition no_token_fields : list (jsstring * JSValue) :=
  [(js "image_data", JString (js "iVBORw0KGgo="));
   (js "filename", JString (js "x.png"));
   (js "target_url", JString (js "https://example.test/uploads"))].

Definition bad_base64_data : JSValue :=
  JObject [(js "image_data", JString (js "iVBO*w0KGgo="));
           (js "filename", JString (js "x.png"));
           (js "token", JString (js "t0k3n"));
           (js "target_url", JString (js "https://example.test/uploads"))].

Definition png_signature : list N := [137; 80; 78; 71; 13; 10; 26; 10]%N.

Definition rate_limited_value : JSValue :=
  JObject [(js "error", JString (js "rate limited"))].

Definition rate_limited : jsstring := json_text "{'error':'rate limited'}".

(** [method] is the number 0: present, and falsy. *)
Definition zero_method_envelope : jsstring :=
  json_text "{'method':0,'url':'https://example.test/echo'}".

Definition zero_method_data : JSValue :=
  JObject [(js "method", JNumber (S754_zero false));
           (js "url", JString (js "https://example.test/echo"))].

(** [method] and [filename] are the number 1: truthy, and no strings. *)
Definition mistyped_envelope : jsstring :=
  json_text ("{'method':1,'url':'https://example.test/echo',"
             ++ "'image_data':'iVBORw0KGgo=','filename':1,"
             ++ "'token':'t0k3n','target_url':'https://example.test/uploads'}").

Definition mistyped_data : JSValue :=
  JObject [(js "method", JNumber one);
           (js "url", JString (js "https://example.test/echo"));
           (js "image_data", JString (js "iVBORw0KGgo="));
           (js "filename", JNumber one);
           (js "token", JString (js "t0k3n"));
           (js "target_url", JString (js "https://example.test/uploads"))].

(** A caller with an Authorization header and a Content-Type of its own. *)
Definition authorized_envelope : jsstring :=
  json_text ("{'method':'POST','url':'https://example.test/echo',"
             ++ "'headers':{'Authorization':'Bearer t0k3n','Content-Type':'text/plain'},"
             ++ "'body':{'a':1}}").

Definition authorized_data : JSValue :=
  JObject [(js "method", JString (js "POST"));
           (js "url", JString (js "https://example.test/echo"));
           (js "headers", JObject [(js "Authorization", JString (js "Bearer t0k3n"));
                                   (js "Content-Type", JString (js "text/plain"))]);
           (js "body", JObject [(js "a", JNumber one)])].

Definition not_found_text : jsstring := json_text "{'detail':'no such task'}".

(** The byte 65 in base64 without its padding. *)
Definition unpadded_envelope : jsstring :=
  json_text ("{'image_data':'QQ','filename':'x.png',"
             ++ "'token':'t0k3n','target_url':'https://example.test/uploads'}").

Definition unpadded_data : JSValue :=
  JObject [(js "image_data", JString (js "QQ"));
           (js "filename", JString (js "x.png"));
           (js "token", JString (js "t0k3n"));
           (js "target_url", JString (js "https://example.test/uploads"))].
End Examples.

(** ** Vocabulary for the properties beyond the claims *)

(** The five relay handlers and the three routers of the repository. *)
Definition relay_handlers {RT : Runtime} (env : Env) : list (Request -> Js Response) :=
  [ CfWorkerProxy.handleProxy env; CfWorkerProxy.handleUpload env;
    CfWorkerUpload.handleUpload env;
    SupabaseEdgeProxy.handleProxy env; SupabaseEdgeProxy.handleUpload env ].

Definition routers {RT : Runtime} (env : Env) : list (Request -> Js Response) :=
  [ CfWorkerProxy.fetch env; CfWorkerUpload.fetch env; SupabaseEdgeProxy.serve_handler env ].

(** The run ended in a response (no exception left the function), and the
    response has a body. *)
Definition answers_with_body (run : (JSError + Response) * World) : Prop :=
  exists resp, fst run = inr resp /\ resp_body resp <> None.

Definition answers (run : (JSError + Response) * World) : Prop :=
  exists resp, fst run = inr resp.

(** The response carries Content-Type: application/json and
    Access-Control-Allow-Origin: *. *)
Definition carries_json_and_allow_origin (run : (JSError + Response) * World) : Prop :=
  exists resp,
    fst run = inr resp /\
    header_get (js "Content-Type") (resp_headers resp) = Some (js "application/json") /\
    header_get (js "Access-Control-Allow-Origin") (resp_headers resp) = Some (js "*").

(** The run added no call to the record, or exactly one at its end. *)
Definition at_most_one_call (w : World) (run : (JSError + Response) * World) : Prop :=
  calls (snd run) = calls w \/ exists call, calls (snd run) = calls w ++ [call].

(** The run logged nothing, or it logged one error under [label] and
    answered 500 with the failure envelope [text] that carries that error's
    message. *)
Definition logs_only_what_it_reports {RT : Runtime} (label text : jsstring) (w : World)
    (run : (JSError + Response) * World) : Prop :=
  console (snd run) = console w
  \/ exists error resp,
       console (snd run) = console w ++ [(label, error)] /\
       fst run = inr resp /\
       resp_status resp = 500%Z /\
       resp_body resp = Some (JSON_stringify (failure_envelope text (err_message error))).

(** What the outer [try]/[catch] of a handler guarantees, in one piece. *)
Definition contained {RT : Runtime} (label text : jsstring) (w : World)
    (run : (JSError + Response) * World) : Prop :=
  answers_with_body run /\ carries_json_and_allow_origin run /\
  at_most_one_call w run /\ logs_only_what_it_reports label text w run.

(** The handlers with the label they log under and the error text they
    answer with. *)
Definition labelled_handlers {RT : Runtime} (env : Env)
  : list (jsstring * jsstring * (Request -> Js Response)) :=
  [ (js "Proxy error:", js "Proxy request failed", CfWorkerProxy.handleProxy env);
    (js "Upload error:", js "Upload failed", CfWorkerProxy.handleUpload env);
    (js "Upload error:", js "Upload failed", CfWorkerUpload.handleUpload env);
    (js "Proxy error:", js "Proxy request failed", SupabaseEdgeProxy.handleProxy env);
    (js "Upload error:", js "Upload failed", SupabaseEdgeProxy.handleUpload env) ].

(** The response of [handleCORS]. *)
Definition preflight_response : Response :=
  {| resp_status := 200; resp_headers := SupabaseEdgeProxy.corsHeaders; resp_body := None |}.

(** The responses the routers build themselves. *)
Definition health_body {RT : Runtime} (env : Env) : jsstring :=
  JSON_stringify (JObject [(js "status", JString (js "ok"));
                           (js "timestamp", JString (clock_toISOString env))]).

Definition not_found_body {RT : Runtime} : jsstring :=
  JSON_stringify (error_envelope (js "Not Found")).

Definition cloudflare_plain (s : Z) (body : jsstring) : Response :=
  {| resp_status := s;
     resp_headers := [(js "Content-Type", js "application/json")];
     resp_body := Some body |}.

Definition supabase_json (s : Z) (body : jsstring) : Response :=
  {| resp_status := s;
     resp_headers := (js "Content-Type", js "application/json") :: SupabaseEdgeProxy.corsHeaders;
     resp_body := Some body |}.

(** The upstream call did not complete with a text: [fetch] rejected, or
    [response.text()] did. *)
Definition failed_with (e : JSError) (outcome : FetchOutcome) : Prop :=
  outcome = FetchRejects e
  \/ exists s, outcome = FetchResolves {| status := s; text_outcome := inl e |}.

Definition is_string (v : JSValue) : bool :=
  match v with JString _ => true | _ => false end.

(** [null] and [undefined], the two values a property cannot be read from. *)
Definition is_nullish (v : JSValue) : bool :=
  match v with JUndefined | JNull => true | _ => false end.

(** The request body parses to a valid RelayRequest, respectively to a
    valid UploadRequest whose image_data [atob] decodes to [binaryStr]. *)
Definition is_relay_request {RT : Runtime} (request : Request) (data : JSValue)
    (method url : jsstring) : Prop :=
  JSON_parse (req_body request) = inr data /\ valid_RelayRequest data method url.

Definition is_upload_request {RT : Runtime} (request : Request) (data : JSValue)
    (image_data filename token target_url binaryStr : jsstring) : Prop :=
  JSON_parse (req_body request) = inr data /\
  valid_UploadRequest data image_data filename token target_url /\
  forgiving_base64_decode image_data = Some binaryStr.

(** A status the [Response] constructor refuses for its range. *)
Definition out_of_range (s : Z) : Prop :=
  ~ (200 <= s mod 65536 <= 599)%Z.

(* ===================================================================== *)
(** * Properties *)
(* ===================================================================== *)

(** ** Strings *)

Lemma jsstring_eqb_eq (s t : jsstring) : jsstring_eqb s t = true <-> s = t.
Proof.
  revert t; induction s as [|c s IH]; intros [|d t]; simpl; split;
    try congruence; try reflexivity.
  - rewrite andb_true_iff, N.eqb_eq, IH. intros [-> ->]. reflexivity.
  - intros E. injection E as -> ->. rewrite N.eqb_refl. simpl. apply IH. reflexivity.
Qed.

Lemma jsstring_eqb_refl (s : jsstring) : jsstring_eqb s s = true.
Proof. apply jsstring_eqb_eq. reflexivity. Qed.

Lemma jsstring_eqb_neq (s t : jsstring) : s <> t -> jsstring_eqb s t = false.
Proof.
  intros H. destruct (jsstring_eqb s t) eqn:E; [|reflexivity].
  apply jsstring_eqb_eq in E. contradiction.
Qed.

Lemma truthy_nonempty_string (s : jsstring) : s <> [] -> truthy (JString s) = true.
Proof. intros H. simpl. rewrite (jsstring_eqb_neq H). reflexivity. Qed.

Lemma ToString_JString {RT : Runtime} (s : jsstring) : ToString (JString s) = inr s.
Proof. reflexivity. Qed.

Lemma truthy_js_or (a : JSValue) : truthy (js_or a (JObject [])) = true.
Proof. unfold js_or. destruct (truthy a) eqn:E; [exact E | reflexivity]. Qed.

(** [endsWith] is the suffix relation. *)
Lemma endsWith_suffix (s suffix : jsstring) :
  endsWith s suffix = true <-> exists prefix, s = prefix ++ suffix.
Proof.
  unfold endsWith. rewrite andb_true_iff, Nat.leb_le, jsstring_eqb_eq. split.
  - intros [_ E]. exists (firstn (length s - length suffix) s).
    pose proof (firstn_skipn (length s - length suffix) s) as F.
    rewrite E in F. symmetry. exact F.
  - intros [prefix ->]. rewrite length_app. split; [lia|].
    replace (length prefix + length suffix - length suffix)%nat
      with (length prefix + 0)%nat by lia.
    rewrite skipn_app, Nat.add_0_r, skipn_all.
    replace (length prefix - length prefix)%nat with 0%nat by lia. reflexivity.
Qed.

(** Two suffixes with different last units cannot both match. *)
Lemma endsWith_last (s suffix : jsstring) (d : N) :
  endsWith s suffix = true -> suffix <> [] -> last s d = last suffix d.
Proof.
  intros H Hne. apply endsWith_suffix in H as [prefix ->].
  clear - Hne. induction prefix as [|c p IH]; [reflexivity|].
  simpl. destruct (p ++ suffix) eqn:E; [|exact IH].
  apply app_eq_nil in E as [_ ->]. contradiction.
Qed.

Lemma endsWith_upload_not_proxy (pathname : jsstring) :
  endsWith pathname (js "/upload") = true -> endsWith pathname (js "/proxy") = false.
Proof.
  intros H. destruct (endsWith pathname (js "/proxy")) eqn:E; [|reflexivity].
  apply endsWith_last with (d := 0%N) in H; [|discriminate].
  apply endsWith_last with (d := 0%N) in E; [|discriminate].
  rewrite H in E. vm_compute in E. discriminate.
Qed.

(** ** The Response constructor *)

Section ResponseFacts.
Context {RT : Runtime}.

Lemma new_Response_body (body : jsstring) (s : Z) headers :
  constructible_with_body s ->
  new_Response (Some body) (Some s) headers =
    inr {| resp_status := s; resp_headers := headers; resp_body := Some body |}.
Proof.
  intros [Hr Hn]. unfold new_Response.
  rewrite (Z.mod_small s 65536) by lia.
  replace ((200 <=? s)%Z && (s <=? 599)%Z) with true
    by (symmetry; apply andb_true_iff; split; apply Z.leb_le; lia).
  simpl. rewrite Hn. reflexivity.
Qed.

Lemma new_Response_null_body_status (body : jsstring) (s : Z) headers :
  null_body_status s = true ->
  (200 <= s <= 599)%Z ->
  new_Response (Some body) (Some s) headers = inl (TypeError ResponseNullBodyStatus).
Proof.
  intros Hn Hr. unfold new_Response.
  rewrite (Z.mod_small s 65536) by lia.
  replace ((200 <=? s)%Z && (s <=? 599)%Z) with true
    by (symmetry; apply andb_true_iff; split; apply Z.leb_le; lia).
  simpl. rewrite Hn. reflexivity.
Qed.

Lemma constructible_400 : constructible_with_body 400.
Proof. split; [lia | reflexivity]. Qed.

Lemma constructible_500 : constructible_with_body 500.
Proof. split; [lia | reflexivity]. Qed.
End ResponseFacts.

(** ** Base64 decoding and the two ways of filling the byte array *)

Lemma lor_lt_pow2 (a b n : N) : (a < 2 ^ n -> b < 2 ^ n -> N.lor a b < 2 ^ n)%N.
Proof.
  intros Ha Hb.
  destruct (N.eq_dec a 0) as [->|Na]; [rewrite N.lor_0_l; exact Hb|].
  destruct (N.eq_dec b 0) as [->|Nb]; [rewrite N.lor_0_r; exact Ha|].
  apply N.log2_lt_pow2.
  - destruct (N.eq_dec (N.lor a b) 0) as [E|E]; [|lia].
    apply N.lor_eq_0_iff in E. lia.
  - rewrite N.log2_lor. apply N.max_lub_lt; apply N.log2_lt_pow2; lia.
Qed.

Lemma shiftl_lt_pow2 (a k n : N) : (a < 2 ^ n -> N.shiftl a k < 2 ^ (n + k))%N.
Proof.
  intros H. rewrite N.shiftl_mul_pow2, N.pow_add_r.
  apply N.mul_lt_mono_pos_r; [|exact H].
  apply N.neq_0_lt_0, N.pow_nonzero. discriminate.
Qed.

Lemma shiftr_lt_pow2 (a k n : N) : (a < 2 ^ (n + k) -> N.shiftr a k < 2 ^ n)%N.
Proof.
  intros H. rewrite N.shiftr_div_pow2.
  apply N.Div0.div_lt_upper_bound.
  rewrite N.pow_add_r, N.mul_comm in H. exact H.
Qed.

Lemma land_255_byte (a : N) : (N.land a 255 < 256)%N.
Proof.
  change 255%N with (N.ones 8). rewrite N.land_ones.
  apply N.mod_lt. discriminate.
Qed.

Lemma base64_index_sextet (c i : N) : base64_index c = Some i -> (i < 64)%N.
Proof.
  unfold base64_index.
  repeat match goal with
         | |- context [if ?b then _ else _] => destruct b eqn:?
         end; intros E; inversion E; subst;
  repeat match goal with
         | H : (_ && _)%bool = true |- _ => apply andb_true_iff in H as [? ?]
         | H : (_ <=? _)%N = true |- _ => apply N.leb_le in H
         end; lia.
Qed.

Lemma base64_indices_sextets (data : jsstring) (l : list N) :
  base64_indices data = Some l -> Forall (fun i => (i < 64)%N) l.
Proof.
  revert l; induction data as [|c data IH]; simpl; intros l E.
  - inversion E. constructor.
  - destruct (base64_index c) eqn:Ec; [|discriminate].
    destruct (base64_indices data) eqn:Ed; [|discriminate].
    inversion E; subst. constructor; [eapply base64_index_sextet; eassumption | auto].
Qed.

Lemma shiftl_sextet (a k : N) : (a < 64 -> N.shiftl a k < 2 ^ (6 + k))%N.
Proof. intros H. apply shiftl_lt_pow2. exact H. Qed.

Lemma buffer2_bound (a b : N) :
  (a < 64 -> b < 64 -> N.lor (N.shiftl a 6) b < 2 ^ (8 + 4))%N.
Proof.
  intros Ha Hb. apply lor_lt_pow2.
  - apply (shiftl_sextet 6) in Ha. exact Ha.
  - change (2 ^ (8 + 4))%N with 4096%N. lia.
Qed.

Lemma buffer3_bound (a b c : N) :
  (a < 64 -> b < 64 -> c < 64 ->
   N.lor (N.lor (N.shiftl a 12) (N.shiftl b 6)) c < 2 ^ (16 + 2))%N.
Proof.
  intros Ha Hb Hc. apply lor_lt_pow2; [apply lor_lt_pow2|].
  - apply (shiftl_sextet 12) in Ha. exact Ha.
  - apply (shiftl_sextet 6) in Hb. change (2 ^ (6 + 6))%N with 4096%N in Hb.
    change (2 ^ (16 + 2))%N with 262144%N. lia.
  - change (2 ^ (16 + 2))%N with 262144%N. lia.
Qed.

Lemma buffer4_bound (a b c d : N) :
  (a < 64 -> b < 64 -> c < 64 -> d < 64 ->
   N.lor (N.lor (N.shiftl a 18) (N.shiftl b 12)) (N.lor (N.shiftl c 6) d) < 2 ^ (8 + 16))%N.
Proof.
  intros Ha Hb Hc Hd. apply lor_lt_pow2; apply lor_lt_pow2.
  - apply (shiftl_sextet 18) in Ha. exact Ha.
  - apply (shiftl_sextet 12) in Hb. change (2 ^ (6 + 12))%N with 262144%N in Hb.
    change (2 ^ (8 + 16))%N with 16777216%N. lia.
  - apply (shiftl_sextet 6) in Hc. change (2 ^ (6 + 6))%N with 4096%N in Hc.
    change (2 ^ (8 + 16))%N with 16777216%N. lia.
  - change (2 ^ (8 + 16))%N with 16777216%N. lia.
Qed.

Lemma decode_sextets_bytes (l : list N) :
  Forall (fun i => (i < 64)%N) l -> Forall (fun b => (b < 256)%N) (decode_sextets l).
Proof.
  remember (length l) as n eqn:Hn. revert l Hn.
  induction n as [n IH] using lt_wf_ind. intros l Hn H.
  destruct l as [|a [|b [|c [|d rest]]]]; cbn [decode_sextets];
    repeat match goal with
           | F : Forall _ (_ :: _) |- _ =>
               let Hx := fresh "Hx" in apply Forall_cons_iff in F as [Hx F]
           end.
  - constructor.
  - constructor.
  - (* two sextets: one byte *)
    constructor; [|constructor].
    apply (@shiftr_lt_pow2 _ 4 8), buffer2_bound; assumption.
  - (* three sextets: two bytes *)
    constructor; [|constructor; [apply land_255_byte | constructor]].
    apply (@shiftr_lt_pow2 _ 8 8), (@shiftr_lt_pow2 _ 2 (8 + 8)).
    apply buffer3_bound; assumption.
  - (* four sextets: three bytes, then the rest *)
    constructor; [|constructor; [apply land_255_byte |
                    constructor; [apply land_255_byte|]]].
    + apply (@shiftr_lt_pow2 _ 16 8), buffer4_bound; assumption.
    + apply (IH (length rest)); [subst; simpl; lia | reflexivity | assumption].
Qed.

(** [atob] yields one code unit below 256 per decoded byte. *)
Lemma forgiving_base64_decode_bytes (data binaryStr : jsstring) :
  forgiving_base64_decode data = Some binaryStr ->
  Forall (fun b => (b < 256)%N) binaryStr.
Proof.
  unfold forgiving_base64_decode.
  destruct (_ =? 1)%nat; [discriminate|].
  destruct (base64_indices _) as [l|] eqn:E; [|discriminate].
  intros H; inversion H; subst.
  apply decode_sextets_bytes. eapply base64_indices_sextets. exact E.
Qed.

Lemma base64_indices_all_known (data : jsstring) (c : N) :
  In c data -> base64_index c = None -> base64_indices data = None.
Proof.
  induction data as [|d data IH]; simpl; [contradiction|].
  intros [-> | Hin] Hc.
  - rewrite Hc. reflexivity.
  - rewrite (IH Hin Hc). destruct (base64_index d); reflexivity.
Qed.

Lemma remove_padding_keeps (data : jsstring) (c : N) :
  In c data -> c <> 61%N -> In c (remove_padding data).
Proof.
  intros Hin Hc. unfold remove_padding.
  destruct (_ =? 0)%nat; [|exact Hin].
  pose proof (proj1 (in_rev data c) Hin) as Hrev.
  destruct (rev data) as [|x [|y r]]; [exact Hin | |].
  - destruct (N.eqb_spec x 61) as [->|Hx]; [|exact Hin].
    destruct Hrev as [E|[]]. congruence.
  - destruct (N.eqb_spec x 61) as [->|Hx]; [|exact Hin].
    destruct Hrev as [E|Hrev]; [congruence|].
    destruct (N.eqb_spec y 61) as [->|Hy].
    + destruct Hrev as [E|Hrev]; [congruence|]. apply in_rev in Hrev. exact Hrev.
    + apply in_rev in Hrev. exact Hrev.
Qed.

(** Decoding never stops short at a bad character: one unit that is neither
    of the alphabet, nor ASCII whitespace, nor [=], anywhere in the text,
    makes the whole decode fail. *)
Lemma invalid_character_rejected (data : jsstring) (c : N) :
  In c data ->
  is_ascii_whitespace c = false -> base64_index c = None -> c <> 61%N ->
  forgiving_base64_decode data = None.
Proof.
  intros Hin Hws Hidx Heq. unfold forgiving_base64_decode.
  assert (Hkept : In c (remove_padding
                          (filter (fun c => negb (is_ascii_whitespace c)) data))).
  { apply remove_padding_keeps; [|exact Heq].
    apply filter_In. split; [exact Hin | rewrite Hws; reflexivity]. }
  destruct (_ =? 1)%nat; [reflexivity|].
  rewrite (base64_indices_all_known _ _ Hkept Hidx). reflexivity.
Qed.

Lemma ToUint8_byte (b : N) : (b < 256)%N -> ToUint8 b = b.
Proof. intros H. unfold ToUint8. apply N.mod_small. exact H. Qed.

Lemma map_ToUint8_bytes (s : jsstring) :
  Forall (fun b => (b < 256)%N) s -> map ToUint8 s = s.
Proof.
  induction 1 as [|b s Hb _ IH]; simpl; [reflexivity|].
  rewrite ToUint8_byte, IH by assumption. reflexivity.
Qed.

Lemma array_store_at_length (done : list N) (x old : N) (todo : list N) :
  array_store (length done) x (done ++ old :: todo) = done ++ ToUint8 x :: todo.
Proof. induction done as [|b done IH]; simpl; [reflexivity | rewrite IH; reflexivity]. Qed.

Lemma firstn_succ_nth (s : jsstring) (k : nat) :
  k < length s -> firstn (S k) s = firstn k s ++ [nth k s 0%N].
Proof.
  revert k; induction s as [|c s IH]; intros [|k] Hk; simpl in Hk; try lia;
    [reflexivity|].
  change (firstn (S (S k)) (c :: s)) with (c :: firstn (S k) s).
  rewrite IH by lia. reflexivity.
Qed.

(** After [k] rounds, the first [k] slots hold the low bytes of the first
    [k] units and the others are still zero. *)
Lemma charCode_loop_prefix (binaryStr : jsstring) (k : nat) :
  k <= length binaryStr ->
  for_range k (fun i bytes => array_store i (charCodeAt binaryStr i) bytes)
            (Uint8Array_new (length binaryStr))
  = map ToUint8 (firstn k binaryStr) ++ repeat 0%N (length binaryStr - k).
Proof.
  unfold for_range, Uint8Array_new.
  induction k as [|k IH]; intros Hk.
  - simpl. rewrite Nat.sub_0_r. reflexivity.
  - rewrite seq_S, fold_left_app, IH by lia.
    cbn [fold_left Nat.add].
    replace (length binaryStr - k) with (S (length binaryStr - S k)) by lia.
    cbn [repeat].
    assert (L : length (map ToUint8 (firstn k binaryStr)) = k)
      by (rewrite length_map, length_firstn; lia).
    rewrite <- L at 1. rewrite array_store_at_length.
    rewrite firstn_succ_nth by lia. rewrite map_app, <- app_assoc. reflexivity.
Qed.

(** The [for] loop of the Cloudflare files stores the low byte of every unit. *)
Lemma charCode_loop_bytes (binaryStr : jsstring) :
  for_range (length binaryStr)
            (fun i bytes => array_store i (charCodeAt binaryStr i) bytes)
            (Uint8Array_new (length binaryStr))
  = map ToUint8 binaryStr.
Proof.
  rewrite charCode_loop_prefix by lia.
  rewrite firstn_all, Nat.sub_diag, app_nil_r. reflexivity.
Qed.

Lemma string_iterator_no_surrogates (s : jsstring) :
  Forall (fun c => is_high_surrogate c = false) s ->
  string_iterator s = map (fun c => [c]) s.
Proof.
  induction 1 as [|c s Hc _ IH]; [reflexivity|].
  simpl. destruct s as [|d s']; [reflexivity|].
  rewrite Hc. simpl andb. cbv iota. rewrite IH. reflexivity.
Qed.

(** [Uint8Array.from] of the Supabase file does the same on a string without
    surrogate pairs. *)
Lemma Uint8Array_from_bytes (s : jsstring) :
  Forall (fun c => is_high_surrogate c = false) s ->
  Uint8Array_from s (fun c => charCodeAt c 0) = map ToUint8 s.
Proof.
  intros H. unfold Uint8Array_from. rewrite (string_iterator_no_surrogates H).
  rewrite map_map. reflexivity.
Qed.

Lemma byte_not_surrogate (s : jsstring) :
  Forall (fun b => (b < 256)%N) s -> Forall (fun c => is_high_surrogate c = false) s.
Proof.
  apply Forall_impl. intros c Hc. unfold is_high_surrogate.
  apply andb_false_iff. left. apply N.leb_gt. lia.
Qed.

(** On what [atob] returns, both files build the decoded byte sequence. *)
Lemma decoded_bytes_agree (data binaryStr : jsstring) :
  forgiving_base64_decode data = Some binaryStr ->
  for_range (length binaryStr)
            (fun i bytes => array_store i (charCodeAt binaryStr i) bytes)
            (Uint8Array_new (length binaryStr)) = binaryStr
  /\ Uint8Array_from binaryStr (fun c => charCodeAt c 0) = binaryStr.
Proof.
  intros H. apply forgiving_base64_decode_bytes in H.
  rewrite charCode_loop_bytes, (Uint8Array_from_bytes (byte_not_surrogate H)).
  rewrite (map_ToUint8_bytes H). split; reflexivity.
Qed.

(** ** Running the handlers *)

Arguments js : simpl never.
Arguments jsstring_eqb : simpl never.
Arguments endsWith : simpl never.
Arguments truthy : simpl never.
Arguments get_prop : simpl never.
Arguments js_or : simpl never.
Arguments toUpperCase : simpl never.
Arguments toLowerCase : simpl never.
Arguments ToString : simpl never.
Arguments forgiving_base64_decode : simpl never.
Arguments for_range : simpl never.
Arguments Uint8Array_from : simpl never.
Arguments Uint8Array_new : simpl never.
Arguments new_Response : simpl never.
Arguments assoc_set : simpl never.

(** Case analysis on the innermost scrutinee of the goal. *)
Ltac break_match :=
  match goal with
  | |- context [match ?x with _ => _ end] =>
      lazymatch x with
      | context [match _ with _ => _ end] => fail
      | _ => destruct x eqn:?
      end
  end.

Ltac unfold_monad :=
  unfold try_catch, bind, ret, throw, lift, console_error, Request_json,
    Response_text, destructure, call_toUpperCase, call_toLowerCase, set_prop,
    atob, fetch, FormData_append, with_body, with_headers, instanceof_Error.

Section HandlersAgree.
Context {RT : Runtime} (env : Env).

Lemma supabase_jsonResponse_same (data : JSValue) (s : option Z) (w : World) :
  same_up_to_preflight_headers
    (SupabaseEdgeProxy.jsonResponse data s w) (CfWorkerProxy.jsonResponse data s w).
Proof.
  unfold SupabaseEdgeProxy.jsonResponse, CfWorkerProxy.jsonResponse, lift,
    new_Response, same_up_to_preflight_headers.
  cbn [fst snd]. split; [reflexivity|].
  repeat break_match; try discriminate; try congruence.
  all: repeat match goal with
              | H : inr _ = inr _ |- _ => inversion H; clear H; subst
              end.
  all: cbn; repeat split; reflexivity.
Qed.

Lemma supabase_handleProxy_same (request : Request) (w : World) :
  same_up_to_preflight_headers
    (SupabaseEdgeProxy.handleProxy env request w)
    (CfWorkerProxy.handleProxy env request w).
Proof.
  unfold SupabaseEdgeProxy.handleProxy, CfWorkerProxy.handleProxy.
  unfold SupabaseEdgeProxy.jsonResponse, CfWorkerProxy.jsonResponse.
  unfold_monad. unfold new_Response. cbn.
  repeat (first [rewrite truthy_js_or | break_match]; cbn in *; try discriminate).
  all: unfold same_up_to_preflight_headers; cbn; repeat split; reflexivity.
Qed.

Lemma supabase_handleUpload_same (request : Request) (w : World) :
  same_up_to_preflight_headers
    (SupabaseEdgeProxy.handleUpload env request w)
    (CfWorkerProxy.handleUpload env request w).
Proof.
  unfold SupabaseEdgeProxy.handleUpload, CfWorkerProxy.handleUpload.
  unfold SupabaseEdgeProxy.jsonResponse, CfWorkerProxy.jsonResponse.
  unfold SupabaseEdgeProxy.detect_mimeType, CfWorkerProxy.detect_mimeType.
  unfold_monad. unfold new_Response. cbn.
  repeat (first
            [ match goal with
              | H : forgiving_base64_decode _ = Some _ |- _ =>
                  first [ rewrite (proj1 (decoded_bytes_agree _ H))
                        | rewrite (proj2 (decoded_bytes_agree _ H)) ]
              end
            | break_match ];
          cbn in *; try discriminate).
  all: unfold same_up_to_preflight_headers; cbn; repeat split; reflexivity.
Qed.

Lemma cloudflare_handleUpload_same (request : Request) (w : World) :
  CfWorkerUpload.handleUpload env request w = CfWorkerProxy.handleUpload env request w.
Proof. reflexivity. Qed.
End HandlersAgree.

(** ** MIME inference *)

Lemma detect_mimeType_by_table (lowerFilename : jsstring) :
  CfWorkerProxy.detect_mimeType lowerFilename = mime_by_table lowerFilename.
Proof.
  unfold CfWorkerProxy.detect_mimeType, mime_by_table, mime_table.
  cbn [find existsb fst snd]. rewrite !orb_false_r.
  repeat break_match; reflexivity.
Qed.

(** C3. For every filename the MIME type the upload relay infers is found
    from the lower-cased filename by first match in the order .jpg/.jpeg,
    .webp, .gif, with image/png as the default; the three files compute the
    same type, and the four sample filenames of the specification get
    image/jpeg, image/webp, image/gif and image/png. *)
Theorem mime_inferred_by_first_match {RT : Runtime} (filename : jsstring) :
  CfWorkerProxy.detect_mimeType (toLowerCase filename) = inferred_mime filename /\
  CfWorkerUpload.detect_mimeType (toLowerCase filename) = inferred_mime filename /\
  SupabaseEdgeProxy.detect_mimeType (toLowerCase filename) = inferred_mime filename /\
  CfWorkerProxy.detect_mimeType (toLowerCase (js "photo.JPG")) = js "image/jpeg" /\
  CfWorkerProxy.detect_mimeType (toLowerCase (js "icon.webp")) = js "image/webp" /\
  CfWorkerProxy.detect_mimeType (toLowerCase (js "anim.gif")) = js "image/gif" /\
  CfWorkerProxy.detect_mimeType (toLowerCase (js "picture.bmp")) = js "image/png".
Proof.
  unfold inferred_mime. repeat split;
    try apply detect_mimeType_by_table; vm_compute; reflexivity.
Qed.

(** ** From the Cloudflare handlers to the Supabase ones *)

Section Transfer.
Context {RT : Runtime}.

Lemma rejects_400_transfer (supabase cloudflare : (JSError + Response) * World)
    (w : World) (message : jsstring) :
  same_up_to_preflight_headers supabase cloudflare ->
  rejects_400 cloudflare w message -> rejects_400 supabase w message.
Proof.
  intros [Hw Hr] (resp & -> & Hs & Hb).
  destruct supabase as [[e|resp'] w']; cbn in *; [contradiction|].
  destruct Hr as (Hs' & Hb' & _). subst w'.
  exists resp'. split; [reflexivity|].
  split; [rewrite Hs'; exact Hs | rewrite Hb'; exact Hb].
Qed.

Lemma fails_500_transfer (supabase cloudflare : (JSError + Response) * World)
    (w : World) (error message : jsstring) :
  same_up_to_preflight_headers supabase cloudflare ->
  fails_500 cloudflare w error message -> fails_500 supabase w error message.
Proof.
  intros [Hw Hr] (resp & Hresp & Hs & Hb & Hc).
  destruct supabase as [[e|resp'] w'], cloudflare as [[e0|resp0] w0];
    cbn in *; try contradiction; try discriminate.
  destruct Hr as (Hs' & Hb' & _). inversion Hresp; subst.
  exists resp'. split; [reflexivity|].
  split; [rewrite Hs'; exact Hs|].
  split; [rewrite Hb'; exact Hb | exact Hc].
Qed.

Lemma fails_500_after_transfer (supabase cloudflare : (JSError + Response) * World)
    (w : World) (call : FetchCall) (error message : jsstring) :
  same_up_to_preflight_headers supabase cloudflare ->
  fails_500_after cloudflare w call error message ->
  fails_500_after supabase w call error message.
Proof.
  intros [Hw Hr] (resp & Hresp & Hs & Hb & Hc).
  destruct supabase as [[e|resp'] w'], cloudflare as [[e0|resp0] w0];
    cbn in *; try contradiction; try discriminate.
  destruct Hr as (Hs' & Hb' & _). inversion Hresp; subst.
  exists resp'. split; [reflexivity|].
  split; [rewrite Hs'; exact Hs|].
  split; [rewrite Hb'; exact Hb | exact Hc].
Qed.

Lemma calls_transfer (supabase cloudflare : (JSError + Response) * World) :
  same_up_to_preflight_headers supabase cloudflare ->
  calls (world_of supabase) = calls (world_of cloudflare).
Proof. intros [Hw _]. unfold world_of. rewrite Hw. reflexivity. Qed.
End Transfer.

(** ** Validation *)

Lemma missing_or_empty_falsy (data : JSValue) (field : jsstring) :
  missing_or_empty data field -> truthy (get_prop data field) = false.
Proof. intros [-> | ->]; reflexivity. Qed.

Section Validation.
Context {RT : Runtime} (env : Env).

Lemma cf_handleProxy_rejects (request : Request) (fields : list (jsstring * JSValue))
    (w : World) :
  JSON_parse (req_body request) = inr (JObject fields) ->
  negb (truthy (get_prop (JObject fields) (js "method")))
  || negb (truthy (get_prop (JObject fields) (js "url"))) = true ->
  rejects_400 (CfWorkerProxy.handleProxy env request w) w
              (js "Missing required fields: method, url").
Proof.
  intros Hparse Hfalsy.
  unfold CfWorkerProxy.handleProxy, CfWorkerProxy.jsonResponse. unfold_monad.
  rewrite Hparse. cbn. rewrite Hfalsy.
  rewrite (new_Response_body _ _ constructible_400). cbn.
  eexists. repeat split.
Qed.

Lemma cf_handleUpload_rejects (request : Request) (fields : list (jsstring * JSValue))
    (w : World) :
  JSON_parse (req_body request) = inr (JObject fields) ->
  negb (truthy (get_prop (JObject fields) (js "image_data")))
  || negb (truthy (get_prop (JObject fields) (js "filename")))
  || negb (truthy (get_prop (JObject fields) (js "token")))
  || negb (truthy (get_prop (JObject fields) (js "target_url"))) = true ->
  rejects_400 (CfWorkerProxy.handleUpload env request w) w
              (js "Missing required fields: image_data, filename, token, target_url").
Proof.
  intros Hparse Hfalsy.
  unfold CfWorkerProxy.handleUpload, CfWorkerProxy.jsonResponse. unfold_monad.
  rewrite Hparse. cbn. rewrite Hfalsy.
  rewrite (new_Response_body _ _ constructible_400). cbn.
  eexists. repeat split.
Qed.
End Validation.

(** C4. An envelope (a JSON object) in which a required field is missing or
    empty is answered with status 400 and the operation's field-listing
    message, and the world is left as it was: no upstream call is made.  The
    required fields are method and url for the generic relay, and image_data,
    filename, token and target_url for the upload relay. *)
Theorem missing_field_rejected_without_call {RT : Runtime} (env : Env)
    (request : Request) (fields : list (jsstring * JSValue)) (w : World) :
  JSON_parse (req_body request) = inr (JObject fields) ->
  let data := JObject fields in
  (missing_or_empty data (js "method") \/ missing_or_empty data (js "url") ->
   let message := js "Missing required fields: method, url" in
   rejects_400 (CfWorkerProxy.handleProxy env request w) w message /\
   rejects_400 (SupabaseEdgeProxy.handleProxy env request w) w message)
  /\
  (missing_or_empty data (js "image_data") \/ missing_or_empty data (js "filename") \/
   missing_or_empty data (js "token") \/ missing_or_empty data (js "target_url") ->
   let message := js "Missing required fields: image_data, filename, token, target_url" in
   rejects_400 (CfWorkerProxy.handleUpload env request w) w message /\
   rejects_400 (CfWorkerUpload.handleUpload env request w) w message /\
   rejects_400 (SupabaseEdgeProxy.handleUpload env request w) w message).
Proof.
  intros Hparse data. split.
  - intros Hmissing message.
    assert (Hcf : rejects_400 (CfWorkerProxy.handleProxy env request w) w message).
    { apply cf_handleProxy_rejects with (fields := fields); [exact Hparse|].
      destruct Hmissing as [H|H]; apply missing_or_empty_falsy in H;
        fold data; rewrite H; cbn; auto using orb_true_r. }
    split; [exact Hcf|].
    eapply rejects_400_transfer; [apply supabase_handleProxy_same | exact Hcf].
  - intros Hmissing message.
    assert (Hcf : rejects_400 (CfWorkerProxy.handleUpload env request w) w message).
    { apply cf_handleUpload_rejects with (fields := fields); [exact Hparse|].
      destruct Hmissing as [H|[H|[H|H]]]; apply missing_or_empty_falsy in H;
        fold data; rewrite H; cbn; rewrite ?orb_true_r; reflexivity. }
    split; [exact Hcf|]. split; [exact Hcf|].
    eapply rejects_400_transfer; [apply supabase_handleUpload_same | exact Hcf].
Qed.

(** ** Failures before the upstream is called *)

Section EarlyFailures.
Context {RT : Runtime} (env : Env).

Lemma cf_handleProxy_body_not_json (request : Request) (e : JSError) (w : World) :
  JSON_parse (req_body request) = inl e ->
  fails_500 (CfWorkerProxy.handleProxy env request w) w
            (js "Proxy request failed") (err_message e).
Proof.
  intros Hparse.
  unfold CfWorkerProxy.handleProxy, CfWorkerProxy.jsonResponse. unfold_monad.
  rewrite Hparse. cbn.
  rewrite (new_Response_body _ _ constructible_500). cbn.
  eexists. repeat split.
Qed.

Lemma cf_handleUpload_body_not_json (request : Request) (e : JSError) (w : World) :
  JSON_parse (req_body request) = inl e ->
  fails_500 (CfWorkerProxy.handleUpload env request w) w
            (js "Upload failed") (err_message e).
Proof.
  intros Hparse.
  unfold CfWorkerProxy.handleUpload, CfWorkerProxy.jsonResponse. unfold_monad.
  rewrite Hparse. cbn.
  rewrite (new_Response_body _ _ constructible_500). cbn.
  eexists. repeat split.
Qed.

(** A body that is the JSON text [null] is not an envelope: reading its
    fields throws, and the handler answers 500, not 400. *)
Lemma cf_handleProxy_body_null (request : Request) (w : World) :
  JSON_parse (req_body request) = inr JNull ->
  fails_500 (CfWorkerProxy.handleProxy env request w) w
            (js "Proxy request failed") (builtin_message DestructureNullish).
Proof.
  intros Hparse.
  unfold CfWorkerProxy.handleProxy, CfWorkerProxy.jsonResponse. unfold_monad.
  rewrite Hparse. cbn.
  rewrite (new_Response_body _ _ constructible_500). cbn.
  eexists. repeat split.
Qed.

Lemma cf_handleUpload_bad_base64 (request : Request) (data : JSValue)
    (image_data : jsstring) (w : World) :
  JSON_parse (req_body request) = inr data ->
  get_prop data (js "image_data") = JString image_data ->
  image_data <> [] ->
  truthy (get_prop data (js "filename")) = true ->
  truthy (get_prop data (js "token")) = true ->
  truthy (get_prop data (js "target_url")) = true ->
  forgiving_base64_decode image_data = None ->
  fails_500 (CfWorkerProxy.handleUpload env request w) w
            (js "Upload failed") (builtin_message AtobInvalidCharacter).
Proof.
  intros Hparse Himg Hne Hf Ht Hu Hdecode.
  unfold CfWorkerProxy.handleUpload, CfWorkerProxy.jsonResponse. unfold_monad.
  rewrite Hparse. cbn.
  destruct data; try discriminate Himg; cbn.
  rewrite Himg, Hf, Ht, Hu, (truthy_nonempty_string Hne). cbn.
  rewrite ToString_JString, Hdecode. cbn.
  rewrite (new_Response_body _ _ constructible_500). cbn.
  eexists. repeat split.
Qed.
End EarlyFailures.

(** C10. A POST /proxy or POST /upload request whose body text is not valid
    JSON is answered by the router with status 500 and the error
    "Proxy request failed" (respectively "Upload failed") carrying the
    parser's message, not with a 400, and no upstream call is made.  The
    Supabase router matches the path by its suffix. *)
Theorem body_not_json_fails_500_without_call {RT : Runtime} (env : Env)
    (request : Request) (e : JSError) (w : World) :
  JSON_parse (req_body request) = inl e ->
  req_method request = js "POST" ->
  (req_pathname request = js "/proxy" ->
   fails_500 (CfWorkerProxy.fetch env request w) w
             (js "Proxy request failed") (err_message e))
  /\
  (req_pathname request = js "/upload" ->
   fails_500 (CfWorkerProxy.fetch env request w) w
             (js "Upload failed") (err_message e) /\
   fails_500 (CfWorkerUpload.fetch env request w) w
             (js "Upload failed") (err_message e))
  /\
  (endsWith (req_pathname request) (js "/proxy") = true ->
   fails_500 (SupabaseEdgeProxy.serve_handler env request w) w
             (js "Proxy request failed") (err_message e))
  /\
  (endsWith (req_pathname request) (js "/upload") = true ->
   fails_500 (SupabaseEdgeProxy.serve_handler env request w) w
             (js "Upload failed") (err_message e)).
Proof.
  intros Hparse Hmethod.
  unfold CfWorkerProxy.fetch, CfWorkerUpload.fetch, SupabaseEdgeProxy.serve_handler.
  rewrite Hmethod.
  replace (jsstring_eqb (js "POST") (js "OPTIONS")) with false by reflexivity.
  rewrite (jsstring_eqb_refl (js "POST")).
  repeat split.
  - intros ->. rewrite jsstring_eqb_refl. cbn.
    apply cf_handleProxy_body_not_json. exact Hparse.
  - rewrite H. replace (jsstring_eqb (js "/upload") (js "/proxy")) with false by reflexivity.
    rewrite jsstring_eqb_refl. cbn.
    apply cf_handleUpload_body_not_json. exact Hparse.
  - rewrite H. rewrite jsstring_eqb_refl. cbn.
    rewrite cloudflare_handleUpload_same.
    apply cf_handleUpload_body_not_json. exact Hparse.
  - intros ->. cbn.
    eapply fails_500_transfer; [apply supabase_handleProxy_same|].
    apply cf_handleProxy_body_not_json. exact Hparse.
  - intros Hup. rewrite (endsWith_upload_not_proxy _ Hup), Hup. cbn.
    eapply fails_500_transfer; [apply supabase_handleUpload_same|].
    apply cf_handleUpload_body_not_json. exact Hparse.
Qed.

(** ** The upload relay's outbound call *)

Arguments CfWorkerProxy.detect_mimeType : simpl never.

Lemma cf_handleUpload_calls {RT : Runtime} (env : Env) (request : Request)
    (data : JSValue) (image_data filename token target_url binaryStr : jsstring)
    (w : World) :
  JSON_parse (req_body request) = inr data ->
  valid_UploadRequest data image_data filename token target_url ->
  forgiving_base64_decode image_data = Some binaryStr ->
  calls (world_of (CfWorkerProxy.handleUpload env request w))
  = calls w ++ [upload_call binaryStr filename token target_url].
Proof.
  intros Hparse (Hi & Hin & Hf & Hfn & Ht & Htn & Hu & Hun) Hdecode.
  unfold CfWorkerProxy.handleUpload, CfWorkerProxy.jsonResponse. unfold_monad.
  rewrite Hparse. cbn.
  destruct data; try discriminate Hi; cbn.
  rewrite Hi, Hf, Ht, Hu.
  rewrite !truthy_nonempty_string by assumption. cbn.
  rewrite !ToString_JString, Hdecode. cbn.
  rewrite (proj1 (decoded_bytes_agree _ Hdecode)), detect_mimeType_by_table.
  unfold upload_call, inferred_mime, world_of, new_Response.
  repeat (break_match; cbn in *; try discriminate); reflexivity.
Qed.

(** C1. For a valid UploadRequest (four non-empty string fields, image_data
    decodable as base64) the upload relay makes exactly one call: a POST to
    target_url whose header object has exactly the two properties
    Authorization = "Bearer " + token and User-Agent = the fixed literal, and
    whose body is a form of exactly two entries: the file entry "file" with
    the decoded bytes, the inferred MIME type and the filename, then the text
    entry "file_name" with the filename.  This holds for the three files and
    whatever the upstream answers. *)
Theorem upload_issues_one_multipart_post {RT : Runtime} (env : Env) (request : Request)
    (data : JSValue) (image_data filename token target_url binaryStr : jsstring)
    (w : World) :
  JSON_parse (req_body request) = inr data ->
  valid_UploadRequest data image_data filename token target_url ->
  forgiving_base64_decode image_data = Some binaryStr ->
  let call := upload_call binaryStr filename token target_url in
  User_Agent = js "Sora/1.2026.007 (Android 15; 24122RKC7C; build 2600700)" /\
  calls (world_of (CfWorkerProxy.handleUpload env request w)) = calls w ++ [call] /\
  calls (world_of (CfWorkerUpload.handleUpload env request w)) = calls w ++ [call] /\
  calls (world_of (SupabaseEdgeProxy.handleUpload env request w)) = calls w ++ [call].
Proof.
  intros Hparse Hvalid Hdecode call.
  assert (Hcf : calls (world_of (CfWorkerProxy.handleUpload env request w))
                = calls w ++ [call])
    by (eapply cf_handleUpload_calls; eassumption).
  split; [reflexivity|]. split; [exact Hcf|]. split; [exact Hcf|].
  rewrite (calls_transfer (supabase_handleUpload_same env request w)). exact Hcf.
Qed.

(** ** Image data that does not decode *)

Lemma base64_index_alphabet (c : N) :
  base64_index c = None <-> in_base64_alphabet c = false.
Proof.
  unfold base64_index, in_base64_alphabet.
  destruct (65 <=? c)%N, (c <=? 90)%N, (97 <=? c)%N, (c <=? 122)%N,
    (48 <=? c)%N, (c <=? 57)%N, (N.eqb c 43), (N.eqb c 47);
    cbn; split; intros H; try reflexivity; discriminate H.
Qed.

Lemma base64_indices_none (data : jsstring) :
  base64_indices data = None -> exists c, In c data /\ base64_index c = None.
Proof.
  induction data as [|d data IH]; cbn [base64_indices]; [discriminate|].
  destruct (base64_index d) eqn:Ed.
  - destruct (base64_indices data); [discriminate|]. intros _.
    destruct (IH eq_refl) as (c & Hin & Hc). exists c. split; [right; exact Hin | exact Hc].
  - intros _. exists d. split; [left; reflexivity | exact Ed].
Qed.

(** [atob] throws exactly on the malformed texts. *)
Lemma malformed_base64_rejected (image_data : jsstring) :
  malformed_base64 image_data <-> forgiving_base64_decode image_data = None.
Proof.
  unfold malformed_base64, base64_payload, forgiving_base64_decode.
  set (payload := remove_padding _). split.
  - intros [(c & Hin & Hc) | Hlen].
    + destruct (_ =? 1)%nat; [reflexivity|].
      rewrite (base64_indices_all_known _ _ Hin (proj2 (base64_index_alphabet c) Hc)).
      reflexivity.
    + rewrite Hlen. reflexivity.
  - destruct (Nat.eqb_spec (length payload mod 4) 1) as [Hlen | Hlen];
      [intros _; right; exact Hlen|].
    destruct (base64_indices payload) eqn:E; [discriminate|]. intros _. left.
    destruct (base64_indices_none _ E) as (c & Hin & Hc).
    exists c. split; [exact Hin | apply base64_index_alphabet; exact Hc].
Qed.

Lemma well_formed_base64_decoded (image_data : jsstring) :
  ~ malformed_base64 image_data ->
  exists binaryStr, forgiving_base64_decode image_data = Some binaryStr.
Proof.
  intros H. destruct (forgiving_base64_decode image_data) as [b|] eqn:E.
  - exists b. reflexivity.
  - exfalso. apply H, malformed_base64_rejected. exact E.
Qed.

(** C7 (amended). Whether an upload that passes validation fails on its
    image_data is decided by the text alone, and by a looser rule than valid
    base64.  When the text is malformed for [atob] (once ASCII whitespace is
    dropped and then, if the length left is a multiple of four, one or two
    [=] at the end, a character outside A-Z a-z 0-9 + / remains or the length
    is 1 modulo 4), the handler answers 500 with the error "Upload failed"
    and the message of the thrown exception, and makes no upstream call.
    Every other text is decoded and uploaded in one call: text without
    padding, with bits set after the last byte, with whitespace inside. *)
Theorem malformed_base64_fails_500_without_call {RT : Runtime} (env : Env)
    (request : Request) (data : JSValue) (image_data : jsstring) (w : World) :
  JSON_parse (req_body request) = inr data ->
  get_prop data (js "image_data") = JString image_data ->
  image_data <> [] ->
  truthy (get_prop data (js "filename")) = true ->
  truthy (get_prop data (js "token")) = true ->
  truthy (get_prop data (js "target_url")) = true ->
  (malformed_base64 image_data ->
   let message := builtin_message AtobInvalidCharacter in
   fails_500 (CfWorkerProxy.handleUpload env request w) w (js "Upload failed") message /\
   fails_500 (CfWorkerUpload.handleUpload env request w) w (js "Upload failed") message /\
   fails_500 (SupabaseEdgeProxy.handleUpload env request w) w (js "Upload failed") message)
  /\
  (~ malformed_base64 image_data ->
   forall filename token target_url,
     valid_UploadRequest data image_data filename token target_url ->
     exists binaryStr,
       forgiving_base64_decode image_data = Some binaryStr /\
       let call := upload_call binaryStr filename token target_url in
       calls (world_of (CfWorkerProxy.handleUpload env request w)) = calls w ++ [call] /\
       calls (world_of (CfWorkerUpload.handleUpload env request w)) = calls w ++ [call] /\
       calls (world_of (SupabaseEdgeProxy.handleUpload env request w))
       = calls w ++ [call]).
Proof.
  intros Hparse Himg Hne Hf Ht Hu. split.
  - intros Hbad message.
    apply malformed_base64_rejected in Hbad.
    assert (Hcf : fails_500 (CfWorkerProxy.handleUpload env request w) w
                            (js "Upload failed") message)
      by (eapply cf_handleUpload_bad_base64; eassumption).
    split; [exact Hcf|]. split; [exact Hcf|].
    eapply fails_500_transfer; [apply supabase_handleUpload_same | exact Hcf].
  - intros Hgood filename token target_url Hvalid.
    destruct (well_formed_base64_decoded Hgood) as (binaryStr & Hdecode).
    exists binaryStr. split; [exact Hdecode|]. intros call.
    pose proof (cf_handleUpload_calls env request w Hparse Hvalid Hdecode) as Hcalls.
    split; [exact Hcalls|]. split; [exact Hcalls|].
    rewrite (calls_transfer (supabase_handleUpload_same env request w)). exact Hcalls.
Qed.

(** ** The generic relay's outbound call *)

Lemma cf_handleProxy_calls {RT : Runtime} (env : Env) (request : Request)
    (data : JSValue) (method url : jsstring) (w : World) :
  JSON_parse (req_body request) = inr data ->
  valid_RelayRequest data method url ->
  calls (world_of (CfWorkerProxy.handleProxy env request w))
  = calls w ++ [proxy_call data method url].
Proof.
  intros Hparse (Hm & Hmn & Hu & Hun & Hh).
  unfold CfWorkerProxy.handleProxy, CfWorkerProxy.jsonResponse. unfold_monad.
  rewrite Hparse. cbn.
  destruct data; try discriminate Hm; cbn.
  unfold proxy_call, content_type_injected, body_attached, caller_headers.
  rewrite Hm, Hu. rewrite !truthy_nonempty_string by assumption. cbn.
  unfold world_of, new_Response, js_or.
  destruct Hh as [Hh | [h Hh]]; rewrite Hh; cbn;
    repeat (break_match; cbn in *; try discriminate); reflexivity.
Qed.


(** ** After the upstream has answered *)

(** Case analysis that keeps the upstream's answer [Hup] in step with the
    goal. *)
Ltac break_match_with Hup known :=
  first
    [ rewrite Hup
    | known
    | match goal with
      | |- context [match ?x with _ => _ end] =>
          lazymatch x with
          | context [match _ with _ => _ end] => fail
          | _ => let E := fresh "E" in destruct x eqn:E; rewrite ?E in Hup
          end
      end ].

Section Answered.
Context {RT : Runtime} (env : Env).

Lemma cf_handleProxy_relays (request : Request) (data : JSValue)
    (method url : jsstring) (s : Z) (text : jsstring) (w : World) :
  JSON_parse (req_body request) = inr data ->
  valid_RelayRequest data method url ->
  upstream env (proxy_call data method url)
    = FetchResolves {| status := s; text_outcome := inr text |} ->
  constructible_with_body s ->
  relays (CfWorkerProxy.handleProxy env request w) w
         (proxy_call data method url) s (normalized text).
Proof.
  intros Hparse (Hm & Hmn & Hu & Hun & Hh) Hup Hs.
  unfold CfWorkerProxy.handleProxy, CfWorkerProxy.jsonResponse. unfold_monad.
  rewrite Hparse. cbn.
  destruct data; try discriminate Hm; cbn.
  unfold relays, normalized.
  unfold proxy_call, content_type_injected, body_attached, caller_headers in *.
  rewrite Hm, Hu. rewrite !truthy_nonempty_string by assumption. cbn.
  unfold js_or.
  destruct Hh as [Hh | [h Hh]]; rewrite Hh in *; cbn in *;
    repeat (break_match_with Hup ltac:(rewrite (new_Response_body _ _ Hs));
            cbn in *; try discriminate);
    eexists; repeat split.
Qed.

Lemma cf_handleProxy_null_body_status (request : Request) (data : JSValue)
    (method url : jsstring) (s : Z) (text : jsstring) (w : World) :
  JSON_parse (req_body request) = inr data ->
  valid_RelayRequest data method url ->
  upstream env (proxy_call data method url)
    = FetchResolves {| status := s; text_outcome := inr text |} ->
  null_body_status s = true -> (200 <= s <= 599)%Z ->
  fails_500_after (CfWorkerProxy.handleProxy env request w) w
    (proxy_call data method url)
    (js "Proxy request failed") (builtin_message ResponseNullBodyStatus).
Proof.
  intros Hparse (Hm & Hmn & Hu & Hun & Hh) Hup Hnull Hrange.
  unfold CfWorkerProxy.handleProxy, CfWorkerProxy.jsonResponse. unfold_monad.
  rewrite Hparse. cbn.
  destruct data; try discriminate Hm; cbn.
  unfold fails_500_after, response_of, world_of.
  unfold proxy_call, content_type_injected, body_attached, caller_headers in *.
  rewrite Hm, Hu. rewrite !truthy_nonempty_string by assumption. cbn.
  unfold js_or.
  destruct Hh as [Hh | [h Hh]]; rewrite Hh in *; cbn in *;
    repeat (break_match_with Hup
              ltac:(first [ rewrite (new_Response_null_body_status _ _ Hnull Hrange)
                          | rewrite (new_Response_body _ _ constructible_500) ]);
            cbn in *; try discriminate);
    eexists; repeat split.
Qed.
Lemma cf_handleUpload_relays (request : Request) (data : JSValue)
    (image_data filename token target_url binaryStr : jsstring)
    (s : Z) (text : jsstring) (w : World) :
  JSON_parse (req_body request) = inr data ->
  valid_UploadRequest data image_data filename token target_url ->
  forgiving_base64_decode image_data = Some binaryStr ->
  upstream env (upload_call binaryStr filename token target_url)
    = FetchResolves {| status := s; text_outcome := inr text |} ->
  constructible_with_body s ->
  relays (CfWorkerProxy.handleUpload env request w) w
         (upload_call binaryStr filename token target_url) s (normalized text).
Proof.
  intros Hparse (Hi & Hin & Hf & Hfn & Ht & Htn & Hu & Hun) Hdecode Hup Hs.
  unfold CfWorkerProxy.handleUpload, CfWorkerProxy.jsonResponse. unfold_monad.
  rewrite Hparse. cbn.
  destruct data; try discriminate Hi; cbn.
  rewrite Hi, Hf, Ht, Hu.
  rewrite !truthy_nonempty_string by assumption. cbn.
  rewrite !ToString_JString, Hdecode. cbn.
  rewrite (proj1 (decoded_bytes_agree _ Hdecode)), detect_mimeType_by_table.
  unfold relays, normalized. unfold upload_call, inferred_mime in *.
  repeat (break_match_with Hup ltac:(rewrite (new_Response_body _ _ Hs));
          cbn in *; try discriminate);
  eexists; repeat split.
Qed.

Lemma cf_handleUpload_null_body_status (request : Request) (data : JSValue)
    (image_data filename token target_url binaryStr : jsstring)
    (s : Z) (text : jsstring) (w : World) :
  JSON_parse (req_body request) = inr data ->
  valid_UploadRequest data image_data filename token target_url ->
  forgiving_base64_decode image_data = Some binaryStr ->
  upstream env (upload_call binaryStr filename token target_url)
    = FetchResolves {| status := s; text_outcome := inr text |} ->
  null_body_status s = true -> (200 <= s <= 599)%Z ->
  fails_500_after (CfWorkerProxy.handleUpload env request w) w
    (upload_call binaryStr filename token target_url)
    (js "Upload failed") (builtin_message ResponseNullBodyStatus).
Proof.
  intros Hparse (Hi & Hin & Hf & Hfn & Ht & Htn & Hu & Hun) Hdecode Hup Hnull Hrange.
  unfold CfWorkerProxy.handleUpload, CfWorkerProxy.jsonResponse. unfold_monad.
  rewrite Hparse. cbn.
  destruct data; try discriminate Hi; cbn.
  rewrite Hi, Hf, Ht, Hu.
  rewrite !truthy_nonempty_string by assumption. cbn.
  rewrite !ToString_JString, Hdecode. cbn.
  rewrite (proj1 (decoded_bytes_agree _ Hdecode)), detect_mimeType_by_table.
  unfold fails_500_after, response_of, world_of. unfold upload_call, inferred_mime in *.
  repeat (break_match_with Hup
            ltac:(first [ rewrite (new_Response_null_body_status _ _ Hnull Hrange)
                        | rewrite (new_Response_body _ _ constructible_500) ]);
          cbn in *; try discriminate);
  eexists; repeat split.
Qed.
End Answered.

(** When the [Response] constructor accepts the upstream's status, the relay
    answers with that status and the JSON text of the normalized value; in
    particular a value that survives [JSON.stringify] and [JSON.parse] comes
    back as it was sent. *)
Lemma relay_round_trip {RT : Runtime} (env : Env) (request : Request) (data : JSValue)
    (method url : jsstring) (V : JSValue) (s : Z) (w : World) :
  JSON_parse (req_body request) = inr data ->
  valid_RelayRequest data method url ->
  JSON_parse (JSON_stringify V) = inr V ->
  upstream env (proxy_call data method url)
    = FetchResolves {| status := s; text_outcome := inr (JSON_stringify V) |} ->
  constructible_with_body s ->
  relays (CfWorkerProxy.handleProxy env request w) w (proxy_call data method url) s V.
Proof.
  intros Hparse Hvalid Hround Hup Hs.
  pose proof (cf_handleProxy_relays env request w Hparse Hvalid Hup Hs) as H.
  unfold normalized in H. rewrite Hround in H. exact H.
Qed.

(** C5 (the code departs from the claim). When the upstream completes with
    a null body status of the Fetch standard (204, 205, 304) and the body text
    JSON.stringify(V), [jsonResponse] hands the status and a body to the
    [Response] constructor, which throws; the handler's [catch] answers 500
    with "Proxy request failed", so the upstream's status is replaced and V
    is not returned. *)
Theorem null_body_status_replaced_by_500 {RT : Runtime} (env : Env) (request : Request)
    (data : JSValue) (method url : jsstring) (V : JSValue) (s : Z) (w : World) :
  JSON_parse (req_body request) = inr data ->
  valid_RelayRequest data method url ->
  upstream env (proxy_call data method url)
    = FetchResolves {| status := s; text_outcome := inr (JSON_stringify V) |} ->
  null_body_status s = true -> (200 <= s <= 599)%Z ->
  let call := proxy_call data method url in
  let message := builtin_message ResponseNullBodyStatus in
  fails_500_after (CfWorkerProxy.handleProxy env request w) w call
                  (js "Proxy request failed") message /\
  fails_500_after (SupabaseEdgeProxy.handleProxy env request w) w call
                  (js "Proxy request failed") message.
Proof.
  intros Hparse Hvalid Hup Hnull Hrange call message.
  assert (Hcf : fails_500_after (CfWorkerProxy.handleProxy env request w) w call
                                (js "Proxy request failed") message)
    by (eapply cf_handleProxy_null_body_status; eassumption).
  split; [exact Hcf|].
  eapply fails_500_after_transfer; [apply supabase_handleProxy_same | exact Hcf].
Qed.

(** C6 (the code departs from the claim). When the upstream's text fails
    JSON parsing and its status is a null body status (the usual case: 204
    with an empty body), the wrapper { raw_response: text } is built but the
    [Response] constructor throws on the status; the handlers answer 500 with
    their failure envelope instead of the wrapper and the upstream's
    status. *)
Theorem unparsable_text_with_null_body_status_fails_500 {RT : Runtime} (env : Env)
    (proxy_request upload_request : Request) (proxy_data upload_data : JSValue)
    (method url image_data filename token target_url binaryStr : jsstring)
    (text : jsstring) (e : JSError) (s : Z) (w : World) :
  JSON_parse text = inl e ->
  null_body_status s = true -> (200 <= s <= 599)%Z ->
  (forall call, upstream env call
                = FetchResolves {| status := s; text_outcome := inr text |}) ->
  JSON_parse (req_body proxy_request) = inr proxy_data ->
  valid_RelayRequest proxy_data method url ->
  JSON_parse (req_body upload_request) = inr upload_data ->
  valid_UploadRequest upload_data image_data filename token target_url ->
  forgiving_base64_decode image_data = Some binaryStr ->
  let message := builtin_message ResponseNullBodyStatus in
  fails_500_after (CfWorkerProxy.handleProxy env proxy_request w) w
                  (proxy_call proxy_data method url)
                  (js "Proxy request failed") message /\
  fails_500_after (CfWorkerUpload.handleUpload env upload_request w) w
                  (upload_call binaryStr filename token target_url)
                  (js "Upload failed") message.
Proof.
  intros _ Hnull Hrange Hup Hp Hpv Hu Huv Hdecode message. split.
  - eapply cf_handleProxy_null_body_status; try eassumption. apply Hup.
  - rewrite cloudflare_handleUpload_same.
    eapply cf_handleUpload_null_body_status; try eassumption. apply Hup.
Qed.

(** ** Response headers *)

(** Every response built by [jsonResponse] carries both headers. *)
Lemma jsonResponse_carries_both_headers {RT : Runtime} (data : JSValue) (s : option Z)
    (w w' : World) (resp : Response) :
  CfWorkerProxy.jsonResponse data s w = (inr resp, w')
  \/ CfWorkerUpload.jsonResponse data s w = (inr resp, w')
  \/ SupabaseEdgeProxy.jsonResponse data s w = (inr resp, w') ->
  header_get (js "Content-Type") (resp_headers resp) = Some (js "application/json") /\
  header_get (js "Access-Control-Allow-Origin") (resp_headers resp) = Some (js "*").
Proof.
  unfold CfWorkerProxy.jsonResponse, CfWorkerUpload.jsonResponse,
    SupabaseEdgeProxy.jsonResponse, lift, new_Response.
  intros [H | [H | H]]; revert H;
    repeat break_match; intros H; inversion H; subst; cbn;
    split; vm_compute; reflexivity.
Qed.

(** C8 (the code departs from the claim). In the two Cloudflare files the
    health-check response and the not-found response are built without
    [jsonResponse]: they carry Content-Type: application/json but no
    Access-Control-Allow-Origin header. *)
Theorem health_and_not_found_lack_allow_origin {RT : Runtime} (env : Env) (w : World) :
  let lacks_allow_origin (run : (JSError + Response) * World) :=
    exists resp,
      run = (inr resp, w) /\
      header_get (js "Content-Type") (resp_headers resp) = Some (js "application/json") /\
      header_get (js "Access-Control-Allow-Origin") (resp_headers resp) = None in
  lacks_allow_origin (CfWorkerProxy.fetch env (Examples.get "/health") w) /\
  lacks_allow_origin (CfWorkerProxy.fetch env (Examples.get "/nowhere") w) /\
  lacks_allow_origin (CfWorkerUpload.fetch env (Examples.get "/health") w) /\
  lacks_allow_origin (CfWorkerUpload.fetch env (Examples.get "/nowhere") w).
Proof.
  cbv zeta. repeat split; eexists; (split; [vm_compute; reflexivity|]);
    split; vm_compute; reflexivity.
Qed.

(** The Supabase file answers the same two requests through [jsonResponse],
    with both headers. *)
Lemma supabase_health_and_not_found_carry_both {RT : Runtime} (env : Env) (w : World) :
  let carries_both (run : (JSError + Response) * World) :=
    exists resp,
      run = (inr resp, w) /\
      header_get (js "Content-Type") (resp_headers resp) = Some (js "application/json") /\
      header_get (js "Access-Control-Allow-Origin") (resp_headers resp) = Some (js "*") in
  carries_both (SupabaseEdgeProxy.serve_handler env (Examples.get "/health") w) /\
  carries_both (SupabaseEdgeProxy.serve_handler env (Examples.get "/nowhere") w).
Proof.
  cbv zeta. repeat split; eexists; (split; [vm_compute; reflexivity|]);
    split; vm_compute; reflexivity.
Qed.

(** ** The duplicated implementations *)

(** *** Each file on its own platform *)

Lemma ToString_JArray_cons {RT : Runtime} (x : JSValue) (rest : list JSValue) :
  ToString (JArray (x :: rest))
  = match (match x with JUndefined | JNull => inr [] | _ => ToString x end), rest with
    | inl e, _ => inl e
    | inr s, [] => inr s
    | inr s, _ :: _ =>
        match ToString (JArray rest) with
        | inl e => inl e
        | inr t => inr (s ++ js "," ++ t)
        end
    end.
Proof. reflexivity. Qed.

Section Wording.
Variables RT RT' : Runtime.
Hypothesis Hsame : same_language RT RT'.

Lemma toUpperCase_same (s : jsstring) : @toUpperCase RT s = @toUpperCase RT' s.
Proof.
  unfold toUpperCase. destruct (forallb is_ascii_unit s); [reflexivity|].
  apply Hsame.
Qed.

Lemma toLowerCase_same (s : jsstring) : @toLowerCase RT s = @toLowerCase RT' s.
Proof.
  unfold toLowerCase. destruct (forallb is_ascii_unit s); [reflexivity|].
  apply Hsame.
Qed.

(** [ToString] gives the same text on both platforms, or throws on both. *)
Lemma ToString_same (v : JSValue) :
  match @ToString RT v, @ToString RT' v with
  | inr s, inr s' => s = s'
  | inl _, inl _ => True
  | _, _ => False
  end.
Proof.
  revert v. fix IH 1. intros [ | | [|] | x | s | items | props].
  1-4, 6: reflexivity.
  - change (@Number_toString RT x = @Number_toString RT' x). apply Hsame.
  - induction items as [|x rest IHrest]; [reflexivity|].
    rewrite !ToString_JArray_cons.
    pose proof (IH x) as Hx.
    destruct x; try exact Hx;
      destruct (@ToString RT _), (@ToString RT' _); try contradiction; try exact I;
      try subst;
      destruct rest; try reflexivity;
      destruct (@ToString RT _), (@ToString RT' _); try contradiction; try exact I;
      try subst; reflexivity.
  - change (match (match assoc_get (js "toString") props with
                   | Some _ => inl (@TypeError RT CannotConvertToPrimitive)
                   | None => inr (js "[object Object]")
                   end),
                  (match assoc_get (js "toString") props with
                   | Some _ => inl (@TypeError RT' CannotConvertToPrimitive)
                   | None => inr (js "[object Object]")
                   end) with
            | inr s, inr s' => s = s'
            | inl _, inl _ => True
            | _, _ => False
            end).
    destruct (assoc_get (js "toString") props); [exact I | reflexivity].
Qed.

(** One step of the case analysis of two runs of a handler on the two
    platforms: what the second platform computes is rewritten to what the
    first computes, a parse or a conversion is split on both sides at once,
    and otherwise the innermost scrutinee is split. *)
Ltac in_step Hparse Hstr :=
  first
    [ rewrite <- Hstr
    | rewrite <- toUpperCase_same
    | rewrite <- toLowerCase_same
    | match goal with
      | |- context [@JSON_parse RT ?t] =>
          let H := fresh "H" in
          pose proof (Hparse t) as H; revert H;
          destruct (@JSON_parse RT t), (@JSON_parse RT' t); intros H;
          try contradiction; try subst
      | |- context [@ToString RT ?v] =>
          let H := fresh "H" in
          pose proof (ToString_same v) as H; revert H;
          destruct (@ToString RT v), (@ToString RT' v); intros H;
          try contradiction; try subst
      end
    | break_match ].

Ltac wording_leaf :=
  unfold agree_up_to_wording, failure_envelope; cbn;
  split; [reflexivity|];
  split; [rewrite ?map_app; reflexivity|];
  do 2 eexists;
  split; [reflexivity|]; split; [reflexivity|]; split; [reflexivity|];
  split; [reflexivity|];
  first [ left; reflexivity
        | right; split; [reflexivity|]; do 2 eexists; split; reflexivity ].

Lemma cf_handleProxy_wording (env : Env) (request : Request) (w : World) :
  @agree_up_to_wording RT (js "Proxy request failed") []
    (@CfWorkerProxy.handleProxy RT' env request w)
    (@CfWorkerProxy.handleProxy RT env request w).
Proof.
  destruct Hsame as (Hparse & Hstr & _).
  unfold CfWorkerProxy.handleProxy, CfWorkerProxy.jsonResponse.
  unfold_monad. unfold new_Response. cbn.
  repeat (in_step Hparse Hstr; cbn in *; try discriminate).
  all: wording_leaf.
Qed.

Lemma cf_handleUpload_wording (env : Env) (request : Request) (w : World) :
  @agree_up_to_wording RT (js "Upload failed") []
    (@CfWorkerProxy.handleUpload RT' env request w)
    (@CfWorkerProxy.handleUpload RT env request w).
Proof.
  destruct Hsame as (Hparse & Hstr & _).
  unfold CfWorkerProxy.handleUpload, CfWorkerProxy.jsonResponse.
  unfold_monad. unfold new_Response. cbn.
  repeat (in_step Hparse Hstr; cbn in *; try discriminate).
  all: wording_leaf.
Qed.
End Wording.

(** A file that differs from another by its headers only, run on a platform
    that differs from another by its wording only. *)
Lemma agree_across_platforms {RT : Runtime} (error : jsstring)
    (supabase cloudflare' cloudflare : (JSError + Response) * World) :
  same_up_to_preflight_headers supabase cloudflare' ->
  agree_up_to_wording error [] cloudflare' cloudflare ->
  agree_up_to_wording error preflight_headers supabase cloudflare.
Proof.
  intros [Hw Hr] (Hcalls & Hlog & rb' & rb & Hrb' & Hrb & Hs & Hh & Hb).
  rewrite Hrb' in Hr. destruct (fst supabase) as [e|ra] eqn:Hra; [contradiction|].
  destruct Hr as (Hs' & Hb' & Hh').
  unfold agree_up_to_wording. rewrite Hw.
  split; [exact Hcalls|]. split; [exact Hlog|].
  exists ra, rb. split; [exact Hra|]. split; [exact Hrb|].
  split; [rewrite Hs'; exact Hs|].
  split; [rewrite Hh', Hh, app_nil_r; reflexivity|].
  rewrite Hb'. exact Hb.
Qed.

(** C9 (amended). On the same request, in the same world and against the
    same upstream, [handleUpload] of the two Cloudflare files give the same
    result; the Supabase handlers make the same calls, log the same lines
    and answer with the same status and body as the Cloudflare ones, and
    their responses carry the same two headers followed by
    Access-Control-Allow-Methods, Access-Control-Allow-Headers and
    Access-Control-Max-Age.  On every text [atob] decodes, the per-index
    [charCodeAt] loop and [Uint8Array.from] build the same bytes.  That is
    for the files run on one platform.  With the Supabase file on a platform
    of its own, one that reads and writes JSON, prints numbers and maps case
    as the first does and words its errors as it likes, the calls, the
    labels logged, the status and the headers compare in the same way, and
    so does the body, except that the message inside a 500 failure envelope
    is worded by each platform. *)
Theorem duplicates_agree_up_to_preflight_headers {RT : Runtime} (env : Env)
    (request : Request) (w : World) :
  CfWorkerUpload.handleUpload env request w = CfWorkerProxy.handleUpload env request w /\
  same_up_to_preflight_headers (SupabaseEdgeProxy.handleUpload env request w)
                               (CfWorkerProxy.handleUpload env request w) /\
  same_up_to_preflight_headers (SupabaseEdgeProxy.handleProxy env request w)
                               (CfWorkerProxy.handleProxy env request w) /\
  (forall image_data : jsstring,
     match forgiving_base64_decode image_data with
     | Some binaryStr =>
         for_range (length binaryStr)
                   (fun i bytes => array_store i (charCodeAt binaryStr i) bytes)
                   (Uint8Array_new (length binaryStr))
         = Uint8Array_from binaryStr (fun c => charCodeAt c 0)
     | None => True
     end) /\
  (forall RT' : Runtime,
     same_language RT RT' ->
     @agree_up_to_wording RT (js "Upload failed") preflight_headers
       (@SupabaseEdgeProxy.handleUpload RT' env request w)
       (@CfWorkerProxy.handleUpload RT env request w) /\
     @agree_up_to_wording RT (js "Proxy request failed") preflight_headers
       (@SupabaseEdgeProxy.handleProxy RT' env request w)
       (@CfWorkerProxy.handleProxy RT env request w)).
Proof.
  split; [apply cloudflare_handleUpload_same|].
  split; [apply supabase_handleUpload_same|].
  split; [apply supabase_handleProxy_same|].
  split.
  - intros image_data. destruct (forgiving_base64_decode image_data) eqn:E; [|exact I].
    destruct (decoded_bytes_agree _ E) as [-> ->]. reflexivity.
  - intros RT' Hsame. split.
    + eapply agree_across_platforms;
        [apply supabase_handleUpload_same | apply cf_handleUpload_wording; exact Hsame].
    + eapply agree_across_platforms;
        [apply supabase_handleProxy_same | apply cf_handleProxy_wording; exact Hsame].
Qed.

(** Outside what [atob] returns the two ways of filling the array differ: a
    surrogate pair is two units for the loop and one element for
    [Uint8Array.from]. *)
Lemma byte_fillers_differ_on_surrogate_pair :
  let s := [55357; 56832]%N in
  for_range (length s) (fun i bytes => array_store i (charCodeAt s i) bytes)
            (Uint8Array_new (length s)) = [61; 0]%N /\
  Uint8Array_from s (fun c => charCodeAt c 0) = [61]%N.
Proof. split; vm_compute; reflexivity. Qed.

(** * Closed examples on the reference runtime *)

Section ClosedExamples.
#[local] Existing Instance ReferenceRuntime.runtime.
Import ReferenceRuntime Examples.

Lemma echo_envelope_parsed : JSON_parse echo_envelope = inr echo_data.
Proof. vm_compute. reflexivity. Qed.

Lemma echo_data_valid :
  valid_RelayRequest echo_data (js "POST") (js "https://example.test/echo").
Proof.
  unfold valid_RelayRequest.
  repeat split; try (vm_compute; reflexivity); try discriminate.
  left. vm_compute. reflexivity.
Qed.


Lemma upload_envelope_parsed : JSON_parse upload_envelope = inr upload_data.
Proof. vm_compute. reflexivity. Qed.

Lemma upload_data_valid :
  valid_UploadRequest upload_data (js "iVBORw0KGgo=") (js "x.png") (js "t0k3n")
                      (js "https://example.test/uploads").
Proof.
  unfold valid_UploadRequest.
  repeat split; try (vm_compute; reflexivity); discriminate.
Qed.

Lemma png_signature_decoded :
  forgiving_base64_decode (js "iVBORw0KGgo=") = Some png_signature.
Proof. vm_compute. reflexivity. Qed.

(** The end-to-end scenario of the specification: POST /proxy with a body
    and no headers sends Content-Type: application/json and the body
    {"a":1}. *)
Lemma echo_scenario :
  calls (world_of (CfWorkerProxy.fetch (answering 200 (json_text "{'ok':true}"))
                     (post "/proxy" echo_envelope) fresh))
  = [ {| call_url := JString (js "https://example.test/echo");
         call_init :=
           {| init_method := js "POST";
              init_headers := JObject [(js "Content-Type", JString (js "application/json"))];
              init_body := Some (BodyText (json_text "{'a':1}")) |} |} ].
Proof. vm_compute. reflexivity. Qed.

(** Status preservation and the raw-text fallback, as the specification
    samples them: 429 with {"error":"rate limited"} comes back as it is, and
    the text hello with status 200 comes back wrapped. *)
Lemma rate_limited_scenario :
  response_of (CfWorkerProxy.fetch (answering 429 rate_limited)
                 (post "/proxy" echo_envelope) fresh)
  = Some {| resp_status := 429;
            resp_headers := [ (js "Content-Type", js "application/json");
                              (js "Access-Control-Allow-Origin", js "*") ];
            resp_body := Some rate_limited |}.
Proof. vm_compute. reflexivity. Qed.

Lemma fallback_scenario :
  response_of (CfWorkerProxy.fetch (answering 200 (js "hello"))
                 (post "/proxy" echo_envelope) fresh)
  = Some {| resp_status := 200;
            resp_headers := [ (js "Content-Type", js "application/json");
                              (js "Access-Control-Allow-Origin", js "*") ];
            resp_body := Some (json_text "{'raw_response':'hello'}") |}.
Proof. vm_compute. reflexivity. Qed.

Lemma upload_issues_one_multipart_post_witness :
  let env := answering 200 (json_text "{'id':'media_1'}") in
  let request := post "/upload" upload_envelope in
  let call := upload_call png_signature (js "x.png") (js "t0k3n")
                          (js "https://example.test/uploads") in
  User_Agent = js "Sora/1.2026.007 (Android 15; 24122RKC7C; build 2600700)" /\
  calls (world_of (CfWorkerProxy.handleUpload env request fresh)) = calls fresh ++ [call] /\
  calls (world_of (CfWorkerUpload.handleUpload env request fresh)) = calls fresh ++ [call] /\
  calls (world_of (SupabaseEdgeProxy.handleUpload env request fresh)) = calls fresh ++ [call].
Proof.
  exact (upload_issues_one_multipart_post
           (answering 200 (json_text "{'id':'media_1'}")) (post "/upload" upload_envelope)
           fresh upload_envelope_parsed upload_data_valid png_signature_decoded).
Defined.



Lemma missing_field_rejected_without_call_witness :
  (let message := js "Missing required fields: method, url" in
   let run handler :=
     handler (answering 200 []) (post "/proxy" no_url_envelope) fresh in
   rejects_400 (run CfWorkerProxy.handleProxy) fresh message /\
   rejects_400 (run SupabaseEdgeProxy.handleProxy) fresh message)
  /\
  (let message := js "Missing required fields: image_data, filename, token, target_url" in
   let run handler :=
     handler (answering 200 []) (post "/upload" no_token_envelope) fresh in
   rejects_400 (run CfWorkerProxy.handleUpload) fresh message /\
   rejects_400 (run CfWorkerUpload.handleUpload) fresh message /\
   rejects_400 (run SupabaseEdgeProxy.handleUpload) fresh message).
Proof.
  split.
  - refine (proj1 (@missing_field_rejected_without_call runtime
                     (answering 200 []) (post "/proxy" no_url_envelope)
                     no_url_fields fresh _) _).
    + vm_compute. reflexivity.
    + right. left. vm_compute. reflexivity.
  - refine (proj2 (@missing_field_rejected_without_call runtime
                     (answering 200 []) (post "/upload" no_token_envelope)
                     no_token_fields fresh _) _).
    + vm_compute. reflexivity.
    + right. right. left. left. vm_compute. reflexivity.
Defined.

(** The status-preservation scenario of the specification with a null body
    status: the upstream answers 205 with {"error":"rate limited"} and the
    relay answers 500. *)
Lemma null_body_status_replaced_by_500_witness :
  let env := answering 205 (JSON_stringify rate_limited_value) in
  let request := post "/proxy" echo_envelope in
  let call := proxy_call echo_data (js "POST") (js "https://example.test/echo") in
  let message := builtin_message ResponseNullBodyStatus in
  fails_500_after (CfWorkerProxy.handleProxy env request fresh) fresh call
                  (js "Proxy request failed") message /\
  fails_500_after (SupabaseEdgeProxy.handleProxy env request fresh) fresh call
                  (js "Proxy request failed") message.
Proof.
  refine (@null_body_status_replaced_by_500 runtime
            (answering 205 (JSON_stringify rate_limited_value))
            (post "/proxy" echo_envelope) echo_data (js "POST")
            (js "https://example.test/echo") rate_limited_value 205 fresh _ _ _ _ _).
  - vm_compute. reflexivity.
  - exact echo_data_valid.
  - reflexivity.
  - reflexivity.
  - lia.
Defined.

(** 204 No Content: the empty text does not parse, and neither the wrapper
    nor the status 204 reaches the caller. *)
Lemma unparsable_text_with_null_body_status_fails_500_witness :
  let env := answering 204 [] in
  let message := builtin_message ResponseNullBodyStatus in
  fails_500_after (CfWorkerProxy.handleProxy env (post "/proxy" echo_envelope) fresh) fresh
                  (proxy_call echo_data (js "POST") (js "https://example.test/echo"))
                  (js "Proxy request failed") message /\
  fails_500_after (CfWorkerUpload.handleUpload env (post "/upload" upload_envelope) fresh)
                  fresh
                  (upload_call png_signature (js "x.png") (js "t0k3n")
                               (js "https://example.test/uploads"))
                  (js "Upload failed") message.
Proof.
  refine (@unparsable_text_with_null_body_status_fails_500 runtime (answering 204 [])
            (post "/proxy" echo_envelope) (post "/upload" upload_envelope)
            echo_data upload_data (js "POST") (js "https://example.test/echo")
            (js "iVBORw0KGgo=") (js "x.png") (js "t0k3n")
            (js "https://example.test/uploads") png_signature
            [] SyntaxError_JSON 204 fresh _ _ _ _ _ _ _ _ _).
  - vm_compute. reflexivity.
  - reflexivity.
  - lia.
  - intros call. reflexivity.
  - vm_compute. reflexivity.
  - exact echo_data_valid.
  - vm_compute. reflexivity.
  - exact upload_data_valid.
  - vm_compute. reflexivity.
Defined.

Lemma unpadded_envelope_parsed : JSON_parse unpadded_envelope = inr unpadded_data.
Proof. vm_compute. reflexivity. Qed.

Lemma unpadded_data_valid :
  valid_UploadRequest unpadded_data (js "QQ") (js "x.png") (js "t0k3n")
                      (js "https://example.test/uploads").
Proof.
  unfold valid_UploadRequest.
  repeat split; try (vm_compute; reflexivity); discriminate.
Qed.

(** Text that RFC 4648 does not accept and [atob] reads all the same:
    without padding, with bits set after the last byte (they are dropped),
    with whitespace inside. *)
Lemma atob_is_forgiving :
  forgiving_base64_decode (js "QQ==") = Some [65%N] /\
  forgiving_base64_decode (js "QQ") = Some [65%N] /\
  forgiving_base64_decode (js "QR==") = Some [65%N] /\
  forgiving_base64_decode (js " Q Q = = ") = Some [65%N].
Proof. repeat split; vm_compute; reflexivity. Qed.

(** A [*] in the text; and the text QQ, which is uploaded. *)
Lemma malformed_base64_fails_500_without_call_witness :
  let env := answering 200 (json_text "{'id':'media_1'}") in
  let message := builtin_message AtobInvalidCharacter in
  (fails_500 (CfWorkerProxy.handleUpload env (post "/upload" bad_base64_envelope) fresh)
             fresh (js "Upload failed") message /\
   fails_500 (CfWorkerUpload.handleUpload env (post "/upload" bad_base64_envelope) fresh)
             fresh (js "Upload failed") message /\
   fails_500 (SupabaseEdgeProxy.handleUpload env (post "/upload" bad_base64_envelope) fresh)
             fresh (js "Upload failed") message) /\
  exists binaryStr,
    forgiving_base64_decode (js "QQ") = Some binaryStr /\
    let call := upload_call binaryStr (js "x.png") (js "t0k3n")
                            (js "https://example.test/uploads") in
    calls (world_of (CfWorkerProxy.handleUpload env (post "/upload" unpadded_envelope) fresh))
    = calls fresh ++ [call] /\
    calls (world_of (CfWorkerUpload.handleUpload env (post "/upload" unpadded_envelope) fresh))
    = calls fresh ++ [call] /\
    calls (world_of (SupabaseEdgeProxy.handleUpload env (post "/upload" unpadded_envelope)
                                                    fresh))
    = calls fresh ++ [call].
Proof.
  assert (Hbad : malformed_base64 (js "iVBO*w0KGgo=")).
  { left. exists 42%N. split; [|reflexivity].
    vm_compute. repeat (try (left; reflexivity); right). }
  assert (Hgood : ~ malformed_base64 (js "QQ")).
  { intros [(c & Hin & Hc) | Hlen].
    - vm_compute in Hin. destruct Hin as [<- | [<- | []]]; discriminate Hc.
    - vm_compute in Hlen. discriminate Hlen. }
  assert (Hparse : JSON_parse (req_body (post "/upload" bad_base64_envelope))
                   = inr bad_base64_data) by (vm_compute; reflexivity).
  assert (Hne : js "iVBO*w0KGgo=" <> []) by discriminate.
  assert (Hne' : js "QQ" <> []) by discriminate.
  pose proof (@malformed_base64_fails_500_without_call runtime
                (answering 200 (json_text "{'id':'media_1'}"))
                (post "/upload" bad_base64_envelope) bad_base64_data (js "iVBO*w0KGgo=")
                fresh Hparse eq_refl Hne eq_refl eq_refl eq_refl) as Hrejected.
  pose proof (@malformed_base64_fails_500_without_call runtime
                (answering 200 (json_text "{'id':'media_1'}"))
                (post "/upload" unpadded_envelope) unpadded_data (js "QQ")
                fresh unpadded_envelope_parsed eq_refl Hne' eq_refl eq_refl eq_refl)
    as HQQ.
  exact (conj (proj1 Hrejected Hbad)
              (proj2 HQQ Hgood (js "x.png") (js "t0k3n") (js "https://example.test/uploads")
                     unpadded_data_valid)).
Defined.

Lemma body_not_json_fails_500_without_call_witness :
  let env := answering 200 [] in
  let message := err_message SyntaxError_JSON in
  fails_500 (CfWorkerProxy.fetch env (post "/proxy" not_json) fresh) fresh
            (js "Proxy request failed") message /\
  fails_500 (CfWorkerUpload.fetch env (post "/upload" not_json) fresh) fresh
            (js "Upload failed") message /\
  fails_500 (SupabaseEdgeProxy.serve_handler env
               (post "/functions/v1/sora-proxy/upload" not_json) fresh) fresh
            (js "Upload failed") message.
Proof.
  split; [|split].
  - refine (proj1 (@body_not_json_fails_500_without_call runtime (answering 200 [])
                     (post "/proxy" not_json) SyntaxError_JSON fresh _ _) _).
    + vm_compute. reflexivity.
    + reflexivity.
    + reflexivity.
  - refine (proj2 (proj1 (proj2 (@body_not_json_fails_500_without_call runtime
                     (answering 200 []) (post "/upload" not_json) SyntaxError_JSON
                     fresh _ _)) _)).
    + vm_compute. reflexivity.
    + reflexivity.
    + reflexivity.
  - refine (proj2 (proj2 (proj2 (@body_not_json_fails_500_without_call runtime
                     (answering 200 [])
                     (post "/functions/v1/sora-proxy/upload" not_json) SyntaxError_JSON
                     fresh _ _))) _).
    + vm_compute. reflexivity.
    + reflexivity.
    + vm_compute. reflexivity.
Defined.

(** The claim C9 as the specification words it fails: on any request the
    Supabase response carries three headers the Cloudflare response does
    not. *)
Lemma supabase_response_has_more_headers : ~ duplicates_identical.
Proof.
  intros claim.
  destruct (claim runtime (answering 200 []) (post "/upload" not_json) fresh)
    as (_ & Hsame & _).
  vm_compute in Hsame. discriminate Hsame.
Qed.
Lemma reworded_same_language : same_language runtime reworded.
Proof.
  unfold same_language. cbn.
  split; [intros text; destruct (parse_text text); [exact I | reflexivity]|].
  repeat split; reflexivity.
Qed.

(** The same undecodable upload on the two platforms: the messages are not
    the same text, all the rest is. *)
Lemma platforms_word_the_failure_differently :
  let env := answering 200 [] in
  let request := post "/upload" bad_base64_envelope in
  option_map resp_body (response_of (@SupabaseEdgeProxy.handleUpload reworded env request fresh))
  = Some (Some (json_text "{'error':'Upload failed','message':'Failed to decode base64'}")) /\
  option_map resp_body (response_of (@CfWorkerProxy.handleUpload runtime env request fresh))
  = Some (Some (json_text "{'error':'Upload failed','message':'Invalid character'}")).
Proof. split; vm_compute; reflexivity. Qed.

Lemma duplicates_agree_up_to_preflight_headers_witness :
  let env := answering 200 [] in
  agree_up_to_wording (js "Upload failed") preflight_headers
    (@SupabaseEdgeProxy.handleUpload reworded env (post "/upload" bad_base64_envelope) fresh)
    (@CfWorkerProxy.handleUpload runtime env (post "/upload" bad_base64_envelope) fresh) /\
  agree_up_to_wording (js "Proxy request failed") preflight_headers
    (@SupabaseEdgeProxy.handleProxy reworded env (post "/proxy" echo_envelope) fresh)
    (@CfWorkerProxy.handleProxy runtime env (post "/proxy" echo_envelope) fresh).
Proof.
  pose proof (@duplicates_agree_up_to_preflight_headers runtime (answering 200 [])
                (post "/upload" bad_base64_envelope) fresh) as Hupload.
  pose proof (@duplicates_agree_up_to_preflight_headers runtime (answering 200 [])
                (post "/proxy" echo_envelope) fresh) as Hproxy.
  exact (conj (proj1 (proj2 (proj2 (proj2 (proj2 Hupload))) reworded
                            reworded_same_language))
              (proj2 (proj2 (proj2 (proj2 (proj2 Hproxy))) reworded
                            reworded_same_language))).
Defined.
End ClosedExamples.


(* ===================================================================== *)
(** * Further properties of the code *)
(* ===================================================================== *)

(** ** What the outer try/catch contains *)

Lemma header_get_app (name value : jsstring) (l l' : list (jsstring * jsstring)) :
  header_get name l = Some value -> header_get name (l ++ l') = Some value.
Proof.
  induction l as [|[n v] l IH]; simpl; [discriminate|].
  destruct (jsstring_eqb _ _); [trivial | exact IH].
Qed.

(** Closes a leaf of the case analysis of a Cloudflare handler. *)
Ltac contained_leaf :=
  unfold contained, answers_with_body, carries_json_and_allow_origin,
    at_most_one_call, logs_only_what_it_reports; cbn;
  split; [eexists; split; [reflexivity | discriminate]|];
  split; [eexists; split; [reflexivity | split; vm_compute; reflexivity]|];
  split;
    [ first [left; reflexivity | right; eexists; reflexivity]
    | first [left; reflexivity
            | right; do 2 eexists; repeat split; reflexivity] ].

Section Containment.
Context {RT : Runtime} (env : Env).

Lemma cf_handleProxy_contained (request : Request) (w : World) :
  contained (js "Proxy error:") (js "Proxy request failed") w
            (CfWorkerProxy.handleProxy env request w).
Proof.
  unfold CfWorkerProxy.handleProxy, CfWorkerProxy.jsonResponse.
  unfold_monad. unfold new_Response. cbn.
  repeat (break_match; cbn in *; try discriminate).
  all: contained_leaf.
Qed.

Lemma cf_handleUpload_contained (request : Request) (w : World) :
  contained (js "Upload error:") (js "Upload failed") w
            (CfWorkerProxy.handleUpload env request w).
Proof.
  unfold CfWorkerProxy.handleUpload, CfWorkerProxy.jsonResponse.
  unfold_monad. unfold new_Response. cbn.
  repeat (break_match; cbn in *; try discriminate).
  all: contained_leaf.
Qed.

Lemma contained_transfer (label text : jsstring) (w : World)
    (supabase cloudflare : (JSError + Response) * World) :
  same_up_to_preflight_headers supabase cloudflare ->
  contained label text w cloudflare -> contained label text w supabase.
Proof.
  intros [Hw Hr] (Ha & Hh & Hc & Hl).
  destruct supabase as [[e|a] wa], cloudflare as [[e'|b] wb]; cbn in *;
    try contradiction;
    try (destruct Ha as (resp & Hresp & _); discriminate Hresp).
  destruct Hr as (Hs & Hb & Hhd). subst wb.
  unfold contained, answers_with_body, carries_json_and_allow_origin,
    at_most_one_call, logs_only_what_it_reports in *. cbn in *.
  destruct Ha as (resp & Hresp & Hbody). inversion Hresp; subst resp; clear Hresp.
  destruct Hh as (resp & Hresp & Hct & Hao). inversion Hresp; subst resp; clear Hresp.
  split; [exists a; split; [reflexivity | rewrite Hb; exact Hbody]|].
  split.
  { exists a. split; [reflexivity|]. rewrite Hhd.
    split; apply header_get_app; assumption. }
  split; [exact Hc|].
  destruct Hl as [Hl | (error & resp & Hcon & Hresp & Hst & Hbd)]; [left; exact Hl|].
  inversion Hresp; subst resp; clear Hresp.
  right. exists error, a. repeat split; congruence.
Qed.

Lemma handlers_contained :
  Forall (fun '(label, text, handler) =>
            forall request w, contained label text w (handler request w))
         (labelled_handlers env).
Proof.
  unfold labelled_handlers.
  repeat apply Forall_cons; try apply Forall_nil; intros request w.
  - apply cf_handleProxy_contained.
  - apply cf_handleUpload_contained.
  - rewrite cloudflare_handleUpload_same. apply cf_handleUpload_contained.
  - eapply contained_transfer;
      [apply supabase_handleProxy_same | apply cf_handleProxy_contained].
  - eapply contained_transfer;
      [apply supabase_handleUpload_same | apply cf_handleUpload_contained].
Qed.
End Containment.


Section ContainmentOfEach.
Context {RT : Runtime} (env : Env).

Lemma each_handler_contained (request : Request) (w : World) :
  contained (js "Proxy error:") (js "Proxy request failed") w
            (CfWorkerProxy.handleProxy env request w) /\
  contained (js "Upload error:") (js "Upload failed") w
            (CfWorkerProxy.handleUpload env request w) /\
  contained (js "Upload error:") (js "Upload failed") w
            (CfWorkerUpload.handleUpload env request w) /\
  contained (js "Proxy error:") (js "Proxy request failed") w
            (SupabaseEdgeProxy.handleProxy env request w) /\
  contained (js "Upload error:") (js "Upload failed") w
            (SupabaseEdgeProxy.handleUpload env request w).
Proof.
  pose proof (handlers_contained env) as H. unfold labelled_handlers in H.
  repeat match goal with
         | F : Forall _ (_ :: _) |- _ =>
             let Hx := fresh "Hx" in apply Forall_cons_iff in F as [Hx F]
         end.
  cbn in *.
  repeat match goal with |- _ /\ _ => split end; auto.
Qed.

Lemma contained_answers (label text : jsstring) (w : World)
    (run : (JSError + Response) * World) :
  contained label text w run -> answers run /\ at_most_one_call w run.
Proof.
  intros ((resp & Hresp & _) & _ & Hcalls & _).
  split; [exists resp; exact Hresp | exact Hcalls].
Qed.

(** A router answers and makes at most one call. *)
Ltac router_leaf :=
  first
    [ eapply contained_answers; apply each_handler_contained
    | split; [eexists; reflexivity | left; reflexivity] ].

Lemma each_router_answers (request : Request) (w : World) :
  (answers (CfWorkerProxy.fetch env request w)
   /\ at_most_one_call w (CfWorkerProxy.fetch env request w)) /\
  (answers (CfWorkerUpload.fetch env request w)
   /\ at_most_one_call w (CfWorkerUpload.fetch env request w)) /\
  (answers (SupabaseEdgeProxy.serve_handler env request w)
   /\ at_most_one_call w (SupabaseEdgeProxy.serve_handler env request w)).
Proof.
  unfold CfWorkerProxy.fetch, CfWorkerUpload.fetch, SupabaseEdgeProxy.serve_handler,
    CfWorkerProxy.handleCORS, CfWorkerUpload.handleCORS, SupabaseEdgeProxy.handleCORS,
    SupabaseEdgeProxy.jsonResponse, lift, new_Response.
  cbn.
  split; [|split]; repeat (break_match; cbn in *; try discriminate); router_leaf.
Qed.
End ContainmentOfEach.

(** X1. No exception leaves a handler or a router: every run of the five
    handlers ends in a response that has a body, and every run of the three
    routers ends in a response. *)
Theorem no_exception_escapes {RT : Runtime} (env : Env) :
  Forall (fun handler => forall request w, answers_with_body (handler request w))
         (relay_handlers env) /\
  Forall (fun router => forall request w, answers (router request w)) (routers env).
Proof.
  unfold relay_handlers, routers. split.
  - repeat apply Forall_cons; try apply Forall_nil; intros request w;
      pose proof (each_handler_contained env request w) as H;
      unfold contained in H; tauto.
  - repeat apply Forall_cons; try apply Forall_nil; intros request w;
      pose proof (each_router_answers env request w) as H; tauto.
Qed.

(** X2. Every response of the five handlers, success or failure, carries
    Content-Type: application/json and Access-Control-Allow-Origin: *. *)
Theorem handler_responses_carry_both_headers {RT : Runtime} (env : Env) :
  Forall (fun handler =>
            forall request w, carries_json_and_allow_origin (handler request w))
         (relay_handlers env).
Proof.
  unfold relay_handlers.
  repeat apply Forall_cons; try apply Forall_nil; intros request w;
    pose proof (each_handler_contained env request w) as H;
    unfold contained in H; tauto.
Qed.

(** X3. A handler or a router makes at most one upstream call per request:
    the record of calls is left as it was or grows by one call at its end;
    nothing is retried and nothing recorded is dropped. *)
Theorem at_most_one_upstream_call {RT : Runtime} (env : Env) :
  Forall (fun handler => forall request w, at_most_one_call w (handler request w))
         (relay_handlers env ++ routers env).
Proof.
  unfold relay_handlers, routers. cbn [app].
  repeat apply Forall_cons; try apply Forall_nil; intros request w;
    first [ pose proof (each_handler_contained env request w) as H;
            unfold contained in H; tauto
          | pose proof (each_router_answers env request w) as H; tauto ].
Qed.

(** X4. A handler writes to the console only from its catch block: a run
    logs nothing, or it logs one error under the handler's label and answers
    500 with the handler's failure envelope carrying that error's message. *)
Theorem logged_error_is_the_reported_one {RT : Runtime} (env : Env) :
  Forall (fun '(label, text, handler) =>
            forall request w,
              logs_only_what_it_reports label text w (handler request w))
         (labelled_handlers env).
Proof.
  unfold labelled_handlers.
  repeat apply Forall_cons; try apply Forall_nil; intros request w;
    pose proof (each_handler_contained env request w) as H;
    unfold contained in H; tauto.
Qed.


(** ** Routing *)

Lemma endsWith_health_no_other_route (pathname : jsstring) :
  endsWith pathname (js "/health") = true ->
  endsWith pathname (js "/proxy") = false /\ endsWith pathname (js "/upload") = false.
Proof.
  intros H. apply endsWith_last with (d := 0%N) in H; [|discriminate].
  split.
  - destruct (endsWith pathname (js "/proxy")) eqn:E; [|reflexivity].
    apply endsWith_last with (d := 0%N) in E; [|discriminate].
    rewrite H in E. vm_compute in E. discriminate.
  - destruct (endsWith pathname (js "/upload")) eqn:E; [|reflexivity].
    apply endsWith_last with (d := 0%N) in E; [|discriminate].
    rewrite H in E. vm_compute in E. discriminate.
Qed.

(** X5. A request with method OPTIONS is answered by [handleCORS] whatever
    its path and body: status 200, no body, the four preflight headers and
    no Content-Type, with no upstream call and nothing logged, in all three
    files; an OPTIONS request to /proxy or /upload never reaches a handler. *)
Theorem preflight_never_reaches_a_handler {RT : Runtime} (env : Env)
    (pathname body : jsstring) (w : World) :
  let request :=
    {| req_method := js "OPTIONS"; req_pathname := pathname; req_body := body |} in
  CfWorkerProxy.fetch env request w = (inr preflight_response, w) /\
  CfWorkerUpload.fetch env request w = (inr preflight_response, w) /\
  SupabaseEdgeProxy.serve_handler env request w = (inr preflight_response, w) /\
  resp_body preflight_response = None /\
  header_get (js "Access-Control-Allow-Origin") (resp_headers preflight_response)
    = Some (js "*") /\
  header_get (js "Content-Type") (resp_headers preflight_response) = None.
Proof.
  cbv zeta.
  unfold CfWorkerProxy.fetch, CfWorkerUpload.fetch, SupabaseEdgeProxy.serve_handler.
  cbn [req_method]. rewrite jsstring_eqb_refl.
  repeat split; vm_compute; reflexivity.
Qed.

(** X6. The health check answers every method but OPTIONS, POST included:
    status 200 and { status: "ok", timestamp }, no upstream call.  The
    Cloudflare files match the path /health exactly, the Supabase file any
    path that ends in /health. *)
Theorem health_answers_any_method {RT : Runtime} (env : Env) (request : Request)
    (w : World) :
  jsstring_eqb (req_method request) (js "OPTIONS") = false ->
  (req_pathname request = js "/health" ->
   CfWorkerProxy.fetch env request w = (inr (cloudflare_plain 200 (health_body env)), w) /\
   CfWorkerUpload.fetch env request w = (inr (cloudflare_plain 200 (health_body env)), w))
  /\
  (endsWith (req_pathname request) (js "/health") = true ->
   SupabaseEdgeProxy.serve_handler env request w
   = (inr (supabase_json 200 (health_body env)), w)).
Proof.
  intros Hm.
  unfold CfWorkerProxy.fetch, CfWorkerUpload.fetch, SupabaseEdgeProxy.serve_handler.
  rewrite Hm. split.
  - intros ->.
    replace (jsstring_eqb (js "/health") (js "/proxy")) with false by reflexivity.
    replace (jsstring_eqb (js "/health") (js "/upload")) with false by reflexivity.
    rewrite jsstring_eqb_refl. cbn. split; reflexivity.
  - intros Hh. destruct (endsWith_health_no_other_route _ Hh) as [-> ->].
    rewrite Hh. cbn. reflexivity.
Qed.

(** X7. A request that matches no route is answered 404 { error:
    "Not Found" } with no upstream call: any method but POST on /proxy and
    /upload (there is no 405), and any path that is not a route.  Each
    router is taken with its own tests: the Cloudflare files compare the
    whole path, so a longer path that ends in /health, /proxy or /upload is
    no route there, and cf-worker-upload.js has no /proxy; the Supabase file
    compares the end of the path. *)
Theorem unrouted_request_not_found {RT : Runtime} (env : Env) (request : Request)
    (w : World) :
  jsstring_eqb (req_method request) (js "OPTIONS") = false ->
  (req_pathname request <> js "/health" ->
   jsstring_eqb (req_method request) (js "POST") = false
   \/ (req_pathname request <> js "/proxy" /\ req_pathname request <> js "/upload") ->
   CfWorkerProxy.fetch env request w = (inr (cloudflare_plain 404 not_found_body), w))
  /\
  (req_pathname request <> js "/health" ->
   jsstring_eqb (req_method request) (js "POST") = false
   \/ req_pathname request <> js "/upload" ->
   CfWorkerUpload.fetch env request w = (inr (cloudflare_plain 404 not_found_body), w))
  /\
  (endsWith (req_pathname request) (js "/health") = false ->
   jsstring_eqb (req_method request) (js "POST") = false
   \/ (endsWith (req_pathname request) (js "/proxy") = false
       /\ endsWith (req_pathname request) (js "/upload") = false) ->
   SupabaseEdgeProxy.serve_handler env request w
   = (inr (supabase_json 404 not_found_body), w)).
Proof.
  intros Hm.
  unfold CfWorkerProxy.fetch, CfWorkerUpload.fetch, SupabaseEdgeProxy.serve_handler.
  rewrite Hm. split; [|split].
  - intros Hh [Hp | [Hp Hu]]; rewrite (jsstring_eqb_neq Hh).
    + rewrite Hp, !andb_false_r. cbn. reflexivity.
    + rewrite (jsstring_eqb_neq Hp), (jsstring_eqb_neq Hu). cbn. reflexivity.
  - intros Hh [Hp | Hu]; rewrite (jsstring_eqb_neq Hh).
    + rewrite Hp, !andb_false_r. cbn. reflexivity.
    + rewrite (jsstring_eqb_neq Hu). cbn. reflexivity.
  - intros Hh [Hp | [Hp Hu]]; rewrite Hh.
    + rewrite Hp, !andb_false_r. cbn. reflexivity.
    + rewrite Hp, Hu. cbn. reflexivity.
Qed.

(** ** What the upstream's answer becomes *)

Lemma new_Response_out_of_range {RT : Runtime} (body : option jsstring) (s : Z) headers :
  out_of_range s ->
  new_Response body (Some s) headers = inl (RangeError ResponseStatusRange).
Proof.
  intros H. unfold new_Response, out_of_range in *.
  destruct ((200 <=? s mod 65536)%Z && (s mod 65536 <=? 599)%Z) eqn:E; [|reflexivity].
  apply andb_true_iff in E as [E1 E2]. apply Z.leb_le in E1, E2. lia.
Qed.

Lemma relays_transfer {RT : Runtime} (supabase cloudflare : (JSError + Response) * World)
    (w : World) (call : FetchCall) (s : Z) (value : JSValue) :
  same_up_to_preflight_headers supabase cloudflare ->
  relays cloudflare w call s value -> relays supabase w call s value.
Proof.
  intros [Hw Hr] (resp & -> & Hs & Hb).
  destruct supabase as [[e|resp'] w']; cbn in *; [contradiction|].
  destruct Hr as (Hs' & Hb' & _). subst w'.
  exists resp'. split; [reflexivity|].
  split; [rewrite Hs'; exact Hs | rewrite Hb'; exact Hb].
Qed.

Section UpstreamOutcomes.
Context {RT : Runtime} (env : Env).

Lemma cf_handleProxy_upstream_failed (request : Request) (data : JSValue)
    (method url : jsstring) (e : JSError) (w : World) :
  JSON_parse (req_body request) = inr data ->
  valid_RelayRequest data method url ->
  failed_with e (upstream env (proxy_call data method url)) ->
  fails_500_after (CfWorkerProxy.handleProxy env request w) w
    (proxy_call data method url) (js "Proxy request failed") (err_message e).
Proof.
  intros Hparse (Hm & Hmn & Hu & Hun & Hh) Hfail.
  unfold CfWorkerProxy.handleProxy, CfWorkerProxy.jsonResponse. unfold_monad.
  rewrite Hparse. cbn.
  destruct data; try discriminate Hm; cbn.
  unfold fails_500_after, response_of, world_of.
  unfold proxy_call, content_type_injected, body_attached, caller_headers in *.
  rewrite Hm, Hu. rewrite !truthy_nonempty_string by assumption. cbn.
  unfold js_or.
  destruct Hfail as [Hup | [s Hup]];
    (destruct Hh as [Hh | [h Hh]]; rewrite Hh in *; cbn in *;
     repeat (break_match_with Hup
               ltac:(rewrite (new_Response_body _ _ constructible_500));
             cbn in *; try discriminate);
     eexists; repeat split).
Qed.

Lemma cf_handleUpload_upstream_failed (request : Request) (data : JSValue)
    (image_data filename token target_url binaryStr : jsstring)
    (e : JSError) (w : World) :
  JSON_parse (req_body request) = inr data ->
  valid_UploadRequest data image_data filename token target_url ->
  forgiving_base64_decode image_data = Some binaryStr ->
  failed_with e (upstream env (upload_call binaryStr filename token target_url)) ->
  fails_500_after (CfWorkerProxy.handleUpload env request w) w
    (upload_call binaryStr filename token target_url)
    (js "Upload failed") (err_message e).
Proof.
  intros Hparse (Hi & Hin & Hf & Hfn & Ht & Htn & Hu & Hun) Hdecode Hfail.
  unfold CfWorkerProxy.handleUpload, CfWorkerProxy.jsonResponse. unfold_monad.
  rewrite Hparse. cbn.
  destruct data; try discriminate Hi; cbn.
  rewrite Hi, Hf, Ht, Hu.
  rewrite !truthy_nonempty_string by assumption. cbn.
  rewrite !ToString_JString, Hdecode. cbn.
  rewrite (proj1 (decoded_bytes_agree _ Hdecode)), detect_mimeType_by_table.
  unfold fails_500_after, response_of, world_of. unfold upload_call, inferred_mime in *.
  destruct Hfail as [Hup | [s Hup]];
    (repeat (break_match_with Hup
               ltac:(rewrite (new_Response_body _ _ constructible_500));
             cbn in *; try discriminate);
     eexists; repeat split).
Qed.

Lemma cf_handleProxy_status_out_of_range (request : Request) (data : JSValue)
    (method url : jsstring) (s : Z) (text : jsstring) (w : World) :
  JSON_parse (req_body request) = inr data ->
  valid_RelayRequest data method url ->
  upstream env (proxy_call data method url)
    = FetchResolves {| status := s; text_outcome := inr text |} ->
  out_of_range s ->
  fails_500_after (CfWorkerProxy.handleProxy env request w) w
    (proxy_call data method url)
    (js "Proxy request failed") (builtin_message ResponseStatusRange).
Proof.
  intros Hparse (Hm & Hmn & Hu & Hun & Hh) Hup Hs.
  unfold CfWorkerProxy.handleProxy, CfWorkerProxy.jsonResponse. unfold_monad.
  rewrite Hparse. cbn.
  destruct data; try discriminate Hm; cbn.
  unfold fails_500_after, response_of, world_of.
  unfold proxy_call, content_type_injected, body_attached, caller_headers in *.
  rewrite Hm, Hu. rewrite !truthy_nonempty_string by assumption. cbn.
  unfold js_or.
  destruct Hh as [Hh | [h Hh]]; rewrite Hh in *; cbn in *;
    repeat (break_match_with Hup
              ltac:(first [ rewrite (new_Response_out_of_range _ _ Hs)
                          | rewrite (new_Response_body _ _ constructible_500) ]);
            cbn in *; try discriminate);
    eexists; repeat split.
Qed.

Lemma cf_handleUpload_status_out_of_range (request : Request) (data : JSValue)
    (image_data filename token target_url binaryStr : jsstring)
    (s : Z) (text : jsstring) (w : World) :
  JSON_parse (req_body request) = inr data ->
  valid_UploadRequest data image_data filename token target_url ->
  forgiving_base64_decode image_data = Some binaryStr ->
  upstream env (upload_call binaryStr filename token target_url)
    = FetchResolves {| status := s; text_outcome := inr text |} ->
  out_of_range s ->
  fails_500_after (CfWorkerProxy.handleUpload env request w) w
    (upload_call binaryStr filename token target_url)
    (js "Upload failed") (builtin_message ResponseStatusRange).
Proof.
  intros Hparse (Hi & Hin & Hf & Hfn & Ht & Htn & Hu & Hun) Hdecode Hup Hs.
  unfold CfWorkerProxy.handleUpload, CfWorkerProxy.jsonResponse. unfold_monad.
  rewrite Hparse. cbn.
  destruct data; try discriminate Hi; cbn.
  rewrite Hi, Hf, Ht, Hu.
  rewrite !truthy_nonempty_string by assumption. cbn.
  rewrite !ToString_JString, Hdecode. cbn.
  rewrite (proj1 (decoded_bytes_agree _ Hdecode)), detect_mimeType_by_table.
  unfold fails_500_after, response_of, world_of. unfold upload_call, inferred_mime in *.
  repeat (break_match_with Hup
            ltac:(first [ rewrite (new_Response_out_of_range _ _ Hs)
                        | rewrite (new_Response_body _ _ constructible_500) ]);
          cbn in *; try discriminate);
  eexists; repeat split.
Qed.
End UpstreamOutcomes.

(** X8. When the upstream call does not complete ([fetch] rejects, or
    reading the response text does), every handler answers 500 with its
    failure envelope carrying the failure's message, after exactly the one
    call it made. *)
Theorem upstream_failure_reported_as_500 {RT : Runtime} (env : Env)
    (proxy_request upload_request : Request) (proxy_data upload_data : JSValue)
    (method url image_data filename token target_url binaryStr : jsstring)
    (e : JSError) (w : World) :
  (forall call, failed_with e (upstream env call)) ->
  (is_relay_request proxy_request proxy_data method url ->
   let call := proxy_call proxy_data method url in
   fails_500_after (CfWorkerProxy.handleProxy env proxy_request w) w call
                   (js "Proxy request failed") (err_message e) /\
   fails_500_after (SupabaseEdgeProxy.handleProxy env proxy_request w) w call
                   (js "Proxy request failed") (err_message e))
  /\
  (is_upload_request upload_request upload_data image_data filename token target_url
                     binaryStr ->
   let call := upload_call binaryStr filename token target_url in
   fails_500_after (CfWorkerProxy.handleUpload env upload_request w) w call
                   (js "Upload failed") (err_message e) /\
   fails_500_after (CfWorkerUpload.handleUpload env upload_request w) w call
                   (js "Upload failed") (err_message e) /\
   fails_500_after (SupabaseEdgeProxy.handleUpload env upload_request w) w call
                   (js "Upload failed") (err_message e)).
Proof.
  intros Hfail. split.
  - intros [Hparse Hvalid] call.
    assert (Hcf : fails_500_after (CfWorkerProxy.handleProxy env proxy_request w) w call
                                  (js "Proxy request failed") (err_message e))
      by (eapply cf_handleProxy_upstream_failed; try eassumption; apply Hfail).
    split; [exact Hcf|].
    eapply fails_500_after_transfer; [apply supabase_handleProxy_same | exact Hcf].
  - intros (Hparse & Hvalid & Hdecode) call.
    assert (Hcf : fails_500_after (CfWorkerProxy.handleUpload env upload_request w) w call
                                  (js "Upload failed") (err_message e))
      by (eapply cf_handleUpload_upstream_failed; try eassumption; apply Hfail).
    split; [exact Hcf|]. split; [exact Hcf|].
    eapply fails_500_after_transfer; [apply supabase_handleUpload_same | exact Hcf].
Qed.

(** X9. When the upstream completes with a status the Response constructor
    accepts with a body (200..599 and not 204, 205 or 304), every handler
    answers with exactly that status, 4xx and 5xx included, and with the JSON
    text of the parsed upstream body, or of { raw_response: text } when the
    text does not parse; it logs nothing. *)
Theorem upstream_status_and_body_relayed {RT : Runtime} (env : Env)
    (proxy_request upload_request : Request) (proxy_data upload_data : JSValue)
    (method url image_data filename token target_url binaryStr : jsstring)
    (s : Z) (text : jsstring) (w : World) :
  constructible_with_body s ->
  (forall call, upstream env call
                = FetchResolves {| status := s; text_outcome := inr text |}) ->
  (is_relay_request proxy_request proxy_data method url ->
   let call := proxy_call proxy_data method url in
   relays (CfWorkerProxy.handleProxy env proxy_request w) w call s (normalized text) /\
   relays (SupabaseEdgeProxy.handleProxy env proxy_request w) w call s (normalized text))
  /\
  (is_upload_request upload_request upload_data image_data filename token target_url
                     binaryStr ->
   let call := upload_call binaryStr filename token target_url in
   relays (CfWorkerProxy.handleUpload env upload_request w) w call s (normalized text) /\
   relays (CfWorkerUpload.handleUpload env upload_request w) w call s (normalized text) /\
   relays (SupabaseEdgeProxy.handleUpload env upload_request w) w call s
          (normalized text)).
Proof.
  intros Hs Hup. split.
  - intros [Hparse Hvalid] call.
    assert (Hcf : relays (CfWorkerProxy.handleProxy env proxy_request w) w call s
                         (normalized text))
      by (eapply cf_handleProxy_relays; try eassumption; apply Hup).
    split; [exact Hcf|].
    eapply relays_transfer; [apply supabase_handleProxy_same | exact Hcf].
  - intros (Hparse & Hvalid & Hdecode) call.
    assert (Hcf : relays (CfWorkerProxy.handleUpload env upload_request w) w call s
                         (normalized text))
      by (eapply cf_handleUpload_relays; try eassumption; apply Hup).
    split; [exact Hcf|]. split; [exact Hcf|].
    eapply relays_transfer; [apply supabase_handleUpload_same | exact Hcf].
Qed.

(** X10. When the upstream completes with a status outside 200..599 (the
    Response constructor's range), every handler answers 500 with its failure
    envelope carrying the constructor's RangeError message, after the one
    call; the upstream's status and body are not passed on. *)
Theorem upstream_status_out_of_range_fails_500 {RT : Runtime} (env : Env)
    (proxy_request upload_request : Request) (proxy_data upload_data : JSValue)
    (method url image_data filename token target_url binaryStr : jsstring)
    (s : Z) (text : jsstring) (w : World) :
  out_of_range s ->
  (forall call, upstream env call
                = FetchResolves {| status := s; text_outcome := inr text |}) ->
  let message := builtin_message ResponseStatusRange in
  (is_relay_request proxy_request proxy_data method url ->
   let call := proxy_call proxy_data method url in
   fails_500_after (CfWorkerProxy.handleProxy env proxy_request w) w call
                   (js "Proxy request failed") message /\
   fails_500_after (SupabaseEdgeProxy.handleProxy env proxy_request w) w call
                   (js "Proxy request failed") message)
  /\
  (is_upload_request upload_request upload_data image_data filename token target_url
                     binaryStr ->
   let call := upload_call binaryStr filename token target_url in
   fails_500_after (CfWorkerProxy.handleUpload env upload_request w) w call
                   (js "Upload failed") message /\
   fails_500_after (CfWorkerUpload.handleUpload env upload_request w) w call
                   (js "Upload failed") message /\
   fails_500_after (SupabaseEdgeProxy.handleUpload env upload_request w) w call
                   (js "Upload failed") message).
Proof.
  intros Hs Hup message. split.
  - intros [Hparse Hvalid] call.
    assert (Hcf : fails_500_after (CfWorkerProxy.handleProxy env proxy_request w) w call
                                  (js "Proxy request failed") message)
      by (eapply cf_handleProxy_status_out_of_range; try eassumption; apply Hup).
    split; [exact Hcf|].
    eapply fails_500_after_transfer; [apply supabase_handleProxy_same | exact Hcf].
  - intros (Hparse & Hvalid & Hdecode) call.
    assert (Hcf : fails_500_after (CfWorkerProxy.handleUpload env upload_request w) w call
                                  (js "Upload failed") message)
      by (eapply cf_handleUpload_status_out_of_range; try eassumption; apply Hup).
    split; [exact Hcf|]. split; [exact Hcf|].
    eapply fails_500_after_transfer; [apply supabase_handleUpload_same | exact Hcf].
Qed.


(** ** Envelopes that are not what the handlers expect *)

Section OddEnvelopes.
Context {RT : Runtime} (env : Env).

Lemma cf_handleProxy_rejects_falsy (request : Request) (data : JSValue) (w : World) :
  JSON_parse (req_body request) = inr data ->
  is_nullish data = false ->
  truthy (get_prop data (js "method")) && truthy (get_prop data (js "url")) = false ->
  rejects_400 (CfWorkerProxy.handleProxy env request w) w
              (js "Missing required fields: method, url").
Proof.
  intros Hparse Hnull Hfalsy.
  assert (Hor : negb (truthy (get_prop data (js "method")))
                || negb (truthy (get_prop data (js "url"))) = true)
    by (rewrite <- negb_andb, Hfalsy; reflexivity).
  unfold CfWorkerProxy.handleProxy, CfWorkerProxy.jsonResponse. unfold_monad.
  rewrite Hparse. cbn.
  destruct data; try discriminate Hnull; cbn; rewrite Hor;
    rewrite (new_Response_body _ _ constructible_400); cbn;
    eexists; repeat split.
Qed.

Lemma cf_handleUpload_rejects_falsy (request : Request) (data : JSValue) (w : World) :
  JSON_parse (req_body request) = inr data ->
  is_nullish data = false ->
  truthy (get_prop data (js "image_data")) && truthy (get_prop data (js "filename"))
  && truthy (get_prop data (js "token")) && truthy (get_prop data (js "target_url"))
  = false ->
  rejects_400 (CfWorkerProxy.handleUpload env request w) w
              (js "Missing required fields: image_data, filename, token, target_url").
Proof.
  intros Hparse Hnull Hfalsy.
  assert (Hor : negb (truthy (get_prop data (js "image_data")))
                || negb (truthy (get_prop data (js "filename")))
                || negb (truthy (get_prop data (js "token")))
                || negb (truthy (get_prop data (js "target_url"))) = true)
    by (rewrite <- !negb_andb, Hfalsy; reflexivity).
  unfold CfWorkerProxy.handleUpload, CfWorkerProxy.jsonResponse. unfold_monad.
  rewrite Hparse. cbn.
  destruct data; try discriminate Hnull; cbn; rewrite Hor;
    rewrite (new_Response_body _ _ constructible_400); cbn;
    eexists; repeat split.
Qed.

Lemma cf_handleProxy_method_not_string (request : Request) (data : JSValue) (w : World) :
  JSON_parse (req_body request) = inr data ->
  truthy (get_prop data (js "method")) = true ->
  is_string (get_prop data (js "method")) = false ->
  truthy (get_prop data (js "url")) = true ->
  fails_500 (CfWorkerProxy.handleProxy env request w) w
            (js "Proxy request failed")
            (builtin_message (NotAFunction (js "toUpperCase"))).
Proof.
  intros Hparse Hm Hs Hu.
  unfold CfWorkerProxy.handleProxy, CfWorkerProxy.jsonResponse. unfold_monad.
  rewrite Hparse. cbn.
  destruct data; try discriminate Hm; cbn.
  rewrite Hm, Hu. cbn.
  destruct (get_prop (JObject props) (js "method")); try discriminate Hs; cbn;
    rewrite (new_Response_body _ _ constructible_500); cbn;
    eexists; repeat split.
Qed.

Lemma cf_handleUpload_filename_not_string (request : Request) (data : JSValue)
    (image_data binaryStr : jsstring) (w : World) :
  JSON_parse (req_body request) = inr data ->
  get_prop data (js "image_data") = JString image_data ->
  image_data <> [] ->
  forgiving_base64_decode image_data = Some binaryStr ->
  truthy (get_prop data (js "filename")) = true ->
  is_string (get_prop data (js "filename")) = false ->
  truthy (get_prop data (js "token")) = true ->
  truthy (get_prop data (js "target_url")) = true ->
  fails_500 (CfWorkerProxy.handleUpload env request w) w
            (js "Upload failed")
            (builtin_message (NotAFunction (js "toLowerCase"))).
Proof.
  intros Hparse Hi Hne Hdecode Hf Hs Ht Hu.
  unfold CfWorkerProxy.handleUpload, CfWorkerProxy.jsonResponse. unfold_monad.
  rewrite Hparse. cbn.
  destruct data; try discriminate Hi; cbn.
  rewrite Hi, Hf, Ht, Hu, (truthy_nonempty_string Hne). cbn.
  rewrite ToString_JString, Hdecode. cbn.
  destruct (get_prop (JObject props) (js "filename")); try discriminate Hs; cbn;
    rewrite (new_Response_body _ _ constructible_500); cbn;
    eexists; repeat split.
Qed.
End OddEnvelopes.

(** X11. Validation is a truthiness test on a value that is not null: when
    the request body parses to anything but null (an object, but also an
    array, a string, a number or a boolean) and a required field is absent,
    null, false, 0 or the empty string, the handler answers 400 with its
    field-listing message and makes no call. *)
Theorem falsy_field_rejected_without_call {RT : Runtime} (env : Env)
    (request : Request) (data : JSValue) (w : World) :
  JSON_parse (req_body request) = inr data ->
  is_nullish data = false ->
  (truthy (get_prop data (js "method")) && truthy (get_prop data (js "url")) = false ->
   let message := js "Missing required fields: method, url" in
   rejects_400 (CfWorkerProxy.handleProxy env request w) w message /\
   rejects_400 (SupabaseEdgeProxy.handleProxy env request w) w message)
  /\
  (truthy (get_prop data (js "image_data")) && truthy (get_prop data (js "filename"))
   && truthy (get_prop data (js "token")) && truthy (get_prop data (js "target_url"))
   = false ->
   let message := js "Missing required fields: image_data, filename, token, target_url" in
   rejects_400 (CfWorkerProxy.handleUpload env request w) w message /\
   rejects_400 (CfWorkerUpload.handleUpload env request w) w message /\
   rejects_400 (SupabaseEdgeProxy.handleUpload env request w) w message).
Proof.
  intros Hparse Hnull. split.
  - intros Hfalsy message.
    assert (Hcf : rejects_400 (CfWorkerProxy.handleProxy env request w) w message)
      by (eapply cf_handleProxy_rejects_falsy; eassumption).
    split; [exact Hcf|].
    eapply rejects_400_transfer; [apply supabase_handleProxy_same | exact Hcf].
  - intros Hfalsy message.
    assert (Hcf : rejects_400 (CfWorkerProxy.handleUpload env request w) w message)
      by (eapply cf_handleUpload_rejects_falsy; eassumption).
    split; [exact Hcf|]. split; [exact Hcf|].
    eapply rejects_400_transfer; [apply supabase_handleUpload_same | exact Hcf].
Qed.

(** X12. Validation does not check types.  A truthy method that is not a
    string (a number, true, an array, an object) passes validation and then
    fails on [toUpperCase]: the generic relay answers 500, not 400, and makes
    no call.  A truthy filename that is not a string fails on [toLowerCase]
    after the image has been decoded: the upload relay answers 500 and makes
    no call. *)
Theorem wrongly_typed_field_fails_500_without_call {RT : Runtime} (env : Env)
    (request : Request) (data : JSValue) (w : World) :
  JSON_parse (req_body request) = inr data ->
  (truthy (get_prop data (js "method")) = true ->
   is_string (get_prop data (js "method")) = false ->
   truthy (get_prop data (js "url")) = true ->
   let message := builtin_message (NotAFunction (js "toUpperCase")) in
   fails_500 (CfWorkerProxy.handleProxy env request w) w
             (js "Proxy request failed") message /\
   fails_500 (SupabaseEdgeProxy.handleProxy env request w) w
             (js "Proxy request failed") message)
  /\
  (forall image_data binaryStr,
     get_prop data (js "image_data") = JString image_data ->
     image_data <> [] ->
     forgiving_base64_decode image_data = Some binaryStr ->
     truthy (get_prop data (js "filename")) = true ->
     is_string (get_prop data (js "filename")) = false ->
     truthy (get_prop data (js "token")) = true ->
     truthy (get_prop data (js "target_url")) = true ->
     let message := builtin_message (NotAFunction (js "toLowerCase")) in
     fails_500 (CfWorkerProxy.handleUpload env request w) w (js "Upload failed") message /\
     fails_500 (CfWorkerUpload.handleUpload env request w) w (js "Upload failed") message /\
     fails_500 (SupabaseEdgeProxy.handleUpload env request w) w (js "Upload failed")
               message).
Proof.
  intros Hparse. split.
  - intros Hm Hs Hu message.
    assert (Hcf : fails_500 (CfWorkerProxy.handleProxy env request w) w
                            (js "Proxy request failed") message)
      by (eapply cf_handleProxy_method_not_string; eassumption).
    split; [exact Hcf|].
    eapply fails_500_transfer; [apply supabase_handleProxy_same | exact Hcf].
  - intros image_data binaryStr Hi Hne Hdecode Hf Hs Ht Hu message.
    assert (Hcf : fails_500 (CfWorkerProxy.handleUpload env request w) w
                            (js "Upload failed") message)
      by (eapply cf_handleUpload_filename_not_string; eassumption).
    split; [exact Hcf|]. split; [exact Hcf|].
    eapply fails_500_transfer; [apply supabase_handleUpload_same | exact Hcf].
Qed.

(** ** Base64: what is encoded is read back *)

Lemma land_shiftl_small (a b n : N) :
  (b < 2 ^ n)%N -> N.land (N.shiftl a n) b = 0%N.
Proof.
  intros Hb. apply N.bits_inj_0. intros m.
  rewrite N.land_spec.
  destruct (N.lt_ge_cases m n) as [Hm | Hm].
  - rewrite N.shiftl_spec_low by assumption. reflexivity.
  - replace (N.testbit b m) with false; [apply andb_false_r|].
    symmetry. rewrite <- (N.mod_small b (2 ^ n)) by assumption.
    apply N.mod_pow2_bits_high. assumption.
Qed.

Lemma lor_shiftl_add (a b n : N) :
  (b < 2 ^ n)%N -> N.lor (N.shiftl a n) b = (a * 2 ^ n + b)%N.
Proof.
  intros Hb.
  rewrite <- N.lxor_lor by (apply land_shiftl_small; assumption).
  rewrite <- N.add_nocarry_lxor by (apply land_shiftl_small; assumption).
  rewrite N.shiftl_mul_pow2. reflexivity.
Qed.

Lemma land_255 (a : N) : N.land a 255 = (a mod 256)%N.
Proof. change 255%N with (N.ones 8). rewrite N.land_ones. reflexivity. Qed.

Ltac euclid := zify; Z.to_euclidean_division_equations; lia.

Lemma buffer_of_four (a b c d : N) :
  (b < 64)%N -> (c < 64)%N -> (d < 64)%N ->
  N.lor (N.lor (N.shiftl a 18) (N.shiftl b 12)) (N.lor (N.shiftl c 6) d)
  = (a * 262144 + b * 4096 + c * 64 + d)%N.
Proof.
  intros Hb Hc Hd.
  rewrite (@lor_shiftl_add c d 6) by (change (2 ^ 6)%N with 64%N; assumption).
  replace (N.shiftl a 18) with (N.shiftl (N.shiftl a 6) 12)
    by (rewrite N.shiftl_shiftl; reflexivity).
  rewrite <- N.shiftl_lor.
  rewrite (@lor_shiftl_add a b 6) by (change (2 ^ 6)%N with 64%N; assumption).
  rewrite lor_shiftl_add by (change (2 ^ 12)%N with 4096%N; change (2 ^ 6)%N with 64%N; lia).
  change (2 ^ 6)%N with 64%N. change (2 ^ 12)%N with 4096%N. lia.
Qed.

Lemma buffer_of_three (a b c : N) :
  (b < 64)%N -> (c < 64)%N ->
  N.lor (N.lor (N.shiftl a 12) (N.shiftl b 6)) c = (a * 4096 + b * 64 + c)%N.
Proof.
  intros Hb Hc.
  replace (N.shiftl a 12) with (N.shiftl (N.shiftl a 6) 6)
    by (rewrite N.shiftl_shiftl; reflexivity).
  rewrite <- N.shiftl_lor.
  rewrite (@lor_shiftl_add a b 6) by (change (2 ^ 6)%N with 64%N; assumption).
  rewrite lor_shiftl_add by (change (2 ^ 6)%N with 64%N; assumption).
  change (2 ^ 6)%N with 64%N. lia.
Qed.

Lemma decode_encode_sextets (bytes : list N) :
  Forall (fun b => (b < 256)%N) bytes ->
  decode_sextets (encode_sextets bytes) = bytes.
Proof.
  revert bytes.
  assert (H3 : forall n (bytes : list N), (length bytes < n)%nat ->
             Forall (fun b => (b < 256)%N) bytes ->
             decode_sextets (encode_sextets bytes) = bytes).
  { induction n as [|n IH]; intros bytes Hn Hall; [lia|].
    destruct bytes as [|a [|b [|c rest]]].
    - reflexivity.
    - apply Forall_cons_iff in Hall as [Ha _].
      cbn [encode_sextets decode_sextets].
      rewrite lor_shiftl_add by (change (2 ^ 6)%N with 64%N; euclid).
      rewrite N.shiftr_div_pow2. change (2 ^ 6)%N with 64%N. change (2 ^ 4)%N with 16%N.
      f_equal. euclid.
    - apply Forall_cons_iff in Hall as [Ha Hall].
      apply Forall_cons_iff in Hall as [Hb _].
      cbn [encode_sextets decode_sextets].
      rewrite buffer_of_three by euclid.
      rewrite !N.shiftr_div_pow2, land_255.
      change (2 ^ 2)%N with 4%N. change (2 ^ 8)%N with 256%N.
      f_equal; [|f_equal]; euclid.
    - apply Forall_cons_iff in Hall as [Ha Hall].
      apply Forall_cons_iff in Hall as [Hb Hall].
      apply Forall_cons_iff in Hall as [Hc Hall].
      cbn [encode_sextets decode_sextets].
      rewrite buffer_of_four by euclid.
      rewrite !N.shiftr_div_pow2, !land_255.
      change (2 ^ 16)%N with 65536%N. change (2 ^ 8)%N with 256%N.
      rewrite IH by (cbn in Hn; try lia; assumption).
      f_equal; [|f_equal; [|f_equal]]; euclid. }
  intros bytes. apply (H3 (S (length bytes))). lia.
Qed.


Ltac alphabet :=
  repeat match goal with
         | |- context [(?a <? ?b)%N] => destruct (N.ltb_spec a b)
         | |- context [(?a <=? ?b)%N] => destruct (N.leb_spec a b)
         | |- context [N.eqb ?a ?b] => destruct (N.eqb_spec a b)
         end;
  cbn; try reflexivity; try lia; try (f_equal; lia).

Lemma base64_index_char (i : N) : (i < 64)%N -> base64_index (base64_char i) = Some i.
Proof. intros Hi. unfold base64_index, base64_char. alphabet. Qed.

Lemma base64_char_range (i : N) :
  (65 <= base64_char i <= 90 \/ 97 <= base64_char i <= 122 \/ 48 <= base64_char i <= 57
   \/ base64_char i = 43 \/ base64_char i = 47)%N.
Proof. unfold base64_char. alphabet. Qed.

Lemma base64_char_kept (i : N) : is_ascii_whitespace (base64_char i) = false.
Proof.
  pose proof (base64_char_range i) as H. unfold is_ascii_whitespace.
  generalize dependent (base64_char i). intros c H. alphabet.
Qed.

Lemma base64_char_not_padding (i : N) : N.eqb (base64_char i) 61 = false.
Proof.
  pose proof (base64_char_range i) as H.
  generalize dependent (base64_char i). intros c H. alphabet.
Qed.

Lemma encode_sextets_small (bytes : list N) :
  Forall (fun b => (b < 256)%N) bytes ->
  Forall (fun i => (i < 64)%N) (encode_sextets bytes).
Proof.
  revert bytes.
  assert (H3 : forall n (bytes : list N), (length bytes < n)%nat ->
             Forall (fun b => (b < 256)%N) bytes ->
             Forall (fun i => (i < 64)%N) (encode_sextets bytes)).
  { induction n as [|n IH]; intros bytes Hn Hall; [lia|].
    destruct bytes as [|a [|b [|c rest]]]; cbn [encode_sextets].
    - constructor.
    - apply Forall_cons_iff in Hall as [Ha _].
      repeat apply Forall_cons; try apply Forall_nil; euclid.
    - apply Forall_cons_iff in Hall as [Ha Hall].
      apply Forall_cons_iff in Hall as [Hb _].
      repeat apply Forall_cons; try apply Forall_nil; euclid.
    - apply Forall_cons_iff in Hall as [Ha Hall].
      apply Forall_cons_iff in Hall as [Hb Hall].
      apply Forall_cons_iff in Hall as [Hc Hall].
      apply Forall_cons; [euclid|]. apply Forall_cons; [euclid|].
      apply Forall_cons; [euclid|]. apply Forall_cons; [euclid|].
      apply IH; [cbn in Hn; lia | assumption]. }
  intros bytes. apply (H3 (S (length bytes))). lia.
Qed.

(** Length of the sextets and of the padding, by the rest of the byte count
    modulo three. *)
Lemma encode_lengths (bytes : list N) :
  exists k : nat,
    (length bytes = 3 * k /\ length (encode_sextets bytes) = 4 * k
     /\ encode_padding bytes = [])%nat
    \/ (length bytes = 3 * k + 1 /\ length (encode_sextets bytes) = 4 * k + 2
        /\ encode_padding bytes = [61; 61]%N)%nat
    \/ (length bytes = 3 * k + 2 /\ length (encode_sextets bytes) = 4 * k + 3
        /\ encode_padding bytes = [61%N])%nat.
Proof.
  assert (Hpad : forall (a b c : N) rest,
             encode_padding (a :: b :: c :: rest) = encode_padding rest).
  { intros a b c rest. unfold encode_padding.
    replace (length (a :: b :: c :: rest)) with (1 * 3 + length rest)%nat by (cbn; lia).
    rewrite Nat.Div0.add_mod, Nat.Div0.mod_mul, Nat.add_0_l, Nat.Div0.mod_mod.
    reflexivity. }
  revert bytes.
  assert (H3 : forall n (bytes : list N), (length bytes < n)%nat ->
    exists k : nat,
    (length bytes = 3 * k /\ length (encode_sextets bytes) = 4 * k
     /\ encode_padding bytes = [])%nat
    \/ (length bytes = 3 * k + 1 /\ length (encode_sextets bytes) = 4 * k + 2
        /\ encode_padding bytes = [61; 61]%N)%nat
    \/ (length bytes = 3 * k + 2 /\ length (encode_sextets bytes) = 4 * k + 3
        /\ encode_padding bytes = [61%N])%nat).
  { induction n as [|n IH]; intros bytes Hn; [lia|].
    destruct bytes as [|a [|b [|c rest]]].
    - exists 0%nat. left. repeat split.
    - exists 0%nat. right. left. repeat split.
    - exists 0%nat. right. right. repeat split.
    - destruct (IH rest) as [k Hk]; [cbn in Hn; lia|].
      exists (S k). rewrite Hpad. cbn [encode_sextets length].
      destruct Hk as [(H1 & H2 & H3) | [(H1 & H2 & H3) | (H1 & H2 & H3)]];
        rewrite H1, H2, H3; [left | right; left | right; right];
        repeat split; lia. }
  intros bytes. apply (H3 (S (length bytes))). lia.
Qed.

Lemma base64_indices_chars (sextets : list N) :
  Forall (fun i => (i < 64)%N) sextets ->
  base64_indices (map base64_char sextets) = Some sextets.
Proof.
  induction 1 as [|i l Hi Hl IH]; cbn [map base64_indices]; [reflexivity|].
  rewrite base64_index_char, IH by assumption. reflexivity.
Qed.

Lemma filter_kept (chars : list N) :
  filter (fun c => negb (is_ascii_whitespace c)) (map base64_char chars) = map base64_char chars.
Proof.
  induction chars as [|i l IH]; cbn [map filter]; [reflexivity|].
  rewrite base64_char_kept, IH. reflexivity.
Qed.

Lemma mod4_of (k r : nat) : (r < 4)%nat -> ((4 * k + r) mod 4 = r)%nat.
Proof.
  intros Hr. rewrite Nat.add_comm, Nat.mul_comm, Nat.Div0.mod_add.
  apply Nat.mod_small. assumption.
Qed.

(** The padding that [base64_encode] adds is the padding that
    [remove_padding] drops. *)
Lemma remove_padding_encoded (bytes : list N) :
  remove_padding (base64_encode bytes) = map base64_char (encode_sextets bytes).
Proof.
  unfold base64_encode, remove_padding.
  destruct (encode_lengths bytes) as [k [(_ & Hl & Hp) | [(_ & Hl & Hp) | (_ & Hl & Hp)]]];
    rewrite Hp, length_app, length_map, Hl.
  - rewrite app_nil_r. cbn [length].
    rewrite (@mod4_of k 0) by lia. cbn [Nat.eqb].
    destruct (rev (map base64_char (encode_sextets bytes))) as [|last [|before r]] eqn:E;
      try reflexivity.
    + assert (Hin : In last (map base64_char (encode_sextets bytes)))
        by (apply in_rev; rewrite E; left; reflexivity).
      apply in_map_iff in Hin as (i & <- & _).
      rewrite base64_char_not_padding. reflexivity.
    + assert (Hin : In last (map base64_char (encode_sextets bytes)))
        by (apply in_rev; rewrite E; left; reflexivity).
      apply in_map_iff in Hin as (i & <- & _).
      rewrite base64_char_not_padding. reflexivity.
  - replace (4 * k + 2 + length [61%N; 61%N])%nat with (4 * (S k) + 0)%nat by (cbn; lia).
    rewrite mod4_of by lia. cbn [Nat.eqb].
    rewrite rev_app_distr. cbn [rev app].
    change (N.eqb 61 61) with true. cbv iota. apply rev_involutive.
  - replace (4 * k + 3 + length [61%N])%nat with (4 * (S k) + 0)%nat by (cbn; lia).
    rewrite mod4_of by lia. cbn [Nat.eqb].
    rewrite rev_app_distr. cbn [rev app].
    destruct (rev (map base64_char (encode_sextets bytes))) as [|before r] eqn:E.
    + apply (f_equal (@length N)) in E. rewrite length_rev, length_map, Hl in E.
      cbn in E. lia.
    + assert (Hin : In before (map base64_char (encode_sextets bytes)))
        by (apply in_rev; rewrite E; left; reflexivity).
      apply in_map_iff in Hin as (i & <- & _).
      change (N.eqb 61 61) with true. cbv iota.
      rewrite base64_char_not_padding.
      change (rev r ++ [base64_char i]) with (rev (base64_char i :: r)).
      rewrite <- E. apply rev_involutive.
Qed.

(** [atob] reads back what [base64_encode] wrote. *)
Lemma forgiving_base64_decode_encode (bytes : list N) :
  Forall (fun b => (b < 256)%N) bytes ->
  forgiving_base64_decode (base64_encode bytes) = Some bytes.
Proof.
  intros Hall. unfold forgiving_base64_decode.
  assert (Hfilter : filter (fun c => negb (is_ascii_whitespace c)) (base64_encode bytes)
                    = base64_encode bytes).
  { unfold base64_encode. rewrite filter_app, filter_kept. f_equal.
    unfold encode_padding. repeat break_match; reflexivity. }
  rewrite Hfilter, remove_padding_encoded, length_map.
  rewrite base64_indices_chars by (apply encode_sextets_small; assumption).
  rewrite decode_encode_sextets by assumption.
  destruct (encode_lengths bytes) as [k [(_ & Hl & _) | [(_ & Hl & _) | (_ & Hl & _)]]];
    rewrite Hl.
  - rewrite <- (Nat.add_0_r (4 * k)), mod4_of by lia. reflexivity.
  - rewrite mod4_of by lia. reflexivity.
  - rewrite mod4_of by lia. reflexivity.
Qed.


(** ** Objects *)

Lemma assoc_set_cons (k k' : jsstring) (v v' : JSValue) (rest : list (jsstring * JSValue)) :
  assoc_set k v ((k', v') :: rest)
  = if jsstring_eqb k k' then (k', v) :: rest else (k', v') :: assoc_set k v rest.
Proof. reflexivity. Qed.

Lemma assoc_get_set_other (k k' : jsstring) (v : JSValue) (props : list (jsstring * JSValue)) :
  k <> k' -> assoc_get k (assoc_set k' v props) = assoc_get k props.
Proof.
  intros Hk. induction props as [|[k0 v0] rest IH].
  - change (assoc_set k' v []) with [(k', v)]. cbn [assoc_get].
    rewrite (jsstring_eqb_neq Hk). reflexivity.
  - rewrite assoc_set_cons. destruct (jsstring_eqb k' k0) eqn:E; cbn [assoc_get].
    + apply jsstring_eqb_eq in E. subst k0.
      rewrite (jsstring_eqb_neq Hk). reflexivity.
    + rewrite IH. reflexivity.
Qed.

Section NullBody.
Context {RT : Runtime} (env : Env).

Lemma cf_handleUpload_body_null (request : Request) (w : World) :
  JSON_parse (req_body request) = inr JNull ->
  fails_500 (CfWorkerProxy.handleUpload env request w) w
            (js "Upload failed") (builtin_message DestructureNullish).
Proof.
  intros Hparse.
  unfold CfWorkerProxy.handleUpload, CfWorkerProxy.jsonResponse. unfold_monad.
  rewrite Hparse. cbn.
  rewrite (new_Response_body _ _ constructible_500). cbn.
  eexists. repeat split.
Qed.
End NullBody.

(** X13. A request whose body is the JSON text [null] is not answered 400:
    destructuring [null] throws, and every handler answers 500 with its
    failure envelope carrying the TypeError's message, without a call. *)
Theorem null_envelope_fails_500_not_400 {RT : Runtime} (env : Env) (request : Request)
    (w : World) :
  JSON_parse (req_body request) = inr JNull ->
  let message := builtin_message DestructureNullish in
  fails_500 (CfWorkerProxy.handleProxy env request w) w (js "Proxy request failed") message /\
  fails_500 (SupabaseEdgeProxy.handleProxy env request w) w (js "Proxy request failed")
            message /\
  fails_500 (CfWorkerProxy.handleUpload env request w) w (js "Upload failed") message /\
  fails_500 (CfWorkerUpload.handleUpload env request w) w (js "Upload failed") message /\
  fails_500 (SupabaseEdgeProxy.handleUpload env request w) w (js "Upload failed") message.
Proof.
  intros Hparse message.
  pose proof (cf_handleProxy_body_null env request w Hparse) as Hp.
  pose proof (cf_handleUpload_body_null env request w Hparse) as Hu.
  split; [exact Hp|].
  split; [eapply fails_500_transfer; [apply supabase_handleProxy_same | exact Hp]|].
  split; [exact Hu|]. split; [exact Hu|].
  eapply fails_500_transfer; [apply supabase_handleUpload_same | exact Hu].
Qed.

(** X14. A POST reaches the handler of its route.  The Cloudflare files
    match the path exactly; the Supabase file matches by suffix, so a POST to
    a longer path that ends in /proxy or /upload reaches the handler there
    and is answered 404 by cf-worker-proxy.js. *)
Theorem post_reaches_the_handler_of_its_route {RT : Runtime} (env : Env)
    (request : Request) (w : World) :
  req_method request = js "POST" ->
  (req_pathname request = js "/proxy" ->
   CfWorkerProxy.fetch env request w = CfWorkerProxy.handleProxy env request w)
  /\
  (req_pathname request = js "/upload" ->
   CfWorkerProxy.fetch env request w = CfWorkerProxy.handleUpload env request w /\
   CfWorkerUpload.fetch env request w = CfWorkerUpload.handleUpload env request w)
  /\
  (endsWith (req_pathname request) (js "/proxy") = true ->
   SupabaseEdgeProxy.serve_handler env request w
   = SupabaseEdgeProxy.handleProxy env request w)
  /\
  (endsWith (req_pathname request) (js "/upload") = true ->
   SupabaseEdgeProxy.serve_handler env request w
   = SupabaseEdgeProxy.handleUpload env request w)
  /\
  ((endsWith (req_pathname request) (js "/proxy") = true
    \/ endsWith (req_pathname request) (js "/upload") = true) ->
   req_pathname request <> js "/proxy" ->
   req_pathname request <> js "/upload" ->
   CfWorkerProxy.fetch env request w = (inr (cloudflare_plain 404 not_found_body), w)).
Proof.
  intros Hm.
  unfold CfWorkerProxy.fetch, CfWorkerUpload.fetch, SupabaseEdgeProxy.serve_handler.
  rewrite Hm.
  replace (jsstring_eqb (js "POST") (js "OPTIONS")) with false by reflexivity.
  rewrite (jsstring_eqb_refl (js "POST")), !andb_true_r.
  repeat match goal with |- _ /\ _ => split end.
  - intros ->. reflexivity.
  - intros ->. split; reflexivity.
  - intros ->. reflexivity.
  - intros Hu. rewrite (endsWith_upload_not_proxy _ Hu), Hu. reflexivity.
  - intros Hsuffix Hp Hu.
    rewrite (jsstring_eqb_neq Hp), (jsstring_eqb_neq Hu).
    assert (Hh : jsstring_eqb (req_pathname request) (js "/health") = false).
    { destruct (jsstring_eqb (req_pathname request) (js "/health")) eqn:E; [|reflexivity].
      apply jsstring_eqb_eq in E. rewrite E in Hsuffix.
      destruct Hsuffix as [H | H]; vm_compute in H; discriminate. }
    rewrite Hh. cbn. reflexivity.
Qed.

(** X15. The generic relay passes the caller's headers on as they are: in
    the one call it makes, to the caller's url, every header other than
    Content-Type has the value the caller gave it, no header other than
    Content-Type is added, and a Content-Type the caller set (to a truthy
    value) is never replaced. *)
Theorem caller_headers_forwarded_unchanged {RT : Runtime} (env : Env) (request : Request)
    (data : JSValue) (method url : jsstring) (w : World) :
  is_relay_request request data method url ->
  exists call sent,
    calls (world_of (CfWorkerProxy.handleProxy env request w)) = calls w ++ [call] /\
    calls (world_of (SupabaseEdgeProxy.handleProxy env request w)) = calls w ++ [call] /\
    call_url call = JString url /\
    init_headers (call_init call) = JObject sent /\
    (forall name, name <> js "Content-Type" ->
                  assoc_get name sent = assoc_get name (caller_headers data)) /\
    (truthy (get_prop (JObject (caller_headers data)) (js "Content-Type")) = true ->
     sent = caller_headers data).
Proof.
  intros [Hparse Hvalid].
  pose proof (cf_handleProxy_calls env request w Hparse Hvalid) as Hcalls.
  exists (proxy_call data method url).
  exists (if content_type_injected data method
          then assoc_set (js "Content-Type") (JString (js "application/json"))
                         (caller_headers data)
          else caller_headers data).
  split; [exact Hcalls|].
  split; [rewrite (calls_transfer (supabase_handleProxy_same env request w)); exact Hcalls|].
  split; [reflexivity|]. split; [reflexivity|]. split.
  - intros name Hname. destruct (content_type_injected data method); [|reflexivity].
    apply assoc_get_set_other. assumption.
  - intros Hset. unfold content_type_injected. rewrite Hset, andb_false_r. reflexivity.
Qed.

(** X16. An image reaches the upstream byte for byte: [atob] reads back
    what the base64 encoding (RFC 4648, with padding) wrote, so for an
    UploadRequest whose image_data is the encoding of [bytes] the file part
    of the one call holds exactly [bytes], in all three files. *)
Theorem encoded_image_uploaded_byte_for_byte {RT : Runtime} (env : Env)
    (request : Request) (data : JSValue) (bytes : list N)
    (filename token target_url : jsstring) (w : World) :
  Forall (fun b => (b < 256)%N) bytes ->
  JSON_parse (req_body request) = inr data ->
  valid_UploadRequest data (base64_encode bytes) filename token target_url ->
  forgiving_base64_decode (base64_encode bytes) = Some bytes /\
  let call := upload_call bytes filename token target_url in
  calls (world_of (CfWorkerProxy.handleUpload env request w)) = calls w ++ [call] /\
  calls (world_of (CfWorkerUpload.handleUpload env request w)) = calls w ++ [call] /\
  calls (world_of (SupabaseEdgeProxy.handleUpload env request w)) = calls w ++ [call].
Proof.
  intros Hbytes Hparse Hvalid.
  pose proof (forgiving_base64_decode_encode Hbytes) as Hdecode.
  split; [exact Hdecode|]. intros call.
  pose proof (cf_handleUpload_calls env request w Hparse Hvalid Hdecode) as Hcalls.
  split; [exact Hcalls|]. split; [exact Hcalls|].
  rewrite (calls_transfer (supabase_handleUpload_same env request w)). exact Hcalls.
Qed.


(** * Closed examples for the further properties *)

Section FurtherClosedExamples.
#[local] Existing Instance ReferenceRuntime.runtime.
Import ReferenceRuntime Examples.

(** POST /health is a health check like any other. *)
Lemma health_answers_any_method_witness :
  let env := answering 200 [] in
  let request := post "/health" [] in
  CfWorkerProxy.fetch env request fresh
  = (inr (cloudflare_plain 200 (health_body env)), fresh) /\
  CfWorkerUpload.fetch env request fresh
  = (inr (cloudflare_plain 200 (health_body env)), fresh) /\
  SupabaseEdgeProxy.serve_handler env request fresh
  = (inr (supabase_json 200 (health_body env)), fresh).
Proof.
  pose proof (@health_answers_any_method runtime (answering 200 []) (post "/health" [])
                fresh eq_refl) as H.
  exact (conj (proj1 (proj1 H eq_refl))
              (conj (proj2 (proj1 H eq_refl)) (proj2 H eq_refl))).
Defined.

(** GET /proxy: 404, not 405.  GET /x/health and POST /api/upload: routes
    of the Supabase file, 404 on the Cloudflare ones. *)
Lemma unrouted_request_not_found_witness :
  let env := answering 200 [] in
  (CfWorkerProxy.fetch env (get "/proxy") fresh
   = (inr (cloudflare_plain 404 not_found_body), fresh) /\
   CfWorkerUpload.fetch env (get "/proxy") fresh
   = (inr (cloudflare_plain 404 not_found_body), fresh) /\
   SupabaseEdgeProxy.serve_handler env (get "/proxy") fresh
   = (inr (supabase_json 404 not_found_body), fresh)) /\
  (CfWorkerProxy.fetch env (get "/x/health") fresh
   = (inr (cloudflare_plain 404 not_found_body), fresh) /\
   CfWorkerUpload.fetch env (get "/x/health") fresh
   = (inr (cloudflare_plain 404 not_found_body), fresh)) /\
  (CfWorkerProxy.fetch env (post "/api/upload" upload_envelope) fresh
   = (inr (cloudflare_plain 404 not_found_body), fresh) /\
   CfWorkerUpload.fetch env (post "/api/upload" upload_envelope) fresh
   = (inr (cloudflare_plain 404 not_found_body), fresh)) /\
  CfWorkerUpload.fetch env (post "/proxy" echo_envelope) fresh
  = (inr (cloudflare_plain 404 not_found_body), fresh).
Proof.
  pose proof (@unrouted_request_not_found runtime (answering 200 []) (get "/proxy")
                fresh eq_refl) as Hget.
  pose proof (@unrouted_request_not_found runtime (answering 200 []) (get "/x/health")
                fresh eq_refl) as Hhealth.
  pose proof (@unrouted_request_not_found runtime (answering 200 [])
                (post "/api/upload" upload_envelope) fresh eq_refl) as Hlong.
  pose proof (@unrouted_request_not_found runtime (answering 200 [])
                (post "/proxy" echo_envelope) fresh eq_refl) as Hproxy.
  assert (Hn1 : req_pathname (get "/proxy") <> js "/health") by discriminate.
  assert (Hn2 : req_pathname (get "/x/health") <> js "/health") by discriminate.
  assert (Hn3 : req_pathname (post "/api/upload" upload_envelope) <> js "/health")
    by discriminate.
  assert (Hn4 : req_pathname (post "/api/upload" upload_envelope) <> js "/proxy")
    by discriminate.
  assert (Hn5 : req_pathname (post "/api/upload" upload_envelope) <> js "/upload")
    by discriminate.
  assert (Hn6 : req_pathname (post "/proxy" echo_envelope) <> js "/health")
    by discriminate.
  assert (Hn7 : req_pathname (post "/proxy" echo_envelope) <> js "/upload")
    by discriminate.
  exact (conj (conj (proj1 Hget Hn1 (or_introl eq_refl))
                (conj (proj1 (proj2 Hget) Hn1 (or_introl eq_refl))
                      (proj2 (proj2 Hget) eq_refl (or_introl eq_refl))))
          (conj (conj (proj1 Hhealth Hn2 (or_introl eq_refl))
                      (proj1 (proj2 Hhealth) Hn2 (or_introl eq_refl)))
            (conj (conj (proj1 Hlong Hn3 (or_intror (conj Hn4 Hn5)))
                        (proj1 (proj2 Hlong) Hn3 (or_intror Hn5)))
                  (proj1 (proj2 Hproxy) Hn6 (or_intror Hn7))))).
Defined.

Lemma upstream_failure_reported_as_500_witness :
  let env := unreachable connection_refused in
  let message := js "error sending request: connection refused" in
  fails_500_after (CfWorkerProxy.handleProxy env (post "/proxy" echo_envelope) fresh) fresh
                  (proxy_call echo_data (js "POST") (js "https://example.test/echo"))
                  (js "Proxy request failed") message /\
  fails_500_after (SupabaseEdgeProxy.handleUpload env (post "/upload" upload_envelope) fresh)
                  fresh
                  (upload_call png_signature (js "x.png") (js "t0k3n")
                               (js "https://example.test/uploads"))
                  (js "Upload failed") message.
Proof.
  pose proof (@upstream_failure_reported_as_500 runtime (unreachable connection_refused)
                (post "/proxy" echo_envelope) (post "/upload" upload_envelope)
                echo_data upload_data (js "POST") (js "https://example.test/echo")
                (js "iVBORw0KGgo=") (js "x.png") (js "t0k3n")
                (js "https://example.test/uploads") png_signature
                connection_refused fresh (fun _ => or_introl eq_refl)) as H.
  exact (conj (proj1 (proj1 H (conj echo_envelope_parsed echo_data_valid)))
              (proj2 (proj2 (proj2 H (conj upload_envelope_parsed
                                            (conj upload_data_valid png_signature_decoded)))))).
Defined.

(** An upstream 404 reaches the caller as a 404 with the upstream's body. *)
Lemma upstream_status_and_body_relayed_witness :
  let env := answering 404 not_found_text in
  relays (CfWorkerProxy.handleProxy env (post "/proxy" echo_envelope) fresh) fresh
         (proxy_call echo_data (js "POST") (js "https://example.test/echo"))
         404 (normalized not_found_text) /\
  relays (CfWorkerUpload.handleUpload env (post "/upload" upload_envelope) fresh) fresh
         (upload_call png_signature (js "x.png") (js "t0k3n")
                      (js "https://example.test/uploads"))
         404 (normalized not_found_text).
Proof.
  assert (Hs : constructible_with_body 404) by (split; [lia | reflexivity]).
  pose proof (@upstream_status_and_body_relayed runtime (answering 404 not_found_text)
                (post "/proxy" echo_envelope) (post "/upload" upload_envelope)
                echo_data upload_data (js "POST") (js "https://example.test/echo")
                (js "iVBORw0KGgo=") (js "x.png") (js "t0k3n")
                (js "https://example.test/uploads") png_signature
                404 not_found_text fresh Hs (fun _ => eq_refl)) as H.
  exact (conj (proj1 (proj1 H (conj echo_envelope_parsed echo_data_valid)))
              (proj1 (proj2 (proj2 H (conj upload_envelope_parsed
                                            (conj upload_data_valid png_signature_decoded)))))).
Defined.

(** Status 999 is outside the range of the Response constructor. *)
Lemma upstream_status_out_of_range_fails_500_witness :
  let env := answering 999 not_found_text in
  let message := builtin_message ResponseStatusRange in
  fails_500_after (CfWorkerProxy.handleProxy env (post "/proxy" echo_envelope) fresh) fresh
                  (proxy_call echo_data (js "POST") (js "https://example.test/echo"))
                  (js "Proxy request failed") message /\
  fails_500_after (CfWorkerProxy.handleUpload env (post "/upload" upload_envelope) fresh)
                  fresh
                  (upload_call png_signature (js "x.png") (js "t0k3n")
                               (js "https://example.test/uploads"))
                  (js "Upload failed") message.
Proof.
  assert (Hs : out_of_range 999) by (unfold out_of_range; cbn; lia).
  pose proof (@upstream_status_out_of_range_fails_500 runtime (answering 999 not_found_text)
                (post "/proxy" echo_envelope) (post "/upload" upload_envelope)
                echo_data upload_data (js "POST") (js "https://example.test/echo")
                (js "iVBORw0KGgo=") (js "x.png") (js "t0k3n")
                (js "https://example.test/uploads") png_signature
                999 not_found_text fresh Hs (fun _ => eq_refl)) as H.
  exact (conj (proj1 (proj1 H (conj echo_envelope_parsed echo_data_valid)))
              (proj1 (proj2 H (conj upload_envelope_parsed
                                    (conj upload_data_valid png_signature_decoded))))).
Defined.

(** method: 0 is a missing method. *)
Lemma falsy_field_rejected_without_call_witness :
  let env := answering 200 [] in
  let request := post "/proxy" zero_method_envelope in
  rejects_400 (CfWorkerProxy.handleProxy env request fresh) fresh
              (js "Missing required fields: method, url") /\
  rejects_400 (SupabaseEdgeProxy.handleUpload env request fresh) fresh
              (js "Missing required fields: image_data, filename, token, target_url").
Proof.
  assert (Hparse : JSON_parse (req_body (post "/proxy" zero_method_envelope))
                   = inr zero_method_data) by (vm_compute; reflexivity).
  pose proof (@falsy_field_rejected_without_call runtime (answering 200 [])
                (post "/proxy" zero_method_envelope) zero_method_data fresh
                Hparse eq_refl) as H.
  exact (conj (proj1 (proj1 H eq_refl)) (proj2 (proj2 (proj2 H eq_refl)))).
Defined.

(** method: 1 and filename: 1 pass validation and fail later. *)
Lemma wrongly_typed_field_fails_500_without_call_witness :
  let env := answering 200 [] in
  let request := post "/proxy" mistyped_envelope in
  fails_500 (CfWorkerProxy.handleProxy env request fresh) fresh
            (js "Proxy request failed") (builtin_message (NotAFunction (js "toUpperCase"))) /\
  fails_500 (CfWorkerUpload.handleUpload env request fresh) fresh
            (js "Upload failed") (builtin_message (NotAFunction (js "toLowerCase"))).
Proof.
  assert (Hparse : JSON_parse (req_body (post "/proxy" mistyped_envelope))
                   = inr mistyped_data) by (vm_compute; reflexivity).
  assert (Hne : js "iVBORw0KGgo=" <> []) by discriminate.
  pose proof (@wrongly_typed_field_fails_500_without_call runtime (answering 200 [])
                (post "/proxy" mistyped_envelope) mistyped_data fresh Hparse) as H.
  exact (conj (proj1 (proj1 H eq_refl eq_refl eq_refl))
              (proj1 (proj2 (proj2 H (js "iVBORw0KGgo=") png_signature
                                     eq_refl Hne png_signature_decoded
                                     eq_refl eq_refl eq_refl eq_refl)))).
Defined.

Lemma null_envelope_fails_500_not_400_witness :
  let env := answering 200 [] in
  let request := post "/proxy" (js "null") in
  let message := builtin_message DestructureNullish in
  fails_500 (CfWorkerProxy.handleProxy env request fresh) fresh
            (js "Proxy request failed") message /\
  fails_500 (SupabaseEdgeProxy.handleUpload env request fresh) fresh
            (js "Upload failed") message.
Proof.
  assert (Hparse : JSON_parse (req_body (post "/proxy" (js "null"))) = inr JNull)
    by (vm_compute; reflexivity).
  pose proof (@null_envelope_fails_500_not_400 runtime (answering 200 [])
                (post "/proxy" (js "null")) fresh Hparse) as H.
  exact (conj (proj1 H) (proj2 (proj2 (proj2 (proj2 H))))).
Defined.

(** The path of a deployed Supabase function ends in the route. *)
Lemma post_reaches_the_handler_of_its_route_witness :
  let env := answering 200 [] in
  let direct := post "/proxy" echo_envelope in
  let deployed := post "/functions/v1/sora-proxy/upload" upload_envelope in
  CfWorkerProxy.fetch env direct fresh = CfWorkerProxy.handleProxy env direct fresh /\
  SupabaseEdgeProxy.serve_handler env direct fresh
  = SupabaseEdgeProxy.handleProxy env direct fresh /\
  SupabaseEdgeProxy.serve_handler env deployed fresh
  = SupabaseEdgeProxy.handleUpload env deployed fresh /\
  CfWorkerProxy.fetch env deployed fresh = (inr (cloudflare_plain 404 not_found_body), fresh).
Proof.
  pose proof (@post_reaches_the_handler_of_its_route runtime (answering 200 [])
                (post "/proxy" echo_envelope) fresh eq_refl) as Hd.
  pose proof (@post_reaches_the_handler_of_its_route runtime (answering 200 [])
                (post "/functions/v1/sora-proxy/upload" upload_envelope) fresh eq_refl)
    as Hp.
  assert (Hnp : req_pathname (post "/functions/v1/sora-proxy/upload" upload_envelope)
                <> js "/proxy") by discriminate.
  assert (Hnu : req_pathname (post "/functions/v1/sora-proxy/upload" upload_envelope)
                <> js "/upload") by discriminate.
  exact (conj (proj1 Hd eq_refl)
          (conj (proj1 (proj2 (proj2 Hd)) eq_refl)
            (conj (proj1 (proj2 (proj2 (proj2 Hp))) eq_refl)
                  (proj2 (proj2 (proj2 (proj2 Hp))) (or_intror eq_refl) Hnp Hnu)))).
Defined.

(** Authorization and the caller's own Content-Type go out as they came. *)
Lemma caller_headers_forwarded_unchanged_witness :
  let env := answering 200 [] in
  let request := post "/proxy" authorized_envelope in
  exists call sent,
    calls (world_of (CfWorkerProxy.handleProxy env request fresh)) = calls fresh ++ [call] /\
    calls (world_of (SupabaseEdgeProxy.handleProxy env request fresh))
    = calls fresh ++ [call] /\
    call_url call = JString (js "https://example.test/echo") /\
    init_headers (call_init call) = JObject sent /\
    (forall name, name <> js "Content-Type" ->
                  assoc_get name sent = assoc_get name (caller_headers authorized_data)) /\
    (truthy (get_prop (JObject (caller_headers authorized_data)) (js "Content-Type")) = true ->
     sent = caller_headers authorized_data).
Proof.
  assert (Hparse : JSON_parse (req_body (post "/proxy" authorized_envelope))
                   = inr authorized_data) by (vm_compute; reflexivity).
  assert (Hvalid : valid_RelayRequest authorized_data (js "POST")
                                      (js "https://example.test/echo")).
  { unfold valid_RelayRequest.
    repeat split; try (vm_compute; reflexivity); try discriminate.
    right. eexists. vm_compute. reflexivity. }
  exact (@caller_headers_forwarded_unchanged runtime (answering 200 [])
           (post "/proxy" authorized_envelope) authorized_data (js "POST")
           (js "https://example.test/echo") fresh (conj Hparse Hvalid)).
Defined.

(** The eight bytes of the PNG signature. *)
Lemma encoded_image_uploaded_byte_for_byte_witness :
  let env := answering 200 (json_text "{'id':'media_1'}") in
  let request := post "/upload" upload_envelope in
  let call := upload_call png_signature (js "x.png") (js "t0k3n")
                          (js "https://example.test/uploads") in
  base64_encode png_signature = js "iVBORw0KGgo=" /\
  forgiving_base64_decode (base64_encode png_signature) = Some png_signature /\
  calls (world_of (CfWorkerProxy.handleUpload env request fresh)) = calls fresh ++ [call] /\
  calls (world_of (CfWorkerUpload.handleUpload env request fresh)) = calls fresh ++ [call] /\
  calls (world_of (SupabaseEdgeProxy.handleUpload env request fresh)) = calls fresh ++ [call].
Proof.
  assert (Hbytes : Forall (fun b => (b < 256)%N) png_signature)
    by (repeat constructor).
  split; [vm_compute; reflexivity|].
  exact (@encoded_image_uploaded_byte_for_byte runtime
           (answering 200 (json_text "{'id':'media_1'}")) (post "/upload" upload_envelope)
           upload_data png_signature (js "x.png") (js "t0k3n")
           (js "https://example.test/uploads") fresh Hbytes
           upload_envelope_parsed upload_data_valid).
Defined.
Lemma unpadded_not_rfc4648 : ~ rfc4648_base64 (js "QQ").
Proof.
  intros (bytes & _ & H). apply (f_equal (@length N)) in H.
  unfold base64_encode in H. rewrite length_app, length_map in H.
  change (length (js "QQ")) with 2%nat in H.
  destruct (encode_lengths bytes) as [k [(_ & Hl & Hp) | [(_ & Hl & Hp) | (_ & Hl & Hp)]]];
    rewrite Hl, Hp in H; cbn [length] in H; lia.
Qed.

(** The claim C7 as the specification words it fails: the image_data QQ is
    not valid base64 (it lacks its padding), and the byte it stands for is
    uploaded. *)
Lemma unpadded_base64_is_uploaded : ~ invalid_base64_fails_loudly.
Proof.
  intros claim.
  destruct (claim runtime (answering 200 (json_text "{'id':'media_1'}"))
                  (post "/upload" unpadded_envelope) unpadded_data
                  (js "QQ") (js "x.png") (js "t0k3n") (js "https://example.test/uploads")
                  fresh unpadded_envelope_parsed unpadded_data_valid unpadded_not_rfc4648)
    as (message & resp & Hresp & Hstatus & _).
  vm_compute in Hresp. inversion Hresp; subst resp.
  vm_compute in Hstatus. discriminate Hstatus.
Qed.
End FurtherClosedExamples.
